(** * AI-Stock: indicator library, signal generators and signal filter

    A shallow embedding of the generation and filtering core of the
    repository:

    - [MathUtils]            src/ai_stock/utils/math_utils.py
    - [ValidationUtils]      src/ai_stock/utils/validation_utils.py
    - [SignalFilter]         src/ai_stock/signals/filters/signal_filter.py
    - [TradingSignalGenerator], [TechnicalSignalGenerator]
                             src/ai_stock/signals/generators/

    Conventions.  Python floats are embedded as exact rationals [Q]; the
    comparisons of the source ([<], [>=], [==]) become the decidable
    comparisons of [Q].  Python exceptions are values of [PyExn] carried by
    [Result].  Instance state ([self]) is a record threaded explicitly.
    Readings of the wall clock ([time.time()], [datetime.now().date()]) are
    inputs of the call that performs them.  Logging through [self.logger]
    has no effect on any value and is left out; the reason counters updated
    by [_log_filter_reason] are part of the state.

    Where a statement depends on rounding or overflow, the function is
    embedded a second time on IEEE doubles ([MathUtilsFloat]). *)

From Stdlib Require Import String Ascii.
From Stdlib Require Import List ZArith QArith Qabs Qround Qminmax Lia Lqa.
From Stdlib Require Import Bool Permutation Sorted Arith.
From Stdlib Require PrimFloat Uint63.
Import ListNotations.

Set Implicit Arguments.

(* ================================================================== *)
(** * Python base layer *)

Module Py.

(** The exceptions that the embedded code can raise. *)
Inductive PyExn : Type :=
| ZeroDivisionError
| ValueError
| StatisticsError
| SignalGenerationError (cause : PyExn).

Inductive Result (A : Type) : Type :=
| Ok (a : A)
| Raise (e : PyExn).
Arguments Ok {A} a.
Arguments Raise {A} e.

Definition bind {A B} (m : Result A) (k : A -> Result B) : Result B :=
  match m with
  | Ok a => k a
  | Raise e => Raise e
  end.

(** [try: body except Exception as e: raise wrap(e)] *)
Definition try_except {A} (body : Result A) (handler : PyExn -> Result A)
  : Result A :=
  match body with
  | Ok a => Ok a
  | Raise e => handler e
  end.

Fixpoint mapM {A B} (f : A -> Result B) (l : list A) : Result (list B) :=
  match l with
  | [] => Ok []
  | x :: xs =>
      bind (f x) (fun y => bind (mapM f xs) (fun ys => Ok (y :: ys)))
  end.

(** [int -> float] *)
Definition of_nat (n : nat) : Q := inject_Z (Z.of_nat n).

(** [x / y] on floats. *)
Definition truediv (x y : Q) : Result Q :=
  if Qeq_bool y 0 then Raise ZeroDivisionError else Ok (x / y).

(** [sum(l)]: left to right from 0. *)
Definition sum (l : list Q) : Q := fold_left Qplus l 0.

(** [l[a:b]] for [0 <= a]. *)
Definition slice {A} (l : list A) (a b : nat) : list A :=
  firstn (b - a) (skipn a l).

(** [l[-n:]] for [n > 0]. *)
Definition last_n {A} (n : nat) (l : list A) : list A :=
  skipn (length l - n) l.

(** [range(a, b)] for [0 <= a]. *)
Definition range (a b : nat) : list nat := seq a (b - a).

Definition Qltb (x y : Q) : bool := negb (Qle_bool y x).

(** [min(a, b)] and [max(a, b)] on floats. *)
Definition py_min (a b : Q) : Q := if Qltb b a then b else a.
Definition py_max (a b : Q) : Q := if Qltb a b then b else a.

(** [int(x)] on a float: truncation toward zero. *)
Definition py_int (x : Q) : Z :=
  if Qle_bool 0 x then Qfloor x else Qceiling x.

End Py.
Import Py.

Declare Scope py_scope.
Notation "'let*' x ':=' m 'in' k" := (bind m (fun x => k))
  (at level 10, x name, m at level 100, k at level 200) : py_scope.
Open Scope py_scope.

(** The functions of Python's [math] module that the indicators call. They
    are not part of the repository; the embedding takes them as a
    parameter. [math.log] raises [ValueError] outside its domain, which
    is written out where it is called. *)
Record MathLib : Type := {
  math_log : Q -> Q;
  math_sqrt : Q -> Q
}.

(* ================================================================== *)
(** * utils/math_utils.py *)

Module MathUtils.

(** [MathUtils.calculate_sma(prices, period)].  With [period = 0] the
    loop [range(-1, len(prices))] is never empty and its first iteration
    divides by zero. *)
Definition calculate_sma (prices : list Q) (period : nat)
  : Result (list Q) :=
  match period with
  | O => Raise ZeroDivisionError
  | S _ =>
      if length prices <? period then Ok []
      else
        Ok (map (fun i => sum (slice prices (i + 1 - period) (i + 1))
                            / of_nat period)
                (range (period - 1) (length prices)))
  end.

(** The loop of [calculate_ema] after the seed: [prev] is
    [ema_values[-1]]. *)
Fixpoint ema_loop (alpha prev : Q) (rest : list Q) : list Q :=
  match rest with
  | [] => []
  | p :: rest' =>
      let ema := alpha * p + (1 - alpha) * prev in
      ema :: ema_loop alpha ema rest'
  end.

(** [MathUtils.calculate_ema(prices, period)]. *)
Definition calculate_ema (prices : list Q) (period : nat)
  : Result (list Q) :=
  if length prices <? period then Ok []
  else
    let* alpha := truediv 2 (of_nat (period + 1)) in
    let* first_ema := truediv (sum (firstn period prices)) (of_nat period) in
    Ok (first_ema :: ema_loop alpha first_ema (skipn period prices)).

(** [deltas = [prices[i] - prices[i-1] for i in range(1, len(prices))]] *)
Fixpoint deltas (prices : list Q) : list Q :=
  match prices with
  | [] => []
  | p :: rest =>
      match rest with
      | [] => []
      | q :: _ => (q - p) :: deltas rest
      end
  end.

Definition gain (d : Q) : Q := if Qltb 0 d then d else 0.
Definition loss (d : Q) : Q := if Qltb d 0 then - d else 0.

(** One RSI value from the current averages. *)
Definition rsi_value (avg_gain avg_loss : Q) : Q :=
  if Qeq_bool avg_loss 0 then 100
  else
    let rs := avg_gain / avg_loss in
    100 - (100 / (1 + rs)).

(** The loop [for i in range(period, len(deltas))] of [calculate_rsi];
    [ds] are the deltas not yet consumed. *)
Fixpoint rsi_loop (period : nat) (avg_gain avg_loss : Q) (ds : list Q)
  : list Q :=
  match ds with
  | [] => []
  | d :: ds' =>
      let avg_gain' :=
        (avg_gain * of_nat (period - 1) + gain d) / of_nat period in
      let avg_loss' :=
        (avg_loss * of_nat (period - 1) + loss d) / of_nat period in
      rsi_value avg_gain' avg_loss' :: rsi_loop period avg_gain' avg_loss' ds'
  end.

(** [MathUtils.calculate_rsi(prices, period)]. *)
Definition calculate_rsi (prices : list Q) (period : nat)
  : Result (list Q) :=
  if length prices <? period + 1 then Ok []
  else
    let ds := deltas prices in
    let gains := map gain ds in
    let losses := map loss ds in
    let* avg_gain := truediv (sum (firstn period gains)) (of_nat period) in
    let* avg_loss := truediv (sum (firstn period losses)) (of_nat period) in
    Ok (rsi_value avg_gain avg_loss
          :: rsi_loop period avg_gain avg_loss (skipn period ds)).

Section WithMath.
Variable lib : MathLib.

(** [statistics.stdev(data)]: the square root of the sample variance;
    [StatisticsError] below two data points. *)
Definition statistics_stdev (data : list Q) : Result Q :=
  if length data <? 2 then Raise StatisticsError
  else
    let n := of_nat (length data) in
    let mean := sum data / n in
    let ss := sum (map (fun x => (x - mean) * (x - mean)) data) in
    Ok (math_sqrt lib (ss / (n - 1))).

(** [MathUtils.calculate_bollinger_bands(prices, period, std_dev)],
    returning [(upper, middle, lower)]. *)
Definition calculate_bollinger_bands
    (prices : list Q) (period : nat) (std_dev : Q)
  : Result (list Q * list Q * list Q) :=
  if length prices <? period then Ok ([], [], [])
  else
    let* middle_band := calculate_sma prices period in
    let* bands := mapM (fun i =>
               let* std := statistics_stdev
                        (slice prices (i + 1 - period) (i + 1)) in
               let ma := nth (i + 1 - period) middle_band 0 in
               Ok (ma + std_dev * std, ma - std_dev * std))
             (range (period - 1) (length prices)) in
    Ok (map fst bands, middle_band, map snd bands).

(** [MathUtils.calculate_macd(prices, fast, slow, signal)], returning
    [(macd_line, signal_line, histogram)]. *)
Definition calculate_macd
    (prices : list Q) (fast_period slow_period signal_period : nat)
  : Result (list Q * list Q * list Q) :=
  if length prices <? slow_period then Ok ([], [], [])
  else
    let* fast_ema := calculate_ema prices fast_period in
    let* slow_ema := calculate_ema prices slow_period in
    let fast_ema_aligned :=
      if (slow_period <? fast_period)%nat
      then last_n (fast_period - slow_period) fast_ema
      else skipn (slow_period - fast_period) fast_ema in
    let macd_line :=
      map (fun fs => fst fs - snd fs) (combine fast_ema_aligned slow_ema) in
    let* signal_line := calculate_ema macd_line signal_period in
    let signal_start := (length macd_line - length signal_line)%nat in
    let histogram :=
      map (fun i => nth (signal_start + i) macd_line 0
                    - nth i signal_line 0)
          (range 0 (length signal_line)) in
    Ok (macd_line, signal_line, histogram).

(** The log returns of [calculate_volatility]:
    [math.log(prices[i] / prices[i-1])]. *)
Fixpoint log_returns (prices : list Q) : Result (list Q) :=
  match prices with
  | [] => Ok []
  | p :: rest =>
      match rest with
      | [] => Ok []
      | q :: _ =>
          let* ratio := truediv q p in
          let* ret := (if Qle_bool ratio 0 then Raise ValueError
                  else Ok (math_log lib ratio)) in
          let* rets := log_returns rest in
          Ok (ret :: rets)
      end
  end.

(** [MathUtils.calculate_volatility(prices, period)].  With
    [period = 0] the loop [range(-1, len(returns))] starts with the
    empty window, on which [statistics.stdev] raises. *)
Definition calculate_volatility (prices : list Q) (period : nat)
  : Result (list Q) :=
  if length prices <? period + 1 then Ok []
  else
    let* returns := log_returns prices in
    match period with
    | O => Raise StatisticsError
    | S _ =>
        mapM (fun i =>
                let* sd := statistics_stdev
                        (slice returns (i + 1 - period) (i + 1)) in
                Ok (sd * math_sqrt lib 252))
             (range (period - 1) (length returns))
    end.

End WithMath.

(** [MathUtils.safe_divide(numerator, denominator, default)] on floats. *)
Definition safe_divide (numerator denominator default : Q) : Q :=
  if Qeq_bool denominator 0 then default
  else
    match truediv numerator denominator with
    | Ok r => r
    | Raise _ => default
    end.

(** [MathUtils.calculate_percentage_change(current, previous)] *)
Definition calculate_percentage_change (current previous : Q) : Q :=
  if Qeq_bool previous 0 then 0
  else
    match truediv (current - previous) previous with
    | Ok r => r
    | Raise _ => 0
    end.















End MathUtils.

(* ================================================================== *)
(** * utils/math_utils.py on IEEE doubles *)

(** [calculate_rsi] on Python's own [float]: binary64 with rounding to
    nearest even, which is what the primitive floats compute.  An exact
    integer ([period], the literal [0] of [gains] and [losses]) enters the
    arithmetic through its conversion to a double. *)
Module MathUtilsFloat.
Import PrimFloat.
Local Open Scope float_scope.

(** [int -> float], exact below [2^53]. *)
Definition of_nat (n : nat) : float :=
  of_uint63 (Uint63.of_Z (Z.of_nat n)).

(** [x / y]: Python raises where IEEE would return an infinity or a
    NaN. *)
Definition truediv (x y : float) : Result float :=
  if y =? 0 then Raise ZeroDivisionError else Ok (x / y).

(** [sum(l)]: left to right from 0.  CPython 3.12 and later compensate
    the rounding error of the partial sums; where every partial sum is
    exact or infinite, as on the series of [FloatSamples], the two
    agree. *)
Definition sum (l : list float) : float := fold_left add l 0.

(** [deltas = [prices[i] - prices[i-1] for i in range(1, len(prices))]] *)
Fixpoint deltas (prices : list float) : list float :=
  match prices with
  | [] => []
  | p :: rest =>
      match rest with
      | [] => []
      | q :: _ => (q - p) :: deltas rest
      end
  end.

Definition gain (d : float) : float := if 0 <? d then d else 0.
Definition loss (d : float) : float := if d <? 0 then - d else 0.

(** One RSI value from the current averages. *)
Definition rsi_value (avg_gain avg_loss : float) : Result float :=
  if avg_loss =? 0 then Ok 100
  else
    let* rs := truediv avg_gain avg_loss in
    let* quotient := truediv 100 (1 + rs) in
    Ok (100 - quotient).

(** The loop [for i in range(period, len(deltas))] of [calculate_rsi];
    [ds] are the deltas not yet consumed.  Next to each RSI value the
    loop records the [avg_loss] it was computed from. *)
Fixpoint rsi_loop (period : nat) (avg_gain avg_loss : float)
  (ds : list float) : Result (list (float * float)) :=
  match ds with
  | [] => Ok []
  | d :: ds' =>
      let* avg_gain' :=
        truediv (avg_gain * of_nat (period - 1) + gain d) (of_nat period) in
      let* avg_loss' :=
        truediv (avg_loss * of_nat (period - 1) + loss d) (of_nat period) in
      let* rsi := rsi_value avg_gain' avg_loss' in
      let* rest := rsi_loop period avg_gain' avg_loss' ds' in
      Ok ((rsi, avg_loss') :: rest)
  end.

(** The body of [calculate_rsi]: every appended value with its
    [avg_loss]. *)
Definition rsi_trace (prices : list float) (period : nat)
  : Result (list (float * float)) :=
  if (length prices <? period + 1)%nat then Ok []
  else
    let ds := deltas prices in
    let gains := map gain ds in
    let losses := map loss ds in
    let* avg_gain := truediv (sum (firstn period gains)) (of_nat period) in
    let* avg_loss := truediv (sum (firstn period losses)) (of_nat period) in
    let* rsi := rsi_value avg_gain avg_loss in
    let* rest := rsi_loop period avg_gain avg_loss (skipn period ds) in
    Ok ((rsi, avg_loss) :: rest).

(** [MathUtils.calculate_rsi(prices, period)]. *)
Definition calculate_rsi (prices : list float) (period : nat)
  : Result (list float) :=
  let* trace := rsi_trace prices period in
  Ok (map fst trace).

End MathUtilsFloat.

(* ================================================================== *)
(** * Dictionaries

    A Python [dict] with string keys, as an association list in insertion
    order (the order in which [dict.items()] iterates). *)

Module Dict.

Definition t (V : Type) : Type := list (string * V).

Fixpoint get {V} (d : t V) (k : string) : option V :=
  match d with
  | [] => None
  | (k', v) :: d' => if String.eqb k k' then Some v else get d' k
  end.

(** [d.get(k, default)] *)
Definition get_default {V} (d : t V) (k : string) (default : V) : V :=
  match get d k with
  | Some v => v
  | None => default
  end.

(** [d[k] = v]: an existing key keeps its position. *)
Fixpoint set {V} (d : t V) (k : string) (v : V) : t V :=
  match d with
  | [] => [(k, v)]
  | (k', v') :: d' =>
      if String.eqb k k' then (k', v) :: d' else (k', v') :: set d' k v
  end.

Definition keys {V} (d : t V) : list string := map fst d.

End Dict.

(* ================================================================== *)
(** * core/types.py *)

Inductive OrderSide : Type := BUY | SELL.

Inductive SignalStrength : Type := STRONG | MODERATE | WEAK.

Definition OrderSide_eqb (a b : OrderSide) : bool :=
  match a, b with
  | BUY, BUY | SELL, SELL => true
  | _, _ => false
  end.

Module Kline.
Record t : Type := {
  open_time : Z;
  open : Q;
  high : Q;
  low : Q;
  close : Q;
  volume : Q;
  close_time : Z;
  symbol : string;
  quote_volume : option Q
}.
End Kline.

Module MarketData.
Record t : Type := {
  klines : list Kline.t;
  symbol : string;
  timestamp : Z
}.
End MarketData.

Module Signal.
(** [timestamp] is in milliseconds; [__post_init__] replaces [None] by
    the current time, so a constructed signal always carries one. *)
Record t : Type := {
  id : string;
  symbol : string;
  side : OrderSide;
  price : Q;
  confidence : Q;
  reason : string;
  strength : SignalStrength;
  timestamp : Z;
  stop_loss : option Q;
  take_profit : option Q;
  volume : option Q
}.
End Signal.

(* ================================================================== *)
(** * utils/validation_utils.py *)

Module ValidationUtils.

Definition is_lower (c : ascii) : bool :=
  let n := nat_of_ascii c in ((97 <=? n) && (n <=? 122))%nat.

(** [str.upper()] on ASCII text. *)
Definition upper (c : ascii) : ascii :=
  if is_lower c then ascii_of_nat (nat_of_ascii c - 32) else c.

(** The character class [[A-Z0-9]]. *)
Definition is_symbol_char (c : ascii) : bool :=
  let n := nat_of_ascii c in
  (((65 <=? n) && (n <=? 90)) || ((48 <=? n) && (n <=? 57)))%nat.

(** [re.match(r'^[A-Z0-9]{3,20}$', s)]: [$] also matches just before a
    final newline. *)
Definition matches_symbol_pattern (s : list ascii) : bool :=
  let body :=
    match rev s with
    | c :: r => if Ascii.eqb c "010"%char then rev r else s
    | [] => s
    end in
  ((3 <=? length body) && (length body <=? 20))%nat
  && forallb is_symbol_char body.

(** [ValidationUtils.validate_symbol]; symbols are ASCII strings. *)
Definition validate_symbol (symbol : string) : bool :=
  if String.eqb symbol ""%string then false
  else matches_symbol_pattern (map upper (list_ascii_of_string symbol)).

(** [ValidationUtils.validate_price] *)
Definition validate_price (price : Q) : bool := Qltb 0 price.

(** [ValidationUtils.validate_volume] *)
Definition validate_volume (volume : Q) : bool := Qle_bool 0 volume.

(** [ValidationUtils.validate_timestamp]: seconds are read as
    milliseconds below [1e10]. *)
Definition validate_timestamp (timestamp : Z) : bool :=
  let ts := if (timestamp <? 10000000000)%Z then (timestamp * 1000)%Z
            else timestamp in
  ((0 <=? ts) && (ts <=? 4102444800000))%Z.

(** [ValidationUtils.validate_confidence] *)
Definition validate_confidence (confidence : Q) : bool :=
  Qle_bool 0 confidence && Qle_bool confidence 1.

Inductive SignalError : Type :=
| InvalidId | InvalidSymbol | InvalidPrice | InvalidConfidence
| EmptyReason | InvalidTimestamp | InvalidStopLoss | InvalidTakeProfit
| InvalidVolume
| BuyStopLossNotBelow | BuyTakeProfitNotAbove
| SellStopLossNotAbove | SellTakeProfitNotBelow.

(** Truthiness of an [Optional[float]]: neither [None] nor zero. *)
Definition truthy (x : option Q) : option Q :=
  match x with
  | Some v => if Qeq_bool v 0 then None else Some v
  | None => None
  end.

Definition check (failed : bool) (e : SignalError) : list SignalError :=
  if failed then [e] else [].

(** [ValidationUtils.validate_signal]: the list of errors, empty when the
    signal is valid.  Membership of [side] and [strength] in their enums
    holds by typing. *)
Definition validate_signal (signal : Signal.t) : list SignalError :=
  let price := Signal.price signal in
  check (String.eqb (Signal.id signal) ""%string) InvalidId
  ++ check (negb (validate_symbol (Signal.symbol signal))) InvalidSymbol
  ++ check (negb (validate_price price)) InvalidPrice
  ++ check (negb (validate_confidence (Signal.confidence signal)))
           InvalidConfidence
  ++ check (String.eqb (Signal.reason signal) ""%string) EmptyReason
  ++ check (negb (Signal.timestamp signal =? 0)%Z
            && negb (validate_timestamp (Signal.timestamp signal)))
           InvalidTimestamp
  ++ check (match Signal.stop_loss signal with
            | Some sl => negb (validate_price sl)
            | None => false
            end) InvalidStopLoss
  ++ check (match Signal.take_profit signal with
            | Some tp => negb (validate_price tp)
            | None => false
            end) InvalidTakeProfit
  ++ check (match Signal.volume signal with
            | Some v => negb (validate_volume v)
            | None => false
            end) InvalidVolume
  ++ match Signal.side signal with
     | BUY =>
         check (match truthy (Signal.stop_loss signal) with
                | Some sl => Qle_bool price sl
                | None => false
                end) BuyStopLossNotBelow
         ++ check (match truthy (Signal.take_profit signal) with
                   | Some tp => Qle_bool tp price
                   | None => false
                   end) BuyTakeProfitNotAbove
     | SELL =>
         check (match truthy (Signal.stop_loss signal) with
                | Some sl => Qle_bool sl price
                | None => false
                end) SellStopLossNotAbove
         ++ check (match truthy (Signal.take_profit signal) with
                   | Some tp => Qle_bool price tp
                   | None => false
                   end) SellTakeProfitNotBelow
     end.

(** [ValidationUtils.validate_percentage] *)
Definition validate_percentage (percentage : Q) : bool :=
  Qle_bool (-1) percentage && Qle_bool percentage 1.




End ValidationUtils.

(* ================================================================== *)
(** * signals/filters/signal_filter.py *)

Module SignalFilter.

(** The keys of the [config] dictionary that the filter reads; a missing
    key is [None] and falls back to the default of [__init__].  The keys
    [min_price_change], [max_correlation], [max_spread] and
    [max_position_size] are stored by [__init__] but never read again and
    are left out. *)
Record Config : Type := {
  cfg_min_confidence : option Q;
  cfg_max_signals_per_symbol : option nat;
  cfg_signal_cooldown : option Q;
  cfg_min_volume : option Q;
  cfg_min_price : option Q;
  cfg_volatility_threshold : option Q;
  cfg_max_daily_signals : option nat;
  cfg_blacklist_symbols : list string;
  cfg_volatility_filter_enabled : option bool;
  cfg_daily_limit_enabled : option bool
}.

Definition or_default {A} (x : option A) (d : A) : A :=
  match x with
  | Some v => v
  | None => d
  end.

Record MarketFilters : Type := {
  min_volume : Q;
  min_price : Q;
  volatility_threshold : Q
}.

Record RiskFilters : Type := {
  max_daily_signals : nat;
  blacklist_symbols : list string
}.

Record Stats : Type := {
  total_processed : nat;
  total_filtered : nat;
  filter_reasons : Dict.t nat;
  accepted_signals : nat
}.

(** The instance state.  [_filter_rules] is recomputed from [config] by
    [__init__] and by [update_config], the only writers of [config]; it is
    therefore read as [_initialize_filter_rules] of the state. *)
Record t : Type := {
  config : Config;
  min_confidence : Q;
  max_signals_per_symbol : nat;
  signal_cooldown : Q;
  market_filters : MarketFilters;
  risk_filters : RiskFilters;
  _signal_history : list Signal.t;
  _symbol_last_signal : Dict.t Q;
  _daily_signal_count : nat;
  _last_reset_date : Z;
  _stats : Stats
}.

Definition empty_stats : Stats :=
  {| total_processed := 0; total_filtered := 0;
     filter_reasons := []; accepted_signals := 0 |}.

(** [SignalFilter.__init__(config)]; [today] is [datetime.now().date()]
    as a day number. *)
Definition __init__ (cfg : Config) (today : Z) : t :=
  {| config := cfg;
     min_confidence := or_default (cfg_min_confidence cfg) (1 # 2);
     max_signals_per_symbol := or_default (cfg_max_signals_per_symbol cfg) 3%nat;
     signal_cooldown := or_default (cfg_signal_cooldown cfg) 300;
     market_filters :=
       {| min_volume := or_default (cfg_min_volume cfg) 1000;
          min_price := or_default (cfg_min_price cfg) (1 # 100);
          volatility_threshold :=
            or_default (cfg_volatility_threshold cfg) (1 # 10) |};
     risk_filters :=
       {| max_daily_signals := or_default (cfg_max_daily_signals cfg) 20%nat;
          blacklist_symbols := cfg_blacklist_symbols cfg |};
     _signal_history := [];
     _symbol_last_signal := [];
     _daily_signal_count := 0;
     _last_reset_date := today;
     _stats := empty_stats |}.

Definition set_stats (self : t) (s : Stats) : t :=
  {| config := config self;
     min_confidence := min_confidence self;
     max_signals_per_symbol := max_signals_per_symbol self;
     signal_cooldown := signal_cooldown self;
     market_filters := market_filters self;
     risk_filters := risk_filters self;
     _signal_history := _signal_history self;
     _symbol_last_signal := _symbol_last_signal self;
     _daily_signal_count := _daily_signal_count self;
     _last_reset_date := _last_reset_date self;
     _stats := s |}.

(** [self._stats["total_processed"] += 1] and its two siblings. *)
Definition incr_total_processed (self : t) : t :=
  let s := _stats self in
  set_stats self
    {| total_processed := S (total_processed s);
       total_filtered := total_filtered s;
       filter_reasons := filter_reasons s;
       accepted_signals := accepted_signals s |}.

Definition incr_total_filtered (self : t) : t :=
  let s := _stats self in
  set_stats self
    {| total_processed := total_processed s;
       total_filtered := S (total_filtered s);
       filter_reasons := filter_reasons s;
       accepted_signals := accepted_signals s |}.

Definition incr_accepted_signals (self : t) : t :=
  let s := _stats self in
  set_stats self
    {| total_processed := total_processed s;
       total_filtered := total_filtered s;
       filter_reasons := filter_reasons s;
       accepted_signals := S (accepted_signals s) |}.

(** [_log_filter_reason]: [self._stats["filter_reasons"][reason] += 1]. *)
Definition _log_filter_reason (self : t) (reason : string) : t :=
  let s := _stats self in
  set_stats self
    {| total_processed := total_processed s;
       total_filtered := total_filtered s;
       filter_reasons :=
         Dict.set (filter_reasons s) reason
                  (S (Dict.get_default (filter_reasons s) reason 0%nat));
       accepted_signals := accepted_signals s |}.

(** How often [reason] has been logged. *)
Definition reason_count (self : t) (reason : string) : nat :=
  Dict.get_default (filter_reasons (_stats self)) reason 0%nat.

(** The per-batch [context] dictionary. [signal_history] is what the
    name [context["signal_history"]] denotes when a rule reads it. *)
Record Context : Type := {
  market_data : Dict.t MarketData.t;
  signal_history : list Signal.t;
  current_time : Q
}.

(** A rule predicate: it reads [self], may log a reason, and returns
    a boolean or raises. *)
Definition RuleFn : Type := t -> Signal.t -> Context -> Result bool * t.

Record FilterRule : Type := {
  name : string;
  enabled : bool;
  priority : nat;
  filter_func : RuleFn;
  description : string
}.

Definition accept (self : t) : Result bool * t := (Ok true, self).
Definition reject (self : t) (reason : string) : Result bool * t :=
  (Ok false, _log_filter_reason self reason).

Definition _filter_by_confidence : RuleFn := fun self signal context =>
  if Qltb (Signal.confidence signal) (min_confidence self)
  then reject self "low_confidence"
  else accept self.

Definition _filter_by_cooldown : RuleFn := fun self signal context =>
  let last_signal_time :=
    Dict.get_default (_symbol_last_signal self) (Signal.symbol signal) 0 in
  if Qltb (current_time context - last_signal_time) (signal_cooldown self)
  then reject self "cooldown"
  else accept self.

Definition _filter_by_volume : RuleFn := fun self signal context =>
  match Dict.get (market_data context) (Signal.symbol signal) with
  | None => accept self
  | Some md =>
      match rev (MarketData.klines md) with
      | [] => accept self
      | latest_kline :: _ =>
          if Qltb (Kline.volume latest_kline)
                  (min_volume (market_filters self))
          then reject self "low_volume"
          else accept self
      end
  end.

Definition _filter_by_price : RuleFn := fun self signal context =>
  if Qltb (Signal.price signal) (min_price (market_filters self))
  then reject self "low_price"
  else accept self.

Definition _filter_by_volatility (lib : MathLib) : RuleFn :=
  fun self signal context =>
  match Dict.get (market_data context) (Signal.symbol signal) with
  | None => accept self
  | Some md =>
      match MarketData.klines md with
      | [] => accept self
      | _ :: _ =>
          let prices := map Kline.close (last_n 20 (MarketData.klines md)) in
          if (length prices <? 10)%nat then accept self
          else
            match MathUtils.calculate_volatility lib prices (length prices)
            with
            | Raise e => (Raise e, self)
            | Ok [] => accept self
            | Ok (v :: vs) =>
                let current_vol := last (v :: vs) 0 in
                if Qltb (volatility_threshold (market_filters self))
                        current_vol
                then reject self "high_volatility"
                else accept self
            end
      end
  end.

Definition _filter_by_blacklist : RuleFn := fun self signal context =>
  if existsb (String.eqb (Signal.symbol signal))
             (blacklist_symbols (risk_filters self))
  then reject self "blacklisted"
  else accept self.

(** [_are_signals_similar(signal1, signal2)] *)
Definition _are_signals_similar (signal1 signal2 : Signal.t) : Result bool :=
  if negb (String.eqb (Signal.symbol signal1) (Signal.symbol signal2))
     || negb (OrderSide_eqb (Signal.side signal1) (Signal.side signal2))
  then Ok false
  else
    let* price_diff :=
      truediv (Qabs (Signal.price signal1 - Signal.price signal2))
              (Signal.price signal2) in
    if Qltb (1 # 100) price_diff then Ok false
    else
      let confidence_diff :=
        Qabs (Signal.confidence signal1 - Signal.confidence signal2) in
      if Qltb (1 # 10) confidence_diff then Ok false
      else Ok true.

(** The loop of [_filter_duplicates] over [signal_history[-50:]]. *)
Fixpoint duplicates_loop (self : t) (signal : Signal.t) (now : Q)
    (history : list Signal.t) : Result bool * t :=
  match history with
  | [] => accept self
  | historical_signal :: rest =>
      if Qltb 600 (now - inject_Z (Signal.timestamp historical_signal) / 1000)
      then duplicates_loop self signal now rest
      else
        match _are_signals_similar signal historical_signal with
        | Raise e => (Raise e, self)
        | Ok true => reject self "duplicate"
        | Ok false => duplicates_loop self signal now rest
        end
  end.

Definition _filter_duplicates : RuleFn := fun self signal context =>
  duplicates_loop self signal (current_time context)
                  (last_n 50 (signal_history context)).

Definition _filter_by_daily_limit : RuleFn := fun self signal context =>
  if (max_daily_signals (risk_filters self) <=? _daily_signal_count self)%nat
  then reject self "daily_limit"
  else accept self.

(** [sorted(rules, key=lambda x: x.priority)]: stable. *)
Fixpoint insert_by_priority (r : FilterRule) (l : list FilterRule)
  : list FilterRule :=
  match l with
  | [] => [r]
  | r' :: l' =>
      if (priority r <=? priority r')%nat then r :: r' :: l'
      else r' :: insert_by_priority r l'
  end.

Definition sorted_by_priority (l : list FilterRule) : list FilterRule :=
  fold_right insert_by_priority [] l.

(** The eight [FilterRule(...)] entries of [_initialize_filter_rules]. *)
Definition confidence_rule : FilterRule :=
  {| name := "confidence_filter"; enabled := true; priority := 1;
     filter_func := _filter_by_confidence;
     description := "filter by confidence" |}.

Definition cooldown_rule : FilterRule :=
  {| name := "cooldown_filter"; enabled := true; priority := 2;
     filter_func := _filter_by_cooldown;
     description := "filter by cooldown" |}.

Definition volume_rule : FilterRule :=
  {| name := "volume_filter"; enabled := true; priority := 3;
     filter_func := _filter_by_volume;
     description := "filter by volume" |}.

Definition price_rule : FilterRule :=
  {| name := "price_filter"; enabled := true; priority := 4;
     filter_func := _filter_by_price;
     description := "filter by price" |}.

Definition volatility_rule (lib : MathLib) (self : t) : FilterRule :=
  {| name := "volatility_filter";
     enabled := or_default (cfg_volatility_filter_enabled (config self)) true;
     priority := 5;
     filter_func := _filter_by_volatility lib;
     description := "filter by volatility" |}.

Definition blacklist_rule : FilterRule :=
  {| name := "blacklist_filter"; enabled := true; priority := 6;
     filter_func := _filter_by_blacklist;
     description := "blacklist" |}.

Definition duplicate_rule : FilterRule :=
  {| name := "duplicate_filter"; enabled := true; priority := 7;
     filter_func := _filter_duplicates;
     description := "duplicate signals" |}.

Definition daily_limit_rule (self : t) : FilterRule :=
  {| name := "daily_limit_filter";
     enabled := or_default (cfg_daily_limit_enabled (config self)) true;
     priority := 8;
     filter_func := _filter_by_daily_limit;
     description := "daily signal limit" |}.

(** The list [rules] of [_initialize_filter_rules], before the [enabled]
    comprehension and the sort. *)
Definition declared_rules (lib : MathLib) (self : t) : list FilterRule :=
  [ confidence_rule; cooldown_rule; volume_rule; price_rule;
    volatility_rule lib self; blacklist_rule; duplicate_rule;
    daily_limit_rule self ].

(** [_initialize_filter_rules] *)
Definition _initialize_filter_rules (lib : MathLib) (self : t)
  : list FilterRule :=
  sorted_by_priority (filter enabled (declared_rules lib self)).

(** [_validate_signal_basic] *)
Definition _validate_signal_basic (self : t) (signal : Signal.t)
  : bool * t :=
  match ValidationUtils.validate_signal signal with
  | [] => (true, self)
  | _ :: _ => (false, _log_filter_reason self "validation_failed")
  end.

(** The loop of [_apply_filter_rules] over a rule list.  Besides the
    verdict it returns the names of the rules whose [filter_func] was
    called, in call order (a ghost output). *)
Fixpoint apply_rules (rules : list FilterRule) (self : t)
    (signal : Signal.t) (context : Context) : bool * list string * t :=
  match rules with
  | [] => (true, [], self)
  | rule :: rest =>
      match filter_func rule self signal context with
      | (Ok true, self') =>
          let '(verdict, called, self'') :=
            apply_rules rest self' signal context in
          (verdict, name rule :: called, self'')
      | (Ok false, self') => (false, [name rule], self')
      | (Raise _, self') => (false, [name rule], self')
      end
  end.

(** [_apply_filter_rules] *)
Definition _apply_filter_rules (lib : MathLib) (self : t)
    (signal : Signal.t) (context : Context) : bool * list string * t :=
  apply_rules (_initialize_filter_rules lib self) self signal context.

(** [_update_signal_state(signal)]; [current_time] is its own reading of
    [time.time()]. *)
Definition _update_signal_state (self : t) (signal : Signal.t)
    (current_time : Q) : t :=
  let appended := _signal_history self ++ [signal] in
  {| config := config self;
     min_confidence := min_confidence self;
     max_signals_per_symbol := max_signals_per_symbol self;
     signal_cooldown := signal_cooldown self;
     market_filters := market_filters self;
     risk_filters := risk_filters self;
     _signal_history :=
       if (1000 <? length appended)%nat then last_n 500 appended
       else appended;
     _symbol_last_signal :=
       Dict.set (_symbol_last_signal self) (Signal.symbol signal)
                current_time;
     _daily_signal_count := S (_daily_signal_count self);
     _last_reset_date := _last_reset_date self;
     _stats := _stats self |}.

(** [_reset_daily_count_if_needed]; [current_date] is
    [datetime.now().date()]. *)
Definition _reset_daily_count_if_needed (self : t) (current_date : Z) : t :=
  if (current_date =? _last_reset_date self)%Z then self
  else
    {| config := config self;
       min_confidence := min_confidence self;
       max_signals_per_symbol := max_signals_per_symbol self;
       signal_cooldown := signal_cooldown self;
       market_filters := market_filters self;
       risk_filters := risk_filters self;
       _signal_history := _signal_history self;
       _symbol_last_signal := _symbol_last_signal self;
       _daily_signal_count := 0;
       _last_reset_date := current_date;
       _stats := _stats self |}.

(** [signals.sort(key=lambda s: s.confidence, reverse=True)]: a stable
    sort, equal confidences keep their input order. *)
Fixpoint insert_by_confidence (s : Signal.t) (l : list Signal.t)
  : list Signal.t :=
  match l with
  | [] => [s]
  | s' :: l' =>
      if Qle_bool (Signal.confidence s') (Signal.confidence s)
      then s :: s' :: l'
      else s' :: insert_by_confidence s l'
  end.

Definition sort_by_confidence_desc (l : list Signal.t) : list Signal.t :=
  fold_right insert_by_confidence [] l.

(** [symbol_groups[signal.symbol].append(signal)] on a
    [defaultdict(list)]. *)
Fixpoint group_append (groups : Dict.t (list Signal.t)) (signal : Signal.t)
  : Dict.t (list Signal.t) :=
  match groups with
  | [] => [(Signal.symbol signal, [signal])]
  | (k, g) :: rest =>
      if String.eqb (Signal.symbol signal) k
      then (k, g ++ [signal]) :: rest
      else (k, g) :: group_append rest signal
  end.

Definition group_by_symbol (signals : list Signal.t)
  : Dict.t (list Signal.t) :=
  fold_left group_append signals [].

(** [_post_process_signals(signals)] *)
Definition _post_process_signals (self : t) (signals : list Signal.t)
  : list Signal.t :=
  match signals with
  | [] => []
  | _ :: _ =>
      let sorted := sort_by_confidence_desc signals in
      let symbol_groups := group_by_symbol sorted in
      let final_signals :=
        flat_map (fun kg => firstn (max_signals_per_symbol self) (snd kg))
                 symbol_groups in
      sort_by_confidence_desc final_signals
  end.

(** The state of the loop of [filter_signals].  [context] holds a
    reference to the list object [self._signal_history]: appends are seen
    through it, but once [_update_signal_state] trims the history it
    rebinds [self._signal_history] to a new list and [context] keeps the
    old object. [ls_detached] is [None] while the two names denote the
    same object, and holds the old object afterwards. *)
Record LoopState : Type := {
  ls_self : t;
  ls_detached : option (list Signal.t);
  ls_filtered : list Signal.t
}.

Definition context_history (detached : option (list Signal.t)) (self : t)
  : list Signal.t :=
  match detached with
  | Some l => l
  | None => _signal_history self
  end.

(** One iteration of [for signal in signals].  [clk 0] is the reading of
    [time.time()] stored in [context]; [clk k] for [k >= 1] is the reading
    taken by the [k]-th call of [_update_signal_state].  No exception
    reaches the [except] clause of the loop: [_validate_signal_basic] and
    [_apply_filter_rules] catch their own. *)
Definition filter_step (lib : MathLib) (market_data : Dict.t MarketData.t)
    (clk : nat -> Q) (st : LoopState) (signal : Signal.t) : LoopState :=
  let self1 := incr_total_processed (ls_self st) in
  match _validate_signal_basic self1 signal with
  | (false, self2) =>
      {| ls_self := self2;
         ls_detached := ls_detached st;
         ls_filtered := ls_filtered st |}
  | (true, self2) =>
      let context :=
        {| market_data := market_data;
           signal_history := context_history (ls_detached st) self2;
           current_time := clk 0%nat |} in
      match _apply_filter_rules lib self2 signal context with
      | (true, _, self3) =>
          let self4 := incr_accepted_signals self3 in
          let appended := _signal_history self4 ++ [signal] in
          {| ls_self :=
               _update_signal_state self4 signal
                 (clk (S (length (ls_filtered st))));
             ls_detached :=
               match ls_detached st with
               | Some l => Some l
               | None =>
                   if (1000 <? length appended)%nat then Some appended
                   else None
               end;
             ls_filtered := ls_filtered st ++ [signal] |}
      | (false, _, self3) =>
          {| ls_self := incr_total_filtered self3;
             ls_detached := ls_detached st;
             ls_filtered := ls_filtered st |}
      end
  end.

(** The loop of [filter_signals], after the daily reset. *)
Definition filter_loop (lib : MathLib) (market_data : Dict.t MarketData.t)
    (clk : nat -> Q) (self : t) (signals : list Signal.t) : LoopState :=
  fold_left (filter_step lib market_data clk) signals
            {| ls_self := self; ls_detached := None; ls_filtered := [] |}.

(** [filter_signals(signals, market_data)]: the returned list and the
    state afterwards.  [today] is the date read by
    [_reset_daily_count_if_needed]. *)
Definition filter_signals (lib : MathLib) (self : t) (today : Z)
    (clk : nat -> Q) (signals : list Signal.t)
    (market_data : option (Dict.t MarketData.t)) : list Signal.t * t :=
  match signals with
  | [] => ([], self)
  | _ :: _ =>
      let self1 := _reset_daily_count_if_needed self today in
      let st := filter_loop lib (or_default market_data []) clk self1
                            signals in
      (_post_process_signals (ls_self st) (ls_filtered st), ls_self st)
  end.

(** Whether [signal] passes validation and the whole rule chain in the
    iteration that starts in loop state [st]. *)
Definition passes_chain (lib : MathLib) (market_data : Dict.t MarketData.t)
    (clk : nat -> Q) (st : LoopState) (signal : Signal.t) : bool :=
  let self1 := incr_total_processed (ls_self st) in
  match _validate_signal_basic self1 signal with
  | (false, _) => false
  | (true, self2) =>
      let context :=
        {| market_data := market_data;
           signal_history := context_history (ls_detached st) self2;
           current_time := clk 0%nat |} in
      fst (fst (_apply_filter_rules lib self2 signal context))
  end.

(** One call of [filter_signals] with the readings it takes. *)
Record Call : Type := {
  call_today : Z;
  call_clock : nat -> Q;
  call_signals : list Signal.t;
  call_market_data : option (Dict.t MarketData.t)
}.

Definition call (lib : MathLib) (self : t) (c : Call) : list Signal.t * t :=
  filter_signals lib self (call_today c) (call_clock c) (call_signals c)
                 (call_market_data c).

(** The state after a sequence of calls. *)
Definition run_calls (lib : MathLib) (self : t) (calls : list Call) : t :=
  fold_left (fun s c => snd (call lib s c)) calls self.

(** The number of signals that pass the rule chain during one call. *)
Definition chain_passes (lib : MathLib) (self : t) (c : Call) : nat :=
  match call_signals c with
  | [] => 0
  | _ :: _ =>
      length (ls_filtered
                (filter_loop lib (or_default (call_market_data c) [])
                   (call_clock c)
                   (_reset_daily_count_if_needed self (call_today c))
                   (call_signals c)))
  end.

(** The number of signals that pass the rule chain in the calls made on
    date [d], over a sequence of calls started in state [self]. *)
Fixpoint passed_on_date (lib : MathLib) (d : Z) (self : t)
    (calls : list Call) : nat :=
  match calls with
  | [] => 0
  | c :: rest =>
      ((if (call_today c =? d)%Z then chain_passes lib self c else 0)
       + passed_on_date lib d (snd (call lib self c)) rest)%nat
  end.







(** [clear_history()] *)
Definition clear_history (self : t) : t :=
  {| config := config self;
     min_confidence := min_confidence self;
     max_signals_per_symbol := max_signals_per_symbol self;
     signal_cooldown := signal_cooldown self;
     market_filters := market_filters self;
     risk_filters := risk_filters self;
     _signal_history := [];
     _symbol_last_signal := [];
     _daily_signal_count := _daily_signal_count self;
     _last_reset_date := _last_reset_date self;
     _stats := _stats self |}.





End SignalFilter.

(* ================================================================== *)
(** * signals/generators/trading_signal_generator.py *)

Module TradingSignalGenerator.

(** The keys of [config] read by [__init__]. *)
Record Config : Type := {
  cfg_sma_short_period : option nat;
  cfg_sma_long_period : option nat;
  cfg_rsi_period : option nat;
  cfg_rsi_oversold : option Q;
  cfg_rsi_overbought : option Q;
  cfg_bb_period : option nat;
  cfg_bb_std_dev : option Q;
  cfg_min_confidence : option Q;
  cfg_signal_cooldown : option Q
}.

(** [BaseSignalGenerator._stats] *)
Record Stats : Type := {
  active_signals : nat;
  total_signals_generated : nat;
  success_rate : Q;
  avg_confidence : Q
}.

Record t : Type := {
  sma_short_period : nat;
  sma_long_period : nat;
  rsi_period : nat;
  rsi_oversold : Q;
  rsi_overbought : Q;
  bb_period : nat;
  bb_std_dev : Q;
  min_confidence : Q;
  signal_cooldown : Q;
  _last_signal_time : Dict.t Q;
  _signal_history : list Signal.t;
  _market_data_cache : Dict.t MarketData.t;
  _stats : Stats
}.

Definition or_default {A} (x : option A) (d : A) : A :=
  match x with
  | Some v => v
  | None => d
  end.

(** [TradingSignalGenerator.__init__(name, config)] *)
Definition __init__ (cfg : Config) : t :=
  {| sma_short_period := or_default (cfg_sma_short_period cfg) 10%nat;
     sma_long_period := or_default (cfg_sma_long_period cfg) 20%nat;
     rsi_period := or_default (cfg_rsi_period cfg) 14%nat;
     rsi_oversold := or_default (cfg_rsi_oversold cfg) 30;
     rsi_overbought := or_default (cfg_rsi_overbought cfg) 70;
     bb_period := or_default (cfg_bb_period cfg) 20%nat;
     bb_std_dev := or_default (cfg_bb_std_dev cfg) 2;
     min_confidence := or_default (cfg_min_confidence cfg) (1 # 2);
     signal_cooldown := or_default (cfg_signal_cooldown cfg) 300;
     _last_signal_time := [];
     _signal_history := [];
     _market_data_cache := [];
     _stats := {| active_signals := 0; total_signals_generated := 0;
                  success_rate := 0; avg_confidence := 0 |} |}.

(** [_is_in_cooldown(symbol)]; [now] is its reading of [time.time()]. *)
Definition _is_in_cooldown (self : t) (symbol : string) (now : Q) : bool :=
  let last_time := Dict.get_default (_last_signal_time self) symbol 0 in
  Qltb (now - last_time) (signal_cooldown self).

(** The loop of [_is_duplicate_signal] over [_signal_history[-10:]]. *)
Fixpoint duplicate_loop (signal : Signal.t) (current_time : Q)
    (history : list Signal.t) : bool :=
  match history with
  | [] => false
  | historical_signal :: rest =>
      if Qltb 300 (current_time
                   - inject_Z (Signal.timestamp historical_signal) / 1000)
      then duplicate_loop signal current_time rest
      else if String.eqb (Signal.symbol historical_signal)
                         (Signal.symbol signal)
              && OrderSide_eqb (Signal.side historical_signal)
                               (Signal.side signal)
      then true
      else duplicate_loop signal current_time rest
  end.

(** [_is_duplicate_signal(signal)]; [current_time] is its reading of
    [time.time()]. *)
Definition _is_duplicate_signal (self : t) (signal : Signal.t)
    (current_time : Q) : bool :=
  duplicate_loop signal current_time (last_n 10 (_signal_history self)).

(** The loop of [filter_signals(signals)].  [clk k] is the [k]-th reading
    of [time.time()]; every call of [_is_duplicate_signal] takes one.  The
    result is the filtered list and the index of the next reading. *)
Fixpoint filter_signals_from (self : t) (clk : nat -> Q) (k : nat)
    (signals : list Signal.t) : list Signal.t * nat :=
  match signals with
  | [] => ([], k)
  | signal :: rest =>
      match ValidationUtils.validate_signal signal with
      | _ :: _ => filter_signals_from self clk k rest
      | [] =>
          if Qltb (Signal.confidence signal) (min_confidence self)
          then filter_signals_from self clk k rest
          else if _is_duplicate_signal self signal (clk k)
          then filter_signals_from self clk (S k) rest
          else
            let '(filtered, k') := filter_signals_from self clk (S k) rest in
            (signal :: filtered, k')
      end
  end.

(** [filter_signals(signals)] *)
Definition filter_signals (self : t) (clk : nat -> Q)
    (signals : list Signal.t) : list Signal.t :=
  fst (filter_signals_from self clk 0 signals).

(** The [indicators] dictionary built by [_calculate_indicators]. *)
Record Indicators : Type := {
  sma_short : list Q;
  sma_long : list Q;
  rsi : list Q;
  bb_upper : list Q;
  bb_middle : list Q;
  bb_lower : list Q;
  macd_line : list Q;
  macd_signal : list Q;
  macd_histogram : list Q;
  volatility : list Q;
  volume_ma : list Q
}.

(** [_calculate_indicators(prices, volumes)]: any exception is logged
    and re-raised as [SignalGenerationError]. *)
Definition _calculate_indicators (lib : MathLib) (self : t)
    (prices volumes : list Q) : Result Indicators :=
  try_except
    (let* sma_s := MathUtils.calculate_sma prices (sma_short_period self) in
     let* sma_l := MathUtils.calculate_sma prices (sma_long_period self) in
     let* rsi_v := MathUtils.calculate_rsi prices (rsi_period self) in
     let* bb := MathUtils.calculate_bollinger_bands lib prices
                  (bb_period self) (bb_std_dev self) in
     let* macd := MathUtils.calculate_macd prices 12 26 9 in
     let* vol := MathUtils.calculate_volatility lib prices 20 in
     let* vma := match volumes with
                 | [] => Ok []
                 | _ :: _ => MathUtils.calculate_sma volumes 20
                 end in
     Ok {| sma_short := sma_s; sma_long := sma_l; rsi := rsi_v;
           bb_upper := fst (fst bb); bb_middle := snd (fst bb);
           bb_lower := snd bb;
           macd_line := fst (fst macd); macd_signal := snd (fst macd);
           macd_histogram := snd macd;
           volatility := vol; volume_ma := vma |})
    (fun e => Raise (SignalGenerationError e)).

(** [_determine_signal_strength(confidence)] *)
Definition _determine_signal_strength (confidence : Q) : SignalStrength :=
  if Qle_bool (8 # 10) confidence then STRONG
  else if Qle_bool (6 # 10) confidence then MODERATE
  else WEAK.

(** [[(prices[i] - prices[i-1]) / prices[i-1] for i in range(1, n)]] *)
Fixpoint relative_changes (prices : list Q) : Result (list Q) :=
  match prices with
  | [] => Ok []
  | p :: rest =>
      match rest with
      | [] => Ok []
      | q :: _ =>
          let* change := truediv (q - p) p in
          let* changes := relative_changes rest in
          Ok (change :: changes)
      end
  end.

Definition count_if (f : Q -> bool) (l : list Q) : nat :=
  length (filter f l).

(** [_calculate_trend_consistency(prices)] *)
Definition _calculate_trend_consistency (prices : list Q) : Result Q :=
  if (length prices <? 3)%nat then Ok (1 # 2)
  else
    let* changes := relative_changes prices in
    let positive_changes := count_if (fun c => Qltb 0 c) changes in
    let negative_changes := count_if (fun c => Qltb c 0) changes in
    truediv (of_nat (Nat.max positive_changes negative_changes))
            (of_nat (length changes)).

(** [_calculate_ma_confidence(fast_ma, slow_ma, prices)] *)
Definition _calculate_ma_confidence (fast_ma slow_ma : Q) (prices : list Q)
  : Result Q :=
  let* ma_diff := truediv (Qabs (fast_ma - slow_ma)) slow_ma in
  let recent_prices :=
    if (5 <=? length prices)%nat then last_n 5 prices else prices in
  let* trend_consistency := _calculate_trend_consistency recent_prices in
  let base_confidence := py_min (8 # 10) (ma_diff * 10) in
  let confidence := base_confidence * trend_consistency in
  Ok (py_max (3 # 10) (py_min (9 # 10) confidence)).

(** [_calculate_rsi_confidence(rsi_value, is_oversold)] *)
Definition _calculate_rsi_confidence (self : t) (rsi_value : Q)
    (is_oversold : bool) : Result Q :=
  let* confidence :=
    if is_oversold then
      let distance := rsi_oversold self - rsi_value in
      let* ratio := truediv distance (rsi_oversold self) in
      Ok ((1 # 2) + ratio * (4 # 10))
    else
      let distance := rsi_value - rsi_overbought self in
      let* ratio := truediv distance (100 - rsi_overbought self) in
      Ok ((1 # 2) + ratio * (4 # 10)) in
  Ok (py_max (3 # 10) (py_min (9 # 10) confidence)).

(** [_calculate_bb_confidence(price, band, middle, is_lower_band)] *)
Definition _calculate_bb_confidence (price band middle : Q) : Result Q :=
  let* distance_to_middle := truediv (Qabs (price - middle)) middle in
  let* band_width := truediv (Qabs (band - middle)) middle in
  let* relative_position :=
    if Qltb 0 band_width then truediv distance_to_middle band_width
    else Ok 0 in
  let confidence := (4 # 10) + py_min (1 # 2) (relative_position * (1 # 2)) in
  Ok (py_max (3 # 10) (py_min (8 # 10) confidence)).

(** [Signal(id=..., symbol=..., side=..., price=..., confidence=...,
    reason=..., strength=..., timestamp=...)] as the builders call it.
    [reason] stands for the formatted text, whose interpolated numbers
    are left out. *)
Definition new_signal (id symbol : string) (side : OrderSide)
    (price confidence : Q) (reason : string) (timestamp : Z) : Signal.t :=
  {| Signal.id := id; Signal.symbol := symbol; Signal.side := side;
     Signal.price := price; Signal.confidence := confidence;
     Signal.reason := reason;
     Signal.strength := _determine_signal_strength confidence;
     Signal.timestamp := timestamp;
     Signal.stop_loss := None; Signal.take_profit := None;
     Signal.volume := None |}.

(** [l[-2]] where the caller has checked [len(l) >= 2]. *)
Definition second_last (l : list Q) : Q := nth (length l - 2) l 0.

(** The four builders take the identifier ([str(uuid.uuid4())]) and the
    timestamp ([int(time.time() * 1000)]) that they use if they emit a
    signal. *)

(** [_generate_ma_crossover_signal(symbol, prices, indicators)] *)
Definition _generate_ma_crossover_signal (symbol : string)
    (prices : list Q) (indicators : Indicators) (id : string) (ts : Z)
  : Result (option Signal.t) :=
  let sma_s := sma_short indicators in
  let sma_l := sma_long indicators in
  if ((length sma_s <? 2) || (length sma_l <? 2))%nat then Ok None
  else
    let current_short := last sma_s 0 in
    let current_long := last sma_l 0 in
    let prev_short := second_last sma_s in
    let prev_long := second_last sma_l in
    let current_price := last prices 0 in
    if Qle_bool prev_short prev_long && Qltb current_long current_short
    then
      let* confidence :=
        _calculate_ma_confidence current_short current_long prices in
      Ok (Some (new_signal id symbol BUY current_price confidence
                           "MA golden cross" ts))
    else if Qle_bool prev_long prev_short && Qltb current_short current_long
    then
      let* confidence :=
        _calculate_ma_confidence current_long current_short prices in
      Ok (Some (new_signal id symbol SELL current_price confidence
                           "MA death cross" ts))
    else Ok None.

(** [_generate_rsi_signal(symbol, prices, indicators)] *)
Definition _generate_rsi_signal (self : t) (symbol : string)
    (prices : list Q) (indicators : Indicators) (id : string) (ts : Z)
  : Result (option Signal.t) :=
  match rsi indicators with
  | [] => Ok None
  | _ :: _ =>
      let current_rsi := last (rsi indicators) 0 in
      let current_price := last prices 0 in
      if Qltb current_rsi (rsi_oversold self) then
        let* confidence := _calculate_rsi_confidence self current_rsi true in
        Ok (Some (new_signal id symbol BUY current_price confidence
                             "RSI oversold" ts))
      else if Qltb (rsi_overbought self) current_rsi then
        let* confidence := _calculate_rsi_confidence self current_rsi false in
        Ok (Some (new_signal id symbol SELL current_price confidence
                             "RSI overbought" ts))
      else Ok None
  end.

(** [_generate_bollinger_signal(symbol, prices, indicators)] *)
Definition _generate_bollinger_signal (symbol : string)
    (prices : list Q) (indicators : Indicators) (id : string) (ts : Z)
  : Result (option Signal.t) :=
  match bb_upper indicators, bb_lower indicators, bb_middle indicators with
  | _ :: _, _ :: _, _ :: _ =>
      let current_price := last prices 0 in
      let current_upper := last (bb_upper indicators) 0 in
      let current_lower := last (bb_lower indicators) 0 in
      let current_middle := last (bb_middle indicators) 0 in
      if Qle_bool current_price current_lower then
        let* confidence :=
          _calculate_bb_confidence current_price current_lower
                                   current_middle in
        Ok (Some (new_signal id symbol BUY current_price confidence
                             "Bollinger lower band" ts))
      else if Qle_bool current_upper current_price then
        let* confidence :=
          _calculate_bb_confidence current_price current_upper
                                   current_middle in
        Ok (Some (new_signal id symbol SELL current_price confidence
                             "Bollinger upper band" ts))
      else Ok None
  | _, _, _ => Ok None
  end.

(** [_generate_volume_signal(symbol, prices, volumes)] *)
Definition _generate_volume_signal (symbol : string)
    (prices volumes : list Q) (id : string) (ts : Z)
  : Result (option Signal.t) :=
  if (length volumes <? 20)%nat then Ok None
  else
    let current_volume := last volumes 0 in
    let avg_volume := sum (last_n 20 volumes) / 20 in
    let current_price := last prices 0 in
    let prev_price :=
      if (1 <? length prices)%nat then nth (length prices - 2) prices 0
      else current_price in
    if Qltb (avg_volume * 2) current_volume
       && Qltb (prev_price * (102 # 100)) current_price
    then
      let* ratio := truediv current_volume avg_volume in
      let confidence := py_min (8 # 10) (ratio * (2 # 10)) in
      Ok (Some (new_signal id symbol BUY current_price confidence
                           "volume surge up" ts))
    else if Qltb (avg_volume * 2) current_volume
            && Qltb current_price (prev_price * (98 # 100))
    then
      let* ratio := truediv current_volume avg_volume in
      let confidence := py_min (8 # 10) (ratio * (2 # 10)) in
      Ok (Some (new_signal id symbol SELL current_price confidence
                           "volume surge down" ts))
    else Ok None.

(** The readings taken so far during a call: [uuid4()] identifiers and
    [time.time()] values. *)
Record Ticks : Type := { n_uuid : nat; n_time : nat }.

(** The environment of a call: the [k]-th identifier drawn and the
    [k]-th clock reading. *)
Record Env : Type := { uuid4 : nat -> string; time_time : nat -> Q }.

(** [if x_signal: signals.append(x_signal)], with the readings that the
    builder consumed when it emitted. *)
Definition append_built (built : option Signal.t)
    (acc : list Signal.t * Ticks) : list Signal.t * Ticks :=
  match built with
  | Some s =>
      (fst acc ++ [s],
       {| n_uuid := S (n_uuid (snd acc)); n_time := S (n_time (snd acc)) |})
  | None => acc
  end.

Definition draw_id (env : Env) (tk : Ticks) : string := uuid4 env (n_uuid tk).
Definition draw_ms (env : Env) (tk : Ticks) : Z :=
  py_int (time_time env (n_time tk) * 1000).

(** Lines 94-115 of [generate_signals]: the four builders in order. *)
Definition build_signals (env : Env) (self : t) (symbol : string)
    (prices volumes : list Q) (indicators : Indicators) (tk : Ticks)
  : Result (list Signal.t * Ticks) :=
  let acc0 := ([], tk) in
  let* ma_signal :=
    _generate_ma_crossover_signal symbol prices indicators
      (draw_id env (snd acc0)) (draw_ms env (snd acc0)) in
  let acc1 := append_built ma_signal acc0 in
  let* rsi_signal :=
    _generate_rsi_signal self symbol prices indicators
      (draw_id env (snd acc1)) (draw_ms env (snd acc1)) in
  let acc2 := append_built rsi_signal acc1 in
  let* bb_signal :=
    _generate_bollinger_signal symbol prices indicators
      (draw_id env (snd acc2)) (draw_ms env (snd acc2)) in
  let acc3 := append_built bb_signal acc2 in
  let* volume_signal :=
    _generate_volume_signal symbol prices volumes
      (draw_id env (snd acc3)) (draw_ms env (snd acc3)) in
  Ok (append_built volume_signal acc3).

Definition set_tracking (self : t) (last_time : Dict.t Q)
    (history : list Signal.t) (stats : Stats) : t :=
  {| sma_short_period := sma_short_period self;
     sma_long_period := sma_long_period self;
     rsi_period := rsi_period self;
     rsi_oversold := rsi_oversold self;
     rsi_overbought := rsi_overbought self;
     bb_period := bb_period self;
     bb_std_dev := bb_std_dev self;
     min_confidence := min_confidence self;
     signal_cooldown := signal_cooldown self;
     _last_signal_time := last_time;
     _signal_history := history;
     _market_data_cache := _market_data_cache self;
     _stats := stats |}.

(** The first loop of [_update_stats]; each iteration reads the clock. *)
Fixpoint record_signals (env : Env) (k : nat) (last_time : Dict.t Q)
    (history : list Signal.t) (signals : list Signal.t)
  : Dict.t Q * list Signal.t * nat :=
  match signals with
  | [] => (last_time, history, k)
  | signal :: rest =>
      let last_time' :=
        Dict.set last_time (Signal.symbol signal) (time_time env k) in
      let appended := history ++ [signal] in
      let history' :=
        if (1000 <? length appended)%nat then last_n 500 appended
        else appended in
      record_signals env (S k) last_time' history' rest
  end.

(** [len([s for s in history if time.time() - s.timestamp / 1000 < 3600])]:
    one clock reading per history entry. *)
Fixpoint count_active (env : Env) (k : nat) (history : list Signal.t) : nat :=
  match history with
  | [] => 0
  | s :: rest =>
      ((if Qltb (time_time env k - inject_Z (Signal.timestamp s) / 1000) 3600
        then 1 else 0)
       + count_active env (S k) rest)%nat
  end.

(** [_update_stats(signals)]; [k] is the index of its first clock
    reading.  The division by [len(signals)] is guarded by the running
    total, not by the length itself. *)
Definition _update_stats (env : Env) (self : t) (k : nat)
    (signals : list Signal.t) : Result unit * t :=
  let '(last_time, history, k') :=
    record_signals env k (_last_signal_time self) (_signal_history self)
                   signals in
  let total :=
    (total_signals_generated (_stats self) + length signals)%nat in
  let stats1 :=
    {| active_signals := count_active env k' history;
       total_signals_generated := total;
       success_rate := success_rate (_stats self);
       avg_confidence := avg_confidence (_stats self) |} in
  if (0 <? total)%nat then
    match truediv (sum (map Signal.confidence signals))
                  (of_nat (length signals)) with
    | Raise e => (Raise e, set_tracking self last_time history stats1)
    | Ok avg =>
        (Ok tt,
         set_tracking self last_time history
           {| active_signals := active_signals stats1;
              total_signals_generated := total;
              success_rate := success_rate stats1;
              avg_confidence := avg |})
    end
  else (Ok tt, set_tracking self last_time history stats1).

Definition cache_market_data (self : t) (md : MarketData.t) : t :=
  {| sma_short_period := sma_short_period self;
     sma_long_period := sma_long_period self;
     rsi_period := rsi_period self;
     rsi_oversold := rsi_oversold self;
     rsi_overbought := rsi_overbought self;
     bb_period := bb_period self;
     bb_std_dev := bb_std_dev self;
     min_confidence := min_confidence self;
     signal_cooldown := signal_cooldown self;
     _last_signal_time := _last_signal_time self;
     _signal_history := _signal_history self;
     _market_data_cache :=
       Dict.set (_market_data_cache self) (MarketData.symbol md) md;
     _stats := _stats self |}.

(** The body of the [try] block of [generate_signals].  The first clock
    reading is taken by [_is_in_cooldown].  [on_signal_generated] keeps
    its initial value [None], so the callback loop does nothing. *)
Definition generate_signals_body (lib : MathLib) (env : Env) (self : t)
    (market_data : MarketData.t) : Result (list Signal.t) * t :=
  match MarketData.klines market_data with
  | [] => (Ok [], self)
  | _ :: _ =>
      let symbol := MarketData.symbol market_data in
      if _is_in_cooldown self symbol (time_time env 0%nat) then (Ok [], self)
      else
        let self1 := cache_market_data self market_data in
        let prices := map Kline.close (MarketData.klines market_data) in
        let volumes := map Kline.volume (MarketData.klines market_data) in
        if (length prices
            <? Nat.max (sma_long_period self)
                       (Nat.max (rsi_period self) (bb_period self)))%nat
        then (Ok [], self1)
        else
          match _calculate_indicators lib self1 prices volumes with
          | Raise e => (Raise e, self1)
          | Ok indicators =>
              match build_signals env self1 symbol prices volumes indicators
                      {| n_uuid := 0; n_time := 1 |} with
              | Raise e => (Raise e, self1)
              | Ok (signals, tk) =>
                  let '(filtered_signals, k) :=
                    filter_signals_from self1 (time_time env) (n_time tk)
                                        signals in
                  match _update_stats env self1 k filtered_signals with
                  | (Raise e, self2) => (Raise e, self2)
                  | (Ok _, self2) => (Ok filtered_signals, self2)
                  end
              end
          end
  end.

(** [generate_signals(market_data)]: [except Exception as e: raise
    SignalGenerationError(...) from e]. *)
Definition generate_signals (lib : MathLib) (env : Env) (self : t)
    (market_data : MarketData.t) : Result (list Signal.t) * t :=
  let '(r, self') := generate_signals_body lib env self market_data in
  (try_except r (fun e => Raise (SignalGenerationError e)), self').


(** [clear_history()] *)
Definition clear_history (self : t) : t :=
  {| sma_short_period := sma_short_period self;
     sma_long_period := sma_long_period self;
     rsi_period := rsi_period self;
     rsi_oversold := rsi_oversold self;
     rsi_overbought := rsi_overbought self;
     bb_period := bb_period self;
     bb_std_dev := bb_std_dev self;
     min_confidence := min_confidence self;
     signal_cooldown := signal_cooldown self;
     _last_signal_time := [];
     _signal_history := [];
     _market_data_cache := [];
     _stats := _stats self |}.

End TradingSignalGenerator.

(* ================================================================== *)
(** * signals/generators/technical_signal_generator.py *)

Module TechnicalSignalGenerator.

(** The periods read by the data-sufficiency check, the emission
    threshold and the per-symbol cap. *)
Record t : Type := {
  sma_slow_period : nat;
  ema_slow_period : nat;
  rsi_period : nat;
  bollinger_period : nat;
  signal_threshold : Q;
  max_signals_per_symbol : nat
}.

(** [filter_signals(signals)]: sort by confidence, keep the first
    [max_signals_per_symbol] of each symbol, then drop what is below
    [signal_threshold]. *)
Fixpoint group_capped (cap : nat) (groups : Dict.t (list Signal.t))
    (signal : Signal.t) : Dict.t (list Signal.t) :=
  match groups with
  | [] => if (0 <? cap)%nat then [(Signal.symbol signal, [signal])]
          else [(Signal.symbol signal, [])]
  | (k, g) :: rest =>
      if String.eqb (Signal.symbol signal) k
      then (k, if (length g <? cap)%nat then g ++ [signal] else g) :: rest
      else (k, g) :: group_capped cap rest signal
  end.

Definition filter_signals (self : t) (signals : list Signal.t)
  : list Signal.t :=
  let sorted := SignalFilter.sort_by_confidence_desc signals in
  let symbol_groups :=
    fold_left (group_capped (max_signals_per_symbol self)) sorted [] in
  let filtered := flat_map snd symbol_groups in
  filter (fun s => Qle_bool (signal_threshold self) (Signal.confidence s))
         filtered.

(** The two stages of [generate_signals], [_calculate_all_indicators]
    and [_generate_technical_signals], are parameters: each returns its
    value or raises. *)
Definition generate_signals {I : Type}
    (_calculate_all_indicators :
       list Q -> list Q -> list Q -> list Q -> Result I)
    (_generate_technical_signals :
       string -> list Kline.t -> I -> Result (list Signal.t))
    (self : t) (market_data : MarketData.t) : Result (list Signal.t) :=
  try_except
    (match MarketData.klines market_data with
     | [] => Ok []
     | _ :: _ =>
         let klines := MarketData.klines market_data in
         let prices := map Kline.close klines in
         let highs := map Kline.high klines in
         let lows := map Kline.low klines in
         let volumes := map Kline.volume klines in
         let min_data_points :=
           Nat.max (sma_slow_period self)
             (Nat.max (ema_slow_period self)
                (Nat.max (rsi_period self) (bollinger_period self))) in
         if (length prices <? min_data_points)%nat then Ok []
         else
           let* indicators :=
             _calculate_all_indicators prices highs lows volumes in
           let* signals :=
             _generate_technical_signals (MarketData.symbol market_data)
                                         klines indicators in
           Ok (filter_signals self signals)
     end)
    (fun e => Raise (SignalGenerationError e)).

End TechnicalSignalGenerator.

(* ================================================================== *)
(** * Vocabulary of the statements *)

(** Spec-level vocabulary for the indicator claims. *)
Module IndicatorSpec.

(** The arithmetic mean of a window. *)
Definition mean (w : list Q) : Q := sum w / of_nat (length w).

(** The Wilder-smoothed average of [xs] after [k] smoothing steps: the
    plain mean of the first [period] values, then
    [(prev * (period - 1) + x) / period]. *)
Fixpoint wilder (period : nat) (xs : list Q) (k : nat) : Q :=
  match k with
  | O => sum (firstn period xs) / of_nat period
  | S k' =>
      (wilder period xs k' * of_nat (period - 1)
       + nth (period + k') xs 0) / of_nat period
  end.

(** The [i]-th price change of a series: [prices[i+1] - prices[i]]. *)
Definition change (prices : list Q) (i : nat) : Q :=
  nth (S i) prices 0 - nth i prices 0.

(** The upward and the downward part of every price change:
    [max(change, 0)] and [max(-change, 0)]. *)
Definition ups (prices : list Q) : list Q :=
  map (fun i => Qmax (change prices i) 0) (seq 0 (length prices - 1)).

Definition downs (prices : list Q) : list Q :=
  map (fun i => Qmax (- change prices i) 0) (seq 0 (length prices - 1)).


End IndicatorSpec.

Module GeneratorSpec.

(** The duplicate test as the specification words it: among the last 10
    history entries within 300 seconds, one with the same symbol and
    side, a price within 1% and a confidence within 0.1. *)
Definition claimed_duplicate (history : list Signal.t) (now : Q)
    (signal : Signal.t) : bool :=
  existsb
    (fun h =>
       Qle_bool (now - inject_Z (Signal.timestamp h) / 1000) 300
       && String.eqb (Signal.symbol h) (Signal.symbol signal)
       && OrderSide_eqb (Signal.side h) (Signal.side signal)
       && Qle_bool (Qabs (Signal.price signal - Signal.price h))
                   ((1 # 100) * Qabs (Signal.price h))
       && Qle_bool (Qabs (Signal.confidence signal - Signal.confidence h))
                   (1 # 10))
    (last_n 10 history).

(** A history entry that makes [_is_duplicate_signal] answer [True]. *)
Definition blocks (now : Q) (signal h : Signal.t) : Prop :=
  now - inject_Z (Signal.timestamp h) / 1000 <= 300 /\
  Signal.symbol h = Signal.symbol signal /\
  Signal.side h = Signal.side signal.


End GeneratorSpec.

Module FilterSpec.
Import SignalFilter.

(** Everything in the filter's state except the statistics. *)
Definition core (self : t) :=
  (config self, min_confidence self, max_signals_per_symbol self,
   signal_cooldown self, market_filters self, risk_filters self,
   _signal_history self, _symbol_last_signal self,
   _daily_signal_count self, _last_reset_date self).

(** The three pieces of state named by the filter's update step. *)
Definition tracked (self : t) :=
  (_symbol_last_signal self, _signal_history self,
   _daily_signal_count self).

(** A rule accepts in state [self] without touching it. *)
Definition accepts (signal : Signal.t) (context : Context) (self : t)
    (r : FilterRule) : Prop :=
  filter_func r self signal context = (Ok true, self).

(** A rule rejects: it returns [False] or raises. *)
Definition rejects (signal : Signal.t) (context : Context) (self : t)
    (r : FilterRule) : Prop :=
  fst (filter_func r self signal context) <> Ok true.

(** The context that [filter_signals] hands to the rules in loop state
    [st], once the candidate has been validated. *)
Definition step_context (market_data : Dict.t MarketData.t)
    (clk : nat -> Q) (st : LoopState) : Context :=
  {| market_data := market_data;
     signal_history :=
       context_history (ls_detached st) (ls_self st);
     current_time := clk 0%nat |}.

(** A rule is framed when it answers [True] without touching the state
    and otherwise changes at most the statistics. *)
Definition framed (f : RuleFn) : Prop :=
  forall self signal context,
    (fst (f self signal context) = Ok true ->
     snd (f self signal context) = self) /\
    core (snd (f self signal context)) = core self.

(** What the loop of [filter_signals] keeps fixed between two of its
    states, and how the daily counter follows the accepted list. *)
Definition loop_related (st st' : LoopState) : Prop :=
  config (ls_self st') = config (ls_self st) /\
  risk_filters (ls_self st') = risk_filters (ls_self st) /\
  max_signals_per_symbol (ls_self st') = max_signals_per_symbol (ls_self st) /\
  _last_reset_date (ls_self st') = _last_reset_date (ls_self st) /\
  (exists added, ls_filtered st' = ls_filtered st ++ added /\
     _daily_signal_count (ls_self st')
       = (_daily_signal_count (ls_self st) + length added)%nat /\
     (added = [] -> tracked (ls_self st') = tracked (ls_self st))).

(** The signals of [l] that carry symbol [x], in the order of [l]. *)
Definition for_symbol (x : string) (l : list Signal.t) : list Signal.t :=
  filter (fun s => String.eqb (Signal.symbol s) x) l.

(** [a] comes before [b] in descending order of confidence. *)
Definition conf_ge (a b : Signal.t) : Prop :=
  Signal.confidence b <= Signal.confidence a.

(** The signals that pass the rule chain during one call of
    [filter_signals], in input order. *)
Definition accepted_by_chain (lib : MathLib) (self : t) (today : Z)
    (clk : nat -> Q) (signals : list Signal.t)
    (market_data : option (Dict.t MarketData.t)) : list Signal.t :=
  match signals with
  | [] => []
  | _ :: _ =>
      ls_filtered (filter_loop lib (or_default market_data []) clk
                     (_reset_daily_count_if_needed self today) signals)
  end.

(** A grouping dictionary whose keys are distinct and whose groups hold
    signals of their key only. *)
Definition well_grouped (groups : Dict.t (list Signal.t)) : Prop :=
  NoDup (Dict.keys groups) /\
  Forall (fun kg => Forall (fun s => Signal.symbol s = fst kg) (snd kg))
         groups.






(** The configured daily limit, and whether its rule is in the chain. *)
Definition limit (self : t) : nat := max_daily_signals (risk_filters self).

Definition limit_on (self : t) : Prop :=
  enabled (daily_limit_rule self) = true.

End FilterSpec.

(* ================================================================== *)
(** * Concrete inputs *)

(** Rational stand-ins for [math.sqrt] and [math.log], used where a
    statement is evaluated on concrete data. *)
Module RationalMath.

(** Rounding down to nine decimals keeps the numbers small. *)
Definition round9 (x : Q) : Q :=
  Qmake (Qfloor (x * 1000000000)) 1000000000.

Fixpoint heron (n : nat) (x y : Q) : Q :=
  match n with
  | O => y
  | S n' => heron n' x (round9 ((y + x / y) / 2))
  end.

Definition sqrt_approx (x : Q) : Q :=
  let x := Qred x in
  if Qle_bool x 0 then 0 else heron 12 x (round9 ((x + 1) / 2) + 1).

(** [log x = 2 atanh z] with [z = (x - 1) / (x + 1)], four terms. *)
Definition log_approx (x : Q) : Q :=
  let z := round9 ((Qred x - 1) / (Qred x + 1)) in
  let z2 := round9 (z * z) in
  round9 (2 * z * (1 + z2 * ((1 # 3) + z2 * ((1 # 5) + z2 * (1 # 7))))).

Definition lib : MathLib :=
  {| math_log := log_approx; math_sqrt := sqrt_approx |}.

End RationalMath.

Module Samples.
Import SignalFilter.

(** The empty configuration dictionary: every default applies. *)
Definition default_config : Config :=
  {| cfg_min_confidence := None;
     cfg_max_signals_per_symbol := None;
     cfg_signal_cooldown := None;
     cfg_min_volume := None;
     cfg_min_price := None;
     cfg_volatility_threshold := None;
     cfg_max_daily_signals := None;
     cfg_blacklist_symbols := [];
     cfg_volatility_filter_enabled := None;
     cfg_daily_limit_enabled := None |}.

(** [{"signal_cooldown": 0}] *)
Definition no_cooldown_config : Config :=
  {| cfg_min_confidence := None;
     cfg_max_signals_per_symbol := None;
     cfg_signal_cooldown := Some 0;
     cfg_min_volume := None;
     cfg_min_price := None;
     cfg_volatility_threshold := None;
     cfg_max_daily_signals := None;
     cfg_blacklist_symbols := [];
     cfg_volatility_filter_enabled := None;
     cfg_daily_limit_enabled := None |}.

(** [{"signal_cooldown": -1}] *)
Definition negative_cooldown_config : Config :=
  {| cfg_min_confidence := None;
     cfg_max_signals_per_symbol := None;
     cfg_signal_cooldown := Some (-1);
     cfg_min_volume := None;
     cfg_min_price := None;
     cfg_volatility_threshold := None;
     cfg_max_daily_signals := None;
     cfg_blacklist_symbols := [];
     cfg_volatility_filter_enabled := None;
     cfg_daily_limit_enabled := None |}.

Definition mk_signal (id symbol : string) (side : OrderSide)
    (price confidence : Q) (timestamp : Z) : Signal.t :=
  {| Signal.id := id; Signal.symbol := symbol; Signal.side := side;
     Signal.price := price; Signal.confidence := confidence;
     Signal.reason := "crossover";
     Signal.strength := MODERATE;
     Signal.timestamp := timestamp;
     Signal.stop_loss := None; Signal.take_profit := None;
     Signal.volume := None |}.

Definition mk_kline (symbol : string) (close volume : Q) (t : Z) : Kline.t :=
  {| Kline.open_time := t; Kline.open := close; Kline.high := close;
     Kline.low := close; Kline.close := close; Kline.volume := volume;
     Kline.close_time := (t + 60000)%Z; Kline.symbol := symbol;
     Kline.quote_volume := None |}.

(** Twenty bars whose closes alternate between 100 and 200. *)
Definition swinging_klines : list Kline.t :=
  map (fun i => mk_kline "AAPL"
                  (if Nat.even i then 100 else 200) 5000
                  (1000000 + 60000 * Z.of_nat i)%Z)
      (seq 0 20).

Definition swinging_data : MarketData.t :=
  {| MarketData.klines := swinging_klines;
     MarketData.symbol := "AAPL";
     MarketData.timestamp := 2200000 |}.

Definition swinging_market : Dict.t MarketData.t :=
  [("AAPL"%string, swinging_data)].

(** Five valid candidates for one symbol, confidences 0.6, 0.9, 0.5,
    0.8, 0.7. *)
Definition five_for_one_symbol : list Signal.t :=
  [ mk_signal "a" "AAPL" BUY 100 (6 # 10) 1000000;
    mk_signal "b" "AAPL" BUY 110 (9 # 10) 1000000;
    mk_signal "c" "AAPL" BUY 120 (5 # 10) 1000000;
    mk_signal "d" "AAPL" BUY 130 (8 # 10) 1000000;
    mk_signal "e" "AAPL" BUY 140 (7 # 10) 1000000 ].

(** A clock that returns the same reading every time. *)
Definition frozen_clock (now : Q) : nat -> Q := fun _ => now.

(** A clock that advances by a millisecond per reading. *)
Definition ticking_clock (t0 : Q) : nat -> Q :=
  fun k => t0 + of_nat k / 1000.

(** The same call with the clock advancing between readings. *)
Definition five_candidates_ticking_call : Call :=
  {| call_today := 0;
     call_clock := ticking_clock 2000;
     call_signals := five_for_one_symbol;
     call_market_data := None |}.

(** One call at date 0 with the five candidates, no market data and a
    clock that does not advance during the call. *)
Definition five_candidates_call : Call :=
  {| call_today := 0;
     call_clock := frozen_clock 2000;
     call_signals := five_for_one_symbol;
     call_market_data := None |}.

(** Twenty-one bars closing at 10, except the sixth, which closes
    at 0. *)
Definition zero_close_data : MarketData.t :=
  {| MarketData.klines :=
       map (fun i => mk_kline "AAPL" (if (i =? 5)%nat then 0 else 10) 5000
                       (1000000 + 60000 * Z.of_nat i)%Z)
           (seq 0 21);
     MarketData.symbol := "AAPL";
     MarketData.timestamp := 2260000 |}.

(** [TradingSignalGenerator()] with an empty configuration. *)
Definition default_generator : TradingSignalGenerator.t :=
  TradingSignalGenerator.__init__
    {| TradingSignalGenerator.cfg_sma_short_period := None;
       TradingSignalGenerator.cfg_sma_long_period := None;
       TradingSignalGenerator.cfg_rsi_period := None;
       TradingSignalGenerator.cfg_rsi_oversold := None;
       TradingSignalGenerator.cfg_rsi_overbought := None;
       TradingSignalGenerator.cfg_bb_period := None;
       TradingSignalGenerator.cfg_bb_std_dev := None;
       TradingSignalGenerator.cfg_min_confidence := None;
       TradingSignalGenerator.cfg_signal_cooldown := None |}.

(** Identifiers "id" and a clock that starts at [t0] and advances by a
    millisecond per reading. *)
Definition env_from (t0 : Q) : TradingSignalGenerator.Env :=
  {| TradingSignalGenerator.uuid4 := fun _ => "id"%string;
     TradingSignalGenerator.time_time :=
       fun k => t0 + of_nat k / 1000 |}.

Definition data_of_closes (closes : list Q) : MarketData.t :=
  {| MarketData.klines :=
       map (fun ic => mk_kline "AAPL" (snd ic) 5000
                        (1000000 + 60000 * Z.of_nat (fst ic))%Z)
           (combine (seq 0 (length closes)) closes);
     MarketData.symbol := "AAPL";
     MarketData.timestamp := 2260000 |}.

(** Twenty bars falling by 1 from 120 to 101. *)
Definition falling_data : MarketData.t :=
  data_of_closes (map (fun i => 120 - of_nat i) (seq 0 20)).

(** Twenty bars alternating between 10 and 11. *)
Definition quiet_data : MarketData.t :=
  data_of_closes (map (fun i => if Nat.even i then 10 else 11) (seq 0 20)).

Definition with_history (self : TradingSignalGenerator.t)
    (history : list Signal.t) : TradingSignalGenerator.t :=
  {| TradingSignalGenerator.sma_short_period :=
       TradingSignalGenerator.sma_short_period self;
     TradingSignalGenerator.sma_long_period :=
       TradingSignalGenerator.sma_long_period self;
     TradingSignalGenerator.rsi_period :=
       TradingSignalGenerator.rsi_period self;
     TradingSignalGenerator.rsi_oversold :=
       TradingSignalGenerator.rsi_oversold self;
     TradingSignalGenerator.rsi_overbought :=
       TradingSignalGenerator.rsi_overbought self;
     TradingSignalGenerator.bb_period :=
       TradingSignalGenerator.bb_period self;
     TradingSignalGenerator.bb_std_dev :=
       TradingSignalGenerator.bb_std_dev self;
     TradingSignalGenerator.min_confidence :=
       TradingSignalGenerator.min_confidence self;
     TradingSignalGenerator.signal_cooldown :=
       TradingSignalGenerator.signal_cooldown self;
     TradingSignalGenerator._last_signal_time :=
       TradingSignalGenerator._last_signal_time self;
     TradingSignalGenerator._signal_history := history;
     TradingSignalGenerator._market_data_cache :=
       TradingSignalGenerator._market_data_cache self;
     TradingSignalGenerator._stats :=
       TradingSignalGenerator._stats self |}.

(** A generator whose history holds one BUY of AAPL at 100 with
    confidence 0.9, stamped at second 1900. *)
Definition generator_with_one_buy : TradingSignalGenerator.t :=
  with_history default_generator
    [mk_signal "h" "AAPL" BUY 100 (9 # 10) 1900000].

(** A later BUY of AAPL at twice the price and confidence 0.6. *)
Definition distant_candidate : Signal.t :=
  mk_signal "n" "AAPL" BUY 200 (6 # 10) 2000000.

End Samples.

(** Series of doubles.  Every price is an integer or a dyadic number, so
    no literal is rounded when it is read. *)
Module FloatSamples.
Import PrimFloat.
Local Open Scope float_scope.

(** 600 closes: 100, 99, 100, 101, 102, ...; one loss of 1 at the first
    change, a gain of 1 at every later one. *)
Definition one_loss_then_gains : list float :=
  100 :: map (fun i => 99 + MathUtilsFloat.of_nat i) (seq 0 599).

(** A price close to the largest double, about [1.74e308]. *)
Definition huge : float := 0x1.fp+1023.

(** Five closes that swing between 1 and [huge]. *)
Definition swinging : list float := [1; huge; 1; huge; 1].

End FloatSamples.

(* ================================================================== *)
(** * Theorems *)



Import MathUtils IndicatorSpec.

(** ** Lists and sums *)

Lemma sum_fold_left_acc (l : list Q) (a : Q) :
  fold_left Qplus l a == a + fold_left Qplus l 0.
Proof.
  revert a; induction l as [|x l IH]; intros a; simpl.
  - lra.
  - rewrite (IH (a + x)), (IH (0 + x)). lra.
Qed.

Lemma sum_cons (x : Q) (l : list Q) : sum (x :: l) == x + sum l.
Proof.
  unfold sum; simpl. rewrite sum_fold_left_acc. lra.
Qed.

Lemma sum_nonneg (l : list Q) :
  Forall (fun x => 0 <= x) l -> 0 <= sum l.
Proof.
  induction 1 as [|x l Hx _ IH].
  - unfold sum; simpl; lra.
  - rewrite sum_cons. lra.
Qed.

Lemma sum_zero_iff (l : list Q) :
  Forall (fun x => 0 <= x) l ->
  (sum l == 0 <-> Forall (fun x => x == 0) l).
Proof.
  induction 1 as [|x l Hx Hl IH].
  - split; intros; [constructor | reflexivity].
  - rewrite sum_cons. pose proof (sum_nonneg Hl) as Hs. split.
    + intros H0. constructor; [lra|]. apply IH. lra.
    + intros H0. inversion H0; subst. apply IH in H3. lra.
Qed.

Lemma skipn_nth_cons {A} (d : A) (l : list A) (n : nat) :
  (n < length l)%nat -> skipn n l = nth n l d :: skipn (S n) l.
Proof.
  revert n; induction l as [|x l IH]; intros n Hn; simpl in *; [lia|].
  destruct n; [reflexivity|]. apply IH. lia.
Qed.

Lemma slice_length {A} (l : list A) (a b : nat) :
  (a <= b)%nat -> (b <= length l)%nat -> length (slice l a b) = (b - a)%nat.
Proof.
  intros Hab Hb. unfold slice. rewrite length_firstn, length_skipn. lia.
Qed.

Lemma of_nat_pos (n : nat) : (1 <= n)%nat -> 0 < of_nat n.
Proof.
  intros H. unfold of_nat. change 0 with (inject_Z 0).
  rewrite <- Zlt_Qlt. lia.
Qed.

Lemma of_nat_nonneg (n : nat) : 0 <= of_nat n.
Proof.
  unfold of_nat. change 0 with (inject_Z 0). rewrite <- Zle_Qle. lia.
Qed.

Lemma truediv_of_nat (x : Q) (n : nat) :
  (1 <= n)%nat -> truediv x (of_nat n) = Ok (x / of_nat n).
Proof.
  intros H. unfold truediv.
  destruct (Qeq_bool (of_nat n) 0) eqn:E; [|reflexivity].
  apply Qeq_bool_iff in E. pose proof (of_nat_pos H). lra.
Qed.

Lemma map_seq_from {B} (f : nat -> B) (a n : nat) :
  map f (seq a n) = map (fun i => f (i + a)%nat) (seq 0 n).
Proof.
  revert a; induction n as [|n IH]; intros a; [reflexivity|].
  simpl. f_equal. rewrite IH, <- (seq_shift n 0), map_map.
  apply map_ext. intros i. f_equal. lia.
Qed.

(** ** C3: the simple moving average *)

Lemma calculate_sma_ok (s : list Q) (p : nat) :
  (1 <= p)%nat ->
  calculate_sma s p =
    Ok (map (fun i => sum (slice s i (i + p)) / of_nat p)
            (seq 0 (length s + 1 - p))).
Proof.
  intros Hp. unfold calculate_sma. destruct p as [|p']; [lia|].
  destruct (length s <? S p')%nat eqn:E.
  - apply Nat.ltb_lt in E.
    replace (length s + 1 - S p')%nat with 0%nat by lia. reflexivity.
  - apply Nat.ltb_ge in E. f_equal. unfold range.
    rewrite map_seq_from.
    replace (length s - (S p' - 1))%nat with (length s + 1 - S p')%nat by lia.
    apply map_ext. intros i.
    replace (i + (S p' - 1) + 1 - S p')%nat with i by lia.
    replace (i + (S p' - 1) + 1)%nat with (i + S p')%nat by lia. reflexivity.
Qed.

(** C3. For every series [s] and period [p >= 1], [calculate_sma s p]
    returns a list of length [max(0, len(s) - p + 1)] whose [i]-th element
    is the arithmetic mean of [s[i .. i+p-1]]; on
    [[10,10,10,10,10,11,12,13,14,15]] with [p = 5] the first output is 10
    and the last is 13. *)
Theorem calculate_sma_spec :
  (forall (s : list Q) (p : nat), (1 <= p)%nat ->
     exists out,
       calculate_sma s p = Ok out /\
       Z.of_nat (length out)
         = Z.max 0 (Z.of_nat (length s) - Z.of_nat p + 1) /\
       forall i, (i < length out)%nat ->
         nth_error out i = Some (mean (slice s i (i + p)))) /\
  (exists out,
     calculate_sma [10; 10; 10; 10; 10; 11; 12; 13; 14; 15] 5 = Ok out /\
     nth 0 out 0 == 10 /\ last out 0 == 13).
Proof.
  split.
  - intros s p Hp. rewrite (calculate_sma_ok s Hp).
    eexists; split; [reflexivity|]. rewrite length_map, length_seq.
    split; [lia|]. intros i Hi.
    rewrite nth_error_map, nth_error_seq.
    apply Nat.ltb_lt in Hi as Hi'. rewrite Hi'. simpl. f_equal.
    unfold mean. rewrite slice_length by lia.
    replace (i + p - i)%nat with p by lia. reflexivity.
  - eexists; split; [reflexivity|]. split; vm_compute; reflexivity.
Qed.

Lemma calculate_sma_spec_witness :
  exists out,
    calculate_sma [1; 2; 3; 4] 2 = Ok out /\
    Z.of_nat (length out) = Z.max 0 (Z.of_nat 4 - Z.of_nat 2 + 1) /\
    forall i, (i < length out)%nat ->
      nth_error out i = Some (mean (slice [1; 2; 3; 4] i (i + 2))).
Proof.
  apply (proj1 calculate_sma_spec [1; 2; 3; 4] 2%nat). lia.
Defined.

(** ** C9: the relative strength index *)

Lemma gain_nonneg (d : Q) : 0 <= gain d.
Proof.
  unfold gain, Qltb. destruct (Qle_bool d 0) eqn:E; simpl; [lra|].
  destruct (Qlt_le_dec 0 d) as [H|H]; [lra|].
  apply Qle_bool_iff in H. congruence.
Qed.

Lemma loss_nonneg (d : Q) : 0 <= loss d.
Proof.
  unfold loss, Qltb. destruct (Qle_bool 0 d) eqn:E; simpl; [lra|].
  destruct (Qlt_le_dec d 0) as [H|H]; [lra|].
  apply Qle_bool_iff in H. congruence.
Qed.

Lemma loss_zero_iff (d : Q) : loss d == 0 <-> 0 <= d.
Proof.
  unfold loss, Qltb. destruct (Qle_bool 0 d) eqn:E; simpl.
  - apply Qle_bool_iff in E. split; intros; [assumption | reflexivity].
  - assert (~ 0 <= d) as Hn.
    { intros H. apply Qle_bool_iff in H. congruence. }
    split; intros H; [lra | contradiction].
Qed.

Lemma Forall_nth_default {A} (P : A -> Prop) (l : list A) (d : A) (n : nat) :
  Forall P l -> P d -> P (nth n l d).
Proof.
  intros Hl Hd. destruct (Nat.lt_ge_cases n (length l)) as [H|H].
  - rewrite Forall_forall in Hl. apply Hl, nth_In, H.
  - rewrite nth_overflow by assumption. assumption.
Qed.

Lemma Forall_firstn {A} (P : A -> Prop) (l : list A) (n : nat) :
  Forall P l -> Forall P (firstn n l).
Proof.
  intros H. revert n. induction H as [|x l Hx _ IH]; intros [|n]; simpl;
    constructor; auto.
Qed.

Lemma firstn_succ_nth {A} (d : A) (l : list A) (n : nat) :
  (n < length l)%nat -> firstn (S n) l = firstn n l ++ [nth n l d].
Proof.
  revert n; induction l as [|x l IH]; intros n Hn; simpl in *; [lia|].
  destruct n; [reflexivity|]. simpl. f_equal. apply IH. lia.
Qed.

Section Wilder.
Variable period : nat.
Hypothesis period_pos : (1 <= period)%nat.
Variable xs : list Q.
Hypothesis xs_nonneg : Forall (fun x => 0 <= x) xs.

Lemma wilder_nonneg (k : nat) : 0 <= wilder period xs k.
Proof.
  pose proof (of_nat_pos period_pos) as Hp.
  induction k as [|k IH]; simpl.
  - apply Qle_shift_div_l; [assumption|].
    pose proof (sum_nonneg (Forall_firstn period xs_nonneg)). lra.
  - apply Qle_shift_div_l; [assumption|].
    pose proof (of_nat_nonneg (period - 1)) as Hq.
    assert (0 <= nth (period + k) xs 0) as Hn
      by (apply Forall_nth_default; [assumption | lra]).
    assert (0 <= wilder period xs k * of_nat (period - 1))
      by (apply Qmult_le_0_compat; assumption).
    lra.
Qed.

Lemma wilder_zero_first :
  wilder period xs 0 == 0 <-> Forall (fun x => x == 0) (firstn period xs).
Proof.
  pose proof (of_nat_pos period_pos) as Hp. simpl.
  rewrite <- (sum_zero_iff (Forall_firstn period xs_nonneg)).
  split; intros H.
  - assert (sum (firstn period xs) == (sum (firstn period xs) / of_nat period)
                                    * of_nat period) as ->
      by (field; lra).
    rewrite H. lra.
  - rewrite H. field. lra.
Qed.

Lemma wilder_zero_step (k : nat) :
  (2 <= period)%nat ->
  (wilder period xs (S k) == 0
   <-> wilder period xs k == 0 /\ nth (period + k) xs 0 == 0).
Proof.
  intros H2. pose proof (of_nat_pos period_pos) as Hp.
  assert (0 < of_nat (period - 1)) as Hq by (apply of_nat_pos; lia).
  pose proof (wilder_nonneg k) as Hw.
  assert (0 <= nth (period + k) xs 0) as Hn
    by (apply Forall_nth_default; [assumption | lra]).
  simpl. set (w := wilder period xs k) in *.
  set (x := nth (period + k) xs 0) in *.
  assert (0 <= w * of_nat (period - 1)) as Hm
    by (apply Qmult_le_0_compat; lra).
  split.
  - intros H.
    assert (w * of_nat (period - 1) + x == 0) as Hs.
    { assert (w * of_nat (period - 1) + x
              == ((w * of_nat (period - 1) + x) / of_nat period)
                 * of_nat period) as -> by (field; lra).
      rewrite H. lra. }
    assert (w * of_nat (period - 1) == 0) as Hw0 by lra.
    split; [|lra].
    apply Qmult_integral in Hw0. destruct Hw0; [assumption | lra].
  - intros [Hw0 Hx0]. rewrite Hw0, Hx0. field. lra.
Qed.

Lemma wilder_zero_iff (k : nat) :
  (2 <= period)%nat -> (period + k <= length xs)%nat ->
  (wilder period xs k == 0
   <-> Forall (fun x => x == 0) (firstn (period + k) xs)).
Proof.
  intros H2. induction k as [|k IH]; intros Hlen.
  - rewrite Nat.add_0_r. apply wilder_zero_first.
  - rewrite (wilder_zero_step k H2), IH by lia.
    replace (period + S k)%nat with (S (period + k)) by lia.
    rewrite (firstn_succ_nth 0) by lia.
    rewrite Forall_app. split.
    + intros [Ha Hb]. split; [assumption|]. constructor; [assumption|constructor].
    + intros [Ha Hb]. split; [assumption|]. inversion Hb; assumption.
Qed.

End Wilder.

Lemma rsi_loop_wilder (period : nat) (ds : list Q) (n k : nat) :
  (length ds - (period + k) = n)%nat ->
  rsi_loop period (wilder period (map gain ds) k)
                  (wilder period (map loss ds) k)
                  (skipn (period + k) ds)
  = map (fun j => rsi_value (wilder period (map gain ds) j)
                            (wilder period (map loss ds) j))
        (seq (S k) n).
Proof.
  revert k; induction n as [|n IH]; intros k Hn.
  - rewrite skipn_all2 by lia. reflexivity.
  - rewrite (skipn_nth_cons 0) by lia.
    replace (S (period + k)) with (period + S k)%nat by lia.
    cbn [rsi_loop seq map].
    assert (gain (nth (period + k) ds 0) = nth (period + k) (map gain ds) 0)
      as -> by (symmetry; exact (map_nth gain ds 0 (period + k))).
    assert (loss (nth (period + k) ds 0) = nth (period + k) (map loss ds) 0)
      as -> by (symmetry; exact (map_nth loss ds 0 (period + k))).
    change ((wilder period (map gain ds) k * of_nat (period - 1)
             + nth (period + k) (map gain ds) 0) / of_nat period)
      with (wilder period (map gain ds) (S k)).
    change ((wilder period (map loss ds) k * of_nat (period - 1)
             + nth (period + k) (map loss ds) 0) / of_nat period)
      with (wilder period (map loss ds) (S k)).
    f_equal. apply IH. lia.
Qed.

Lemma deltas_length (prices : list Q) :
  length (deltas prices) = (length prices - 1)%nat.
Proof.
  induction prices as [|p rest IH]; [reflexivity|].
  destruct rest as [|q rest']; [reflexivity|].
  change (deltas (p :: q :: rest')) with ((q - p) :: deltas (q :: rest')).
  simpl length in *. lia.
Qed.

Lemma calculate_rsi_ok (prices : list Q) (period : nat) :
  (1 <= period)%nat -> (period + 1 <= length prices)%nat ->
  calculate_rsi prices period
  = Ok (map (fun j => rsi_value (wilder period (map gain (deltas prices)) j)
                                (wilder period (map loss (deltas prices)) j))
            (seq 0 (length prices - period))).
Proof.
  intros Hp Hlen. unfold calculate_rsi.
  destruct (length prices <? period + 1)%nat eqn:E;
    [apply Nat.ltb_lt in E; lia|].
  rewrite !truediv_of_nat by assumption. cbn [bind]. f_equal.
  replace (length prices - period)%nat
    with (S (length (deltas prices) - (period + 0)))
    by (rewrite deltas_length; lia).
  cbn [seq map]. f_equal.
  replace (skipn period (deltas prices))
    with (skipn (period + 0) (deltas prices)) by (f_equal; lia).
  apply (@rsi_loop_wilder period (deltas prices) _ 0). reflexivity.
Qed.

Lemma rsi_value_bounds (g l : Q) :
  0 <= g -> 0 <= l ->
  0 <= rsi_value g l <= 100 /\
  (rsi_value g l == 100 <-> l == 0) /\
  (~ l == 0 -> rsi_value g l == 100 - 100 / (1 + g / l)).
Proof.
  intros Hg Hl. unfold rsi_value.
  destruct (Qeq_bool l 0) eqn:E.
  - apply Qeq_bool_iff in E. repeat split; intros; lra.
  - assert (~ l == 0) as Hne
      by (intros H; apply Qeq_bool_iff in H; congruence).
    assert (0 < l) as Hpos by lra.
    assert (0 <= g / l) as Hrs by (apply Qle_shift_div_l; lra).
    assert (0 < 100 / (1 + g / l)) as Hlo by (apply Qlt_shift_div_l; lra).
    assert (100 / (1 + g / l) <= 100) as Hhi
      by (apply Qle_shift_div_r; lra).
    repeat split; intros; lra.
Qed.

(** *** The averages in the vocabulary of the statement *)

Lemma gain_max (d : Q) : gain d == Qmax d 0.
Proof.
  unfold gain, Qltb. destruct (Qle_bool d 0) eqn:E; simpl.
  - apply Qle_bool_iff in E. rewrite Q.max_r by assumption. reflexivity.
  - assert (~ d <= 0) as Hn
      by (intros H; apply Qle_bool_iff in H; congruence).
    rewrite Q.max_l by lra. reflexivity.
Qed.

Lemma loss_max (d : Q) : loss d == Qmax (- d) 0.
Proof.
  unfold loss, Qltb. destruct (Qle_bool 0 d) eqn:E; simpl.
  - apply Qle_bool_iff in E. rewrite Q.max_r by lra. reflexivity.
  - assert (~ 0 <= d) as Hn
      by (intros H; apply Qle_bool_iff in H; congruence).
    rewrite Q.max_l by lra. reflexivity.
Qed.

Lemma deltas_nth (prices : list Q) (i : nat) :
  (i < length prices - 1)%nat -> nth i (deltas prices) 0 = change prices i.
Proof.
  revert i; induction prices as [|p rest IH]; intros i Hi; [simpl in Hi; lia|].
  destruct rest as [|q rest']; [simpl in Hi; lia|].
  change (deltas (p :: q :: rest')) with ((q - p) :: deltas (q :: rest')).
  destruct i as [|i]; [reflexivity|].
  change (nth (S i) ((q - p) :: deltas (q :: rest')) 0)
    with (nth i (deltas (q :: rest')) 0).
  rewrite IH by (simpl in *; lia). reflexivity.
Qed.

Lemma nth_map_seq (f : nat -> Q) (n i : nat) :
  (i < n)%nat -> nth i (map f (seq 0 n)) 0 = f i.
Proof.
  intros Hi. apply nth_error_nth. rewrite nth_error_map, nth_error_seq.
  apply Nat.ltb_lt in Hi. rewrite Hi. reflexivity.
Qed.

Lemma gains_ups (prices : list Q) (i : nat) :
  nth i (map gain (deltas prices)) 0 == nth i (ups prices) 0.
Proof.
  destruct (Nat.lt_ge_cases i (length prices - 1)) as [Hi|Hi].
  - rewrite (nth_indep _ 0 (gain 0))
      by (rewrite length_map, deltas_length; assumption).
    rewrite map_nth, deltas_nth by assumption.
    unfold ups. rewrite nth_map_seq by assumption. apply gain_max.
  - rewrite !nth_overflow; [reflexivity | |].
    + unfold ups. rewrite length_map, length_seq. assumption.
    + rewrite length_map, deltas_length. assumption.
Qed.

Lemma losses_downs (prices : list Q) (i : nat) :
  nth i (map loss (deltas prices)) 0 == nth i (downs prices) 0.
Proof.
  destruct (Nat.lt_ge_cases i (length prices - 1)) as [Hi|Hi].
  - rewrite (nth_indep _ 0 (loss 0))
      by (rewrite length_map, deltas_length; assumption).
    rewrite map_nth, deltas_nth by assumption.
    unfold downs. rewrite nth_map_seq by assumption. apply loss_max.
  - rewrite !nth_overflow; [reflexivity | |].
    + unfold downs. rewrite length_map, length_seq. assumption.
    + rewrite length_map, deltas_length. assumption.
Qed.

Lemma sum_snoc (l : list Q) (x : Q) : sum (l ++ [x]) = sum l + x.
Proof. unfold sum. rewrite fold_left_app. reflexivity. Qed.

Lemma sum_firstn_ext (xs ys : list Q) (n : nat) :
  length xs = length ys ->
  (forall i, nth i xs 0 == nth i ys 0) ->
  sum (firstn n xs) == sum (firstn n ys).
Proof.
  intros Hlen Hnth. induction n as [|n IH]; [reflexivity|].
  destruct (Nat.lt_ge_cases n (length xs)) as [Hn|Hn].
  - rewrite (firstn_succ_nth 0 xs Hn).
    rewrite (firstn_succ_nth 0 ys) by (rewrite <- Hlen; assumption).
    rewrite !sum_snoc, IH, (Hnth n). reflexivity.
  - rewrite (firstn_all2 (n := S n) xs) by lia.
    rewrite (firstn_all2 (n := S n) ys) by lia.
    rewrite (firstn_all2 (n := n) xs) in IH by lia.
    rewrite (firstn_all2 (n := n) ys) in IH by lia.
    exact IH.
Qed.

Lemma wilder_ext (period : nat) (xs ys : list Q) (k : nat) :
  length xs = length ys ->
  (forall i, nth i xs 0 == nth i ys 0) ->
  wilder period xs k == wilder period ys k.
Proof.
  intros Hlen Hnth. induction k as [|k IH]; simpl.
  - rewrite (@sum_firstn_ext xs ys period Hlen Hnth). reflexivity.
  - rewrite IH, (Hnth (period + k)%nat). reflexivity.
Qed.

Lemma wilder_one (xs : list Q) (k : nat) : wilder 1 xs k == nth k xs 0.
Proof.
  destruct k as [|k]; cbn [wilder].
  - change (of_nat 1) with 1. destruct xs as [|x xs]; [reflexivity|].
    cbn [firstn nth]. unfold sum. cbn [fold_left]. field.
  - change (of_nat (1 - 1)) with 0. change (of_nat 1) with 1.
    change (1 + k)%nat with (S k). field.
Qed.

Lemma ups_length (prices : list Q) :
  length (ups prices) = length (map gain (deltas prices)).
Proof.
  unfold ups. rewrite !length_map, length_seq, deltas_length. reflexivity.
Qed.

Lemma downs_length (prices : list Q) :
  length (downs prices) = length (map loss (deltas prices)).
Proof.
  unfold downs. rewrite !length_map, length_seq, deltas_length. reflexivity.
Qed.

Lemma Forall_firstn_nth (P : Q -> Prop) (l : list Q) (n : nat) :
  (n <= length l)%nat ->
  (Forall P (firstn n l) <-> forall i, (i < n)%nat -> P (nth i l 0)).
Proof.
  intros Hn. induction n as [|n IH].
  - split; [intros _ i Hi; lia | intros _; constructor].
  - rewrite (firstn_succ_nth 0) by lia. rewrite Forall_app, IH by lia.
    split.
    + intros [Ha Hb] i Hi. inversion Hb; subst.
      destruct (Nat.eq_dec i n) as [->|Hne]; [assumption | apply Ha; lia].
    + intros H. split; [intros i Hi; apply H; lia|].
      constructor; [apply H; lia | constructor].
Qed.

(** The average loss behind the [k]-th value is zero exactly when the
    changes that still weigh in it are free of losses: the first
    [period + k] changes for [period >= 2], the latest one for
    [period = 1]. *)
Lemma average_loss_zero_iff (prices : list Q) (period k : nat) :
  (1 <= period)%nat -> (period + k < length prices)%nat ->
  let avg_loss := wilder period (map loss (deltas prices)) k in
  ((2 <= period)%nat ->
   (avg_loss == 0 <->
    forall i, (i < period + k)%nat -> 0 <= change prices i)) /\
  (period = 1%nat -> (avg_loss == 0 <-> 0 <= change prices k)).
Proof.
  intros Hp Hlen avg_loss. subst avg_loss.
  assert (Forall (fun x => 0 <= x) (map loss (deltas prices))) as HL
    by (apply Forall_map, Forall_forall; intros; apply loss_nonneg).
  assert (forall i, (i < length prices - 1)%nat ->
            (nth i (map loss (deltas prices)) 0 == 0
             <-> 0 <= change prices i)) as Hnth.
  { intros i Hi.
    rewrite (nth_indep _ 0 (loss 0))
      by (rewrite length_map, deltas_length; assumption).
    rewrite map_nth, deltas_nth by assumption. apply loss_zero_iff. }
  split.
  - intros H2. rewrite (wilder_zero_iff Hp HL) by
      (try assumption; rewrite length_map, deltas_length; lia).
    rewrite Forall_firstn_nth by (rewrite length_map, deltas_length; lia).
    split; intros H i Hi; apply Hnth; try lia; apply H; assumption.
  - intros ->. rewrite wilder_one. apply Hnth. lia.
Qed.

(** C9, as amended.  For every price series and every [period >= 1],
    [calculate_rsi] returns [len - period] values (none for a series
    shorter than [period + 1]).  Over exact arithmetic every value lies in
    [[0, 100]]; it is 100 exactly when the Wilder-smoothed average loss is
    0, and [100 - 100 / (1 + avg_gain / avg_loss)] otherwise, where the
    averages smooth [max(change, 0)] and [max(-change, 0)] of the price
    changes [prices[i+1] - prices[i]].  For [period >= 2] the average loss
    behind the [k]-th value is 0 exactly when none of the first
    [period + k] changes is a loss: the smoothing never forgets one.  For
    [period = 1] it is 0 exactly when the latest change is not a loss. *)
Theorem calculate_rsi_spec (prices : list Q) (period : nat) :
  (1 <= period)%nat ->
  exists out,
    calculate_rsi prices period = Ok out /\
    length out = (length prices - period)%nat /\
    forall k, (k < length out)%nat ->
      let v := nth k out 0 in
      let avg_gain := wilder period (ups prices) k in
      let avg_loss := wilder period (downs prices) k in
      0 <= v <= 100 /\
      (v == 100 <-> avg_loss == 0) /\
      (~ avg_loss == 0 -> v == 100 - 100 / (1 + avg_gain / avg_loss)) /\
      ((2 <= period)%nat ->
       (avg_loss == 0 <->
        forall i, (i < period + k)%nat -> 0 <= change prices i)) /\
      (period = 1%nat -> (avg_loss == 0 <-> 0 <= change prices k)).
Proof.
  intros Hp.
  destruct (Nat.lt_ge_cases (length prices) (period + 1)) as [Hshort|Hlen].
  { exists []. unfold calculate_rsi.
    apply Nat.ltb_lt in Hshort as E. rewrite E.
    split; [reflexivity|]. split; [simpl; lia|].
    intros k Hk. simpl in Hk. lia. }
  rewrite (calculate_rsi_ok prices Hp Hlen).
  eexists; split; [reflexivity|]. rewrite length_map, length_seq.
  split; [reflexivity|]. intros k Hk. cbv zeta.
  rewrite nth_map_seq by assumption.
  assert (Forall (fun x => 0 <= x) (map gain (deltas prices))) as HG
    by (apply Forall_map, Forall_forall; intros; apply gain_nonneg).
  assert (Forall (fun x => 0 <= x) (map loss (deltas prices))) as HL
    by (apply Forall_map, Forall_forall; intros; apply loss_nonneg).
  pose proof (wilder_nonneg Hp HG k) as Hg.
  pose proof (wilder_nonneg Hp HL k) as Hl.
  destruct (rsi_value_bounds Hg Hl) as (Hb & Hiff & Hval).
  assert (period + k < length prices)%nat as Hk' by lia.
  destruct (@average_loss_zero_iff prices period k Hp Hk') as [Hmany Hone].
  assert (wilder period (map gain (deltas prices)) k
          == wilder period (ups prices) k) as Eg
    by (apply wilder_ext;
        [symmetry; apply ups_length | apply gains_ups]).
  assert (wilder period (map loss (deltas prices)) k
          == wilder period (downs prices) k) as El
    by (apply wilder_ext;
        [symmetry; apply downs_length | apply losses_downs]).
  rewrite <- Eg, <- El.
  split; [exact Hb|]. split; [exact Hiff|]. split; [exact Hval|].
  split; assumption.
Qed.

Lemma calculate_rsi_spec_witness :
  exists out,
    calculate_rsi [10; 11; 12; 11; 13] 2 = Ok out /\
    length out = (5 - 2)%nat /\
    forall k, (k < length out)%nat ->
      let v := nth k out 0 in
      let avg_gain := wilder 2 (ups [10; 11; 12; 11; 13]) k in
      let avg_loss := wilder 2 (downs [10; 11; 12; 11; 13]) k in
      0 <= v <= 100 /\
      (v == 100 <-> avg_loss == 0) /\
      (~ avg_loss == 0 -> v == 100 - 100 / (1 + avg_gain / avg_loss)) /\
      ((2 <= 2)%nat ->
       (avg_loss == 0 <->
        forall i, (i < 2 + k)%nat -> 0 <= change [10; 11; 12; 11; 13] i)) /\
      (2%nat = 1%nat ->
       (avg_loss == 0 <-> 0 <= change [10; 11; 12; 11; 13] k)).
Proof.
  apply (@calculate_rsi_spec [10; 11; 12; 11; 13] 2). lia.
Defined.

Section RsiOnDoubles.
Import PrimFloat.

(** C9, counterexample.  On doubles a value can be exactly 100.0 although
    the average loss it was computed from is positive: with the default
    period 14 and the closes 100, 99, 100, 101, 102, ... (one loss, then
    gains only) the 468th value is 100.0 while [avg_loss] is about
    [6.7e-17]; and a value can be NaN, outside [[0, 100]], when the
    averages overflow.  Both series are strictly positive and longer than
    [period].  Over exact arithmetic, "no losses in the window" does not
    say when a value is 100 either: with period 2 on [[10, 9, 10, 11, 12]]
    the last value is 87.5 although the last two changes are gains, and
    with period 1 on [[10, 9, 10]] the last value is 100 although the
    series has a loss. *)
Theorem calculate_rsi_counterexample :
  (forallb (fun p => 0 <? p)%float FloatSamples.one_loss_then_gains = true /\
   (14 + 1 <= length FloatSamples.one_loss_then_gains)%nat /\
   exists trace out avg_loss,
     MathUtilsFloat.rsi_trace FloatSamples.one_loss_then_gains 14
     = Ok trace /\
     MathUtilsFloat.calculate_rsi FloatSamples.one_loss_then_gains 14
     = Ok out /\
     nth_error out 467 = Some 100%float /\
     nth_error trace 467 = Some (100%float, avg_loss) /\
     (0 <? avg_loss)%float = true) /\
  (forallb (fun p => 0 <? p)%float FloatSamples.swinging = true /\
   MathUtilsFloat.calculate_rsi FloatSamples.swinging 3
   = Ok [100%float; nan]) /\
  (exists out,
     MathUtils.calculate_rsi [10; 9; 10; 11; 12] 2 = Ok out /\
     nth 2 out 0 == 175 # 2 /\
     0 < change [10; 9; 10; 11; 12] 2 /\
     0 < change [10; 9; 10; 11; 12] 3) /\
  (exists out,
     MathUtils.calculate_rsi [10; 9; 10] 1 = Ok out /\
     nth 1 out 0 == 100 /\
     change [10; 9; 10] 0 < 0).
Proof.
  split; [|split; [|split]].
  - split; [vm_compute; reflexivity|]. split; [vm_compute; lia|].
    eexists; eexists; eexists.
    split; [vm_compute; reflexivity|].
    split; [vm_compute; reflexivity|].
    split; [vm_compute; reflexivity|].
    split; vm_compute; reflexivity.
  - split; vm_compute; reflexivity.
  - eexists; split; [reflexivity|].
    split; [|split]; vm_compute; reflexivity.
  - eexists; split; [reflexivity|].
    split; vm_compute; reflexivity.
Qed.

End RsiOnDoubles.


(** ** The rule chain of the signal filter *)

Section RuleChain.
Import SignalFilter FilterSpec.
Variable lib : MathLib.

Lemma core_set_stats (self : t) (s : Stats) :
  core (set_stats self s) = core self.
Proof. reflexivity. Qed.

Lemma core_log (self : t) (reason : string) :
  core (_log_filter_reason self reason) = core self.
Proof. reflexivity. Qed.

Ltac framed_cases :=
  repeat match goal with
    | |- context [if ?b then _ else _] => destruct b
    | |- context [match ?x with _ => _ end] => destruct x
    end;
  simpl; split; (reflexivity || discriminate || auto).

Lemma framed_confidence : framed _filter_by_confidence.
Proof. intros self signal context; unfold _filter_by_confidence; framed_cases. Qed.

Lemma framed_cooldown : framed _filter_by_cooldown.
Proof. intros self signal context; unfold _filter_by_cooldown; framed_cases. Qed.

Lemma framed_volume : framed _filter_by_volume.
Proof. intros self signal context; unfold _filter_by_volume; framed_cases. Qed.

Lemma framed_price : framed _filter_by_price.
Proof. intros self signal context; unfold _filter_by_price; framed_cases. Qed.

Lemma framed_blacklist : framed _filter_by_blacklist.
Proof. intros self signal context; unfold _filter_by_blacklist; framed_cases. Qed.

Lemma framed_daily_limit : framed _filter_by_daily_limit.
Proof. intros self signal context; unfold _filter_by_daily_limit; framed_cases. Qed.

Lemma framed_duplicates_loop (self : t) (signal : Signal.t) (now : Q)
    (history : list Signal.t) :
  (fst (duplicates_loop self signal now history) = Ok true ->
   snd (duplicates_loop self signal now history) = self) /\
  core (snd (duplicates_loop self signal now history)) = core self.
Proof.
  induction history as [|h rest IH]; simpl; [split; reflexivity|].
  destruct (Qltb 600 _); [exact IH|].
  destruct (_are_signals_similar signal h) as [[|]|e]; simpl;
    try exact IH; split; (reflexivity || discriminate).
Qed.

Lemma framed_duplicates : framed _filter_duplicates.
Proof. intros self signal context. apply framed_duplicates_loop. Qed.

(** The guard of [calculate_volatility] always fires when the period is
    the length of the series. *)
Lemma calculate_volatility_full_period (prices : list Q) :
  MathUtils.calculate_volatility lib prices (length prices) = Ok [].
Proof.
  unfold MathUtils.calculate_volatility.
  destruct (length prices <? length prices + 1)%nat eqn:E; [reflexivity|].
  apply Nat.ltb_ge in E. lia.
Qed.

Lemma filter_by_volatility_accepts (self : t) (signal : Signal.t)
    (context : Context) :
  _filter_by_volatility lib self signal context = (Ok true, self).
Proof.
  unfold _filter_by_volatility.
  destruct (Dict.get _ _) as [md|]; [|reflexivity].
  destruct (MarketData.klines md) as [|k ks] eqn:Ek; [reflexivity|].
  destruct (_ <? 10)%nat; [reflexivity|].
  rewrite calculate_volatility_full_period. reflexivity.
Qed.

Lemma framed_volatility : framed (_filter_by_volatility lib).
Proof.
  intros self signal context. rewrite filter_by_volatility_accepts.
  split; reflexivity.
Qed.

Ltac framed_list :=
  repeat (apply Forall_cons;
          [ simpl;
            first [ exact framed_confidence | exact framed_cooldown
                  | exact framed_volume | exact framed_price
                  | exact framed_volatility | exact framed_blacklist
                  | exact framed_duplicates | exact framed_daily_limit ] |]);
  apply Forall_nil.

(** The rule list after the [enabled] comprehension and the sort. *)
Lemma initialize_filter_rules_eq (self : t) :
  _initialize_filter_rules lib self
  = [confidence_rule; cooldown_rule; volume_rule; price_rule]
    ++ (if enabled (volatility_rule lib self)
        then [volatility_rule lib self] else [])
    ++ [blacklist_rule; duplicate_rule]
    ++ (if enabled (daily_limit_rule self)
        then [daily_limit_rule self] else []).
Proof.
  unfold _initialize_filter_rules, declared_rules.
  cbn [filter enabled confidence_rule cooldown_rule volume_rule price_rule
       blacklist_rule duplicate_rule].
  destruct (enabled (volatility_rule lib self)) eqn:E1;
    destruct (enabled (daily_limit_rule self)) eqn:E2; reflexivity.
Qed.

Lemma framed_initialized (self : t) :
  Forall (fun r => framed (filter_func r)) (_initialize_filter_rules lib self).
Proof.
  rewrite initialize_filter_rules_eq.
  destruct (enabled (volatility_rule lib self));
    destruct (enabled (daily_limit_rule self)); simpl; framed_list.
Qed.

(** What a call of [apply_rules] on framed rules amounts to. *)
Lemma apply_rules_framed (rules : list FilterRule) (self : t)
    (signal : Signal.t) (context : Context) :
  Forall (fun r => framed (filter_func r)) rules ->
  forall verdict called self',
    apply_rules rules self signal context = (verdict, called, self') ->
    core self' = core self /\
    (verdict = true ->
     called = map name rules /\
     Forall (accepts signal context self) rules /\ self' = self) /\
    (verdict = false ->
     exists pre r post,
       rules = pre ++ r :: post /\
       Forall (accepts signal context self) pre /\
       rejects signal context self r /\
       called = map name pre ++ [name r] /\
       self' = snd (filter_func r self signal context)).
Proof.
  induction 1 as [|rule rest Hrule Hrest IH]; intros verdict called self' Happ.
  - simpl in Happ. inversion Happ; subst. split; [reflexivity|].
    split; [intros _; repeat split; constructor | discriminate].
  - simpl in Happ. destruct (Hrule self signal context) as [Hpure Hcore].
    destruct (filter_func rule self signal context) as [[[|]|e] self1] eqn:E;
      simpl in Hpure, Hcore.
    + rewrite (Hpure eq_refl) in *.
      destruct (apply_rules rest self signal context) as [[v c] s2] eqn:E2.
      inversion Happ; subst.
      destruct (IH _ _ _ eq_refl) as (Hc & Ht & Hf).
      split; [exact Hc|]. split.
      * intros Hv. destruct (Ht Hv) as (-> & Hall & ->).
        repeat split. constructor; [exact E | exact Hall].
      * intros Hv. destruct (Hf Hv) as (pre & r & post & -> & Hpre & Hr & -> & ->).
        exists (rule :: pre), r, post. repeat split; try assumption.
        constructor; [exact E | exact Hpre].
    + inversion Happ; subst. split; [exact Hcore|]. split; [discriminate|].
      intros _. exists [], rule, rest. unfold rejects. rewrite E.
      repeat split; [constructor | simpl; discriminate].
    + inversion Happ; subst. split; [exact Hcore|]. split; [discriminate|].
      intros _. exists [], rule, rest. unfold rejects. rewrite E.
      repeat split; [constructor | simpl; discriminate].
Qed.

(** For an arbitrary rule list: a rule that raises, reached after its
    predecessors accepted, makes the verdict [False]. *)
Lemma apply_rules_raise (pre post : list FilterRule) (r : FilterRule)
    (self self_r s' : t) (signal : Signal.t) (context : Context)
    (called : list string) (e : PyExn) :
  apply_rules pre self signal context = (true, called, self_r) ->
  filter_func r self_r signal context = (Raise e, s') ->
  apply_rules (pre ++ r :: post) self signal context
  = (false, called ++ [name r], s').
Proof.
  revert self called. induction pre as [|p pre IH]; intros self called Hpre Hr.
  - simpl in Hpre. inversion Hpre; subst. simpl. rewrite Hr. reflexivity.
  - simpl in Hpre |- *.
    destruct (filter_func p self signal context) as [[[|]|e'] s1];
      try discriminate.
    destruct (apply_rules pre s1 signal context) as [[v c] s2] eqn:E.
    inversion Hpre; subst.
    rewrite (IH _ _ E Hr). reflexivity.
Qed.

Lemma validate_signal_basic_core (self : t) (signal : Signal.t) :
  core (snd (_validate_signal_basic self signal)) = core self.
Proof.
  unfold _validate_signal_basic.
  destruct (ValidationUtils.validate_signal signal); reflexivity.
Qed.

Lemma validate_signal_basic_true (self : t) (signal : Signal.t) :
  fst (_validate_signal_basic self signal) = true ->
  snd (_validate_signal_basic self signal) = self /\
  ValidationUtils.validate_signal signal = [].
Proof.
  unfold _validate_signal_basic.
  destruct (ValidationUtils.validate_signal signal); simpl;
    [auto | discriminate].
Qed.

Variable mdata : Dict.t MarketData.t.
Variable clk : nat -> Q.

(** A candidate that does not pass leaves everything but the statistics
    as it was. *)
Lemma filter_step_rejected (st : LoopState) (signal : Signal.t) :
  passes_chain lib mdata clk st signal = false ->
  core (ls_self (filter_step lib mdata clk st signal))
    = core (ls_self st) /\
  ls_detached (filter_step lib mdata clk st signal) = ls_detached st /\
  ls_filtered (filter_step lib mdata clk st signal) = ls_filtered st.
Proof.
  unfold passes_chain, filter_step.
  pose proof (validate_signal_basic_core
                (incr_total_processed (ls_self st)) signal) as Hv.
  destruct (_validate_signal_basic _ signal) as [[|] self2]; simpl in Hv.
  - unfold _apply_filter_rules.
    destruct (apply_rules _ self2 signal _) as [[v c] self3] eqn:E.
    simpl. intros ->.
    destruct (@apply_rules_framed _ _ _ _ (framed_initialized self2) _ _ _ E)
      as (Hc & _ & _).
    simpl. repeat split.
    transitivity (core self2); [exact Hc | exact Hv].
  - intros _. simpl. repeat split. exact Hv.
Qed.

(** A candidate that passes is appended to the accepted list and goes
    through [_update_signal_state]. *)
Lemma filter_step_accepted (st : LoopState) (signal : Signal.t) :
  passes_chain lib mdata clk st signal = true ->
  let st' := filter_step lib mdata clk st signal in
  let self := ls_self st in
  let appended := _signal_history self ++ [signal] in
  ls_filtered st' = ls_filtered st ++ [signal] /\
  _daily_signal_count (ls_self st') = S (_daily_signal_count self) /\
  _signal_history (ls_self st')
    = (if (1000 <? length appended)%nat then last_n 500 appended
       else appended) /\
  _symbol_last_signal (ls_self st')
    = Dict.set (_symbol_last_signal self) (Signal.symbol signal)
               (clk (S (length (ls_filtered st)))) /\
  config (ls_self st') = config self /\
  risk_filters (ls_self st') = risk_filters self /\
  max_signals_per_symbol (ls_self st') = max_signals_per_symbol self /\
  _last_reset_date (ls_self st') = _last_reset_date self.
Proof.
  unfold passes_chain, filter_step.
  pose proof (validate_signal_basic_core
                (incr_total_processed (ls_self st)) signal) as Hv.
  destruct (_validate_signal_basic _ signal) as [[|] self2]; simpl in Hv;
    [|discriminate].
  unfold _apply_filter_rules.
  destruct (apply_rules _ self2 signal _) as [[v c] self3] eqn:E.
  simpl. intros ->.
  destruct (@apply_rules_framed _ _ _ _ (framed_initialized self2) _ _ _ E)
    as (Hc & _ & _).
  assert (core self3 = core (ls_self st)) as H by (rewrite Hc; exact Hv).
  unfold core in H. inversion H as [[H1 H2 H3 H4 H5 H6 H7 H8 H9 H10]].
  simpl. rewrite H7, H8, H9. repeat split; assumption.
Qed.

(** The verdict of the chain, seen from the loop state. *)
Lemma passes_chain_spec (st : LoopState) (signal : Signal.t) :
  passes_chain lib mdata clk st signal = true <->
  ValidationUtils.validate_signal signal = [] /\
  Forall (accepts signal (step_context mdata clk st)
                  (incr_total_processed (ls_self st)))
         (_initialize_filter_rules lib (incr_total_processed (ls_self st))).
Proof.
  unfold passes_chain.
  pose proof (validate_signal_basic_true
                (incr_total_processed (ls_self st)) signal) as Hv.
  destruct (_validate_signal_basic _ signal) as [[|] self2] eqn:Eb;
    simpl in Hv.
  - destruct (Hv eq_refl) as [-> Hvalid].
    change {| market_data := mdata;
              signal_history :=
                context_history (ls_detached st)
                                (incr_total_processed (ls_self st));
              current_time := clk 0%nat |}
      with (step_context mdata clk st).
    unfold _apply_filter_rules.
    destruct (apply_rules _ _ signal _) as [[v c] self3] eqn:E. simpl.
    destruct (@apply_rules_framed _ _ _ _
                (framed_initialized (incr_total_processed (ls_self st)))
                _ _ _ E)
      as (_ & Ht & Hf).
    split.
    + intros ->. split; [exact Hvalid | apply Ht; reflexivity].
    + intros [_ Hall]. destruct v; [reflexivity|].
      destruct (Hf eq_refl) as (pre & r & post & Hrules & _ & Hr & _).
      rewrite Hrules in Hall. apply Forall_app in Hall as [_ Hall].
      inversion Hall as [|? ? Hacc _]; subst.
      unfold rejects, accepts in *. rewrite Hacc in Hr. contradiction Hr.
      reflexivity.
  - split; [discriminate|]. intros [Hvalid _].
    unfold _validate_signal_basic in Eb. rewrite Hvalid in Eb. discriminate.
Qed.

End RuleChain.

Import SignalFilter FilterSpec.

(** ** C2: the volatility rule *)

(** C2 (code defect). With market data holding at least 10 closes, the
    volatility rule is meant to compute the rolling volatility of the last
    20 closes and to reject above [volatility_threshold].  The rule passes
    [len(prices)] as the period, [calculate_volatility] needs
    [period + 1] prices, so the computed list is always empty and the rule
    accepts whatever the closes are. *)
Theorem volatility_rule_never_rejects
    (lib : MathLib) (self : t) (signal : Signal.t) (context : Context)
    (md : MarketData.t) :
  Dict.get (market_data context) (Signal.symbol signal) = Some md ->
  (10 <= length (MarketData.klines md))%nat ->
  let prices := map Kline.close (last_n 20 (MarketData.klines md)) in
  (10 <= length prices <= 20)%nat /\
  MathUtils.calculate_volatility lib prices (length prices) = Ok [] /\
  _filter_by_volatility lib self signal context = (Ok true, self).
Proof.
  intros Hmd Hlen prices. split; [|split].
  - subst prices. unfold last_n. rewrite length_map, length_skipn. lia.
  - apply calculate_volatility_full_period.
  - apply filter_by_volatility_accepts.
Qed.

Lemma volatility_rule_never_rejects_witness :
  let self := __init__ Samples.default_config 0 in
  let signal := Samples.mk_signal "s1" "AAPL" BUY 200 (9 # 10) 2200000 in
  let context := {| market_data := Samples.swinging_market;
                    signal_history := [];
                    current_time := 2200 |} in
  map Kline.close (last_n 20 Samples.swinging_klines)
    = [100; 200; 100; 200; 100; 200; 100; 200; 100; 200;
       100; 200; 100; 200; 100; 200; 100; 200; 100; 200] /\
  _filter_by_volatility RationalMath.lib self signal context = (Ok true, self).
Proof.
  split; [reflexivity|].
  refine (proj2 (proj2 (@volatility_rule_never_rejects RationalMath.lib _ _ _
                          Samples.swinging_data _ _))).
  - reflexivity.
  - simpl. lia.
Defined.

(** ** C4: rule order and short-circuit *)

(** C4. The enabled rules are evaluated in ascending priority order
    (confidence, cooldown, volume, price, volatility, blacklist, duplicate,
    daily_limit); the first rule that rejects ends the evaluation, no later
    rule is called for that signal, and the signal is not appended to the
    accepted list. *)
Theorem rule_chain_order_and_short_circuit
    (lib : MathLib) (self : t) (signal : Signal.t) (context : Context) :
  let rules := _initialize_filter_rules lib self in
  map name rules
    = ["confidence_filter"; "cooldown_filter"; "volume_filter";
       "price_filter"]%string
      ++ (if enabled (volatility_rule lib self)
          then ["volatility_filter"%string] else [])
      ++ ["blacklist_filter"; "duplicate_filter"]%string
      ++ (if enabled (daily_limit_rule self)
          then ["daily_limit_filter"%string] else []) /\
  StronglySorted (fun a b => (priority a < priority b)%nat) rules /\
  (let '(verdict, called, _) := _apply_filter_rules lib self signal context in
   if verdict
   then called = map name rules /\
        Forall (accepts signal context self) rules
   else exists pre r post,
          rules = pre ++ r :: post /\
          Forall (accepts signal context self) pre /\
          rejects signal context self r /\
          called = map name pre ++ [name r]) /\
  (forall mdata clk st,
     ValidationUtils.validate_signal signal = [] ->
     fst (fst (_apply_filter_rules lib (incr_total_processed (ls_self st))
                 signal (step_context mdata clk st))) = false ->
     ls_filtered (filter_step lib mdata clk st signal) = ls_filtered st).
Proof.
  cbv zeta. split; [|split; [|split]].
  - rewrite initialize_filter_rules_eq.
    destruct (enabled (volatility_rule lib self));
      destruct (enabled (daily_limit_rule self)); reflexivity.
  - rewrite initialize_filter_rules_eq.
    destruct (enabled (volatility_rule lib self));
      destruct (enabled (daily_limit_rule self)); simpl;
      repeat (apply SSorted_cons; [|repeat (apply Forall_cons; [simpl; lia|]);
                                    apply Forall_nil]);
      apply SSorted_nil.
  - unfold _apply_filter_rules.
    destruct (apply_rules _ self signal context) as [[v c] s'] eqn:E.
    destruct (@apply_rules_framed _ _ _ _ (framed_initialized lib self) _ _ _ E)
      as (_ & Ht & Hf).
    destruct v.
    + destruct (Ht eq_refl) as (Hc & Hall & _). split; assumption.
    + destruct (Hf eq_refl) as (pre & r & post & H1 & H2 & H3 & H4 & _).
      exists pre, r, post. repeat split; assumption.
  - intros mdata clk st Hvalid Hverdict.
    apply (filter_step_rejected lib mdata clk st signal).
    unfold passes_chain, _validate_signal_basic. rewrite Hvalid.
    exact Hverdict.
Qed.

Lemma rule_chain_order_and_short_circuit_witness :
  let self := __init__ Samples.default_config 0 in
  let signal := Samples.mk_signal "s1" "AAPL" BUY 200 (3 # 10) 2200000 in
  let st := {| ls_self := self; ls_detached := None; ls_filtered := [] |} in
  ls_filtered (filter_step RationalMath.lib [] (Samples.frozen_clock 2200)
                           st signal) = [].
Proof.
  intros self signal st.
  apply (proj2 (proj2 (proj2
           (rule_chain_order_and_short_circuit RationalMath.lib self signal
              (step_context [] (Samples.frozen_clock 2200) st))))).
  - reflexivity.
  - reflexivity.
Defined.

(** ** The loop of [filter_signals] *)

Section FilterLoop.
Variable lib : MathLib.
Variable mdata : Dict.t MarketData.t.
Variable clk : nat -> Q.

Lemma loop_related_refl (st : LoopState) : loop_related st st.
Proof.
  unfold loop_related. repeat split. exists []. rewrite app_nil_r.
  repeat split. simpl. lia.
Qed.

Lemma loop_related_trans (a b c : LoopState) :
  loop_related a b -> loop_related b c -> loop_related a c.
Proof.
  intros (A1 & A2 & A3 & A4 & xs & A5 & A6 & A7)
         (B1 & B2 & B3 & B4 & ys & B5 & B6 & B7).
  unfold loop_related. repeat split; try congruence.
  exists (xs ++ ys). rewrite B5, A5, app_assoc, length_app.
  repeat split; [lia|].
  intros H. apply app_eq_nil in H as [-> ->].
  rewrite B7, A7; reflexivity.
Qed.

Lemma core_tracked (a b : t) : core a = core b -> tracked a = tracked b.
Proof.
  unfold core, tracked. intros H. inversion H. reflexivity.
Qed.

Lemma filter_step_related (st : LoopState) (signal : Signal.t) :
  loop_related st (filter_step lib mdata clk st signal).
Proof.
  destruct (passes_chain lib mdata clk st signal) eqn:E.
  - destruct (filter_step_accepted lib mdata clk st signal E)
      as (H1 & H2 & _ & _ & H5 & H6 & H7 & H8).
    unfold loop_related. repeat split; try assumption.
    exists [signal]. repeat split; [assumption | simpl; lia | discriminate].
  - destruct (filter_step_rejected lib mdata clk st signal E)
      as (H1 & _ & H3).
    pose proof (core_tracked H1) as Ht.
    unfold core in H1. inversion H1.
    unfold loop_related. repeat split; try assumption.
    exists []. rewrite app_nil_r. repeat split; [assumption | simpl; lia|].
    intros _. exact Ht.
Qed.

Lemma fold_filter_step_related (signals : list Signal.t) (st : LoopState) :
  loop_related st (fold_left (filter_step lib mdata clk) signals st).
Proof.
  revert st. induction signals as [|s rest IH]; intros st; simpl.
  - apply loop_related_refl.
  - eapply loop_related_trans; [apply filter_step_related | apply IH].
Qed.

Lemma filter_loop_related (self : t) (signals : list Signal.t) :
  let st' := filter_loop lib mdata clk self signals in
  config (ls_self st') = config self /\
  risk_filters (ls_self st') = risk_filters self /\
  max_signals_per_symbol (ls_self st') = max_signals_per_symbol self /\
  _last_reset_date (ls_self st') = _last_reset_date self /\
  _daily_signal_count (ls_self st')
    = (_daily_signal_count self + length (ls_filtered st'))%nat /\
  (ls_filtered st' = [] -> tracked (ls_self st') = tracked self).
Proof.
  unfold filter_loop.
  destruct (fold_filter_step_related signals
              {| ls_self := self; ls_detached := None; ls_filtered := [] |})
    as (H1 & H2 & H3 & H4 & added & H5 & H6 & H7).
  simpl in *. subst. repeat split; try assumption.
Qed.

End FilterLoop.

(** ** C5: state is updated only for accepted signals *)

(** C5. Within [filter_signals], the per-symbol last-accepted time, the
    history buffer and the daily counter change only in an iteration whose
    signal passes validation and the whole rule chain; a signal that fails
    validation, is rejected by a rule, or makes a rule raise, leaves the
    three unchanged, and so does a whole loop that accepts nothing: after
    such a call they are as the daily reset at its start left them. *)
Theorem state_updates_only_on_acceptance
    (lib : MathLib) (mdata : Dict.t MarketData.t) (clk : nat -> Q)
    (st : LoopState) (signal : Signal.t) :
  let self1 := incr_total_processed (ls_self st) in
  let rules := _initialize_filter_rules lib self1 in
  let context := step_context mdata clk st in
  let st' := filter_step lib mdata clk st signal in
  (ValidationUtils.validate_signal signal <> [] ->
   tracked (ls_self st') = tracked (ls_self st)) /\
  (forall r, In r rules -> rejects signal context self1 r ->
   tracked (ls_self st') = tracked (ls_self st)) /\
  (forall r e, In r rules ->
   fst (filter_func r self1 signal context) = Raise e ->
   tracked (ls_self st') = tracked (ls_self st)) /\
  (tracked (ls_self st') <> tracked (ls_self st) ->
   ValidationUtils.validate_signal signal = [] /\
   Forall (accepts signal context self1) rules /\
   ls_filtered st' = ls_filtered st ++ [signal]) /\
  (forall self signals,
     ls_filtered (filter_loop lib mdata clk self signals) = [] ->
     tracked (ls_self (filter_loop lib mdata clk self signals))
       = tracked self) /\
  (forall self today signals md,
     accepted_by_chain lib self today clk signals md = [] ->
     tracked (snd (filter_signals lib self today clk signals md))
     = match signals with
       | [] => tracked self
       | _ :: _ => tracked (_reset_daily_count_if_needed self today)
       end).
Proof.
  cbv zeta.
  assert (passes_chain lib mdata clk st signal = false ->
          tracked (ls_self (filter_step lib mdata clk st signal))
            = tracked (ls_self st)) as Hframe.
  { intros H. apply core_tracked.
    apply (filter_step_rejected lib mdata clk st signal H). }
  pose proof (passes_chain_spec lib mdata clk st signal) as Hspec.
  assert (forall r,
            In r (_initialize_filter_rules lib (incr_total_processed (ls_self st))) ->
            rejects signal (step_context mdata clk st)
                    (incr_total_processed (ls_self st)) r ->
            passes_chain lib mdata clk st signal = false) as Hrej.
  { intros r Hin Hr.
    destruct (passes_chain lib mdata clk st signal) eqn:E; [|reflexivity].
    destruct (proj1 Hspec eq_refl) as [_ Hall].
    rewrite Forall_forall in Hall. specialize (Hall r Hin).
    unfold rejects, accepts in *. rewrite Hall in Hr. contradiction Hr.
    reflexivity. }
  split; [|split; [|split; [|split; [|split]]]].
  - intros Hinvalid. apply Hframe.
    destruct (passes_chain lib mdata clk st signal) eqn:E; [|reflexivity].
    destruct (proj1 Hspec eq_refl) as [Hvalid _]. contradiction.
  - intros r Hin Hr. apply Hframe. eapply Hrej; eassumption.
  - intros r e Hin Hr. apply Hframe. apply (Hrej r Hin).
    unfold rejects. rewrite Hr. discriminate.
  - intros Hchanged.
    destruct (passes_chain lib mdata clk st signal) eqn:E.
    + destruct (proj1 Hspec eq_refl) as [Hvalid Hall].
      repeat split; try assumption.
      apply (filter_step_accepted lib mdata clk st signal E).
    + contradiction Hchanged. apply Hframe. reflexivity.
  - intros self signals Hnone.
    apply (filter_loop_related lib mdata clk self signals). exact Hnone.
  - intros self today signals md Hnone.
    unfold filter_signals, accepted_by_chain in *.
    destruct signals as [|s rest]; [reflexivity|]. cbn [snd].
    apply (filter_loop_related lib (or_default md []) clk
             (_reset_daily_count_if_needed self today) (s :: rest)).
    exact Hnone.
Qed.

Lemma state_updates_only_on_acceptance_witness :
  let self := __init__ Samples.default_config 0 in
  let signal := Samples.mk_signal "s1" "A" BUY 200 (9 # 10) 2200000 in
  let st := {| ls_self := self; ls_detached := None; ls_filtered := [] |} in
  tracked (ls_self (filter_step RationalMath.lib [] (Samples.frozen_clock 2200)
                                st signal))
  = tracked self.
Proof.
  intros self signal st.
  apply (proj1 (state_updates_only_on_acceptance RationalMath.lib []
                  (Samples.frozen_clock 2200) st signal)).
  vm_compute. discriminate.
Defined.


(** ** Post-processing: sorting, grouping, capping *)

Section PostProcess.
Import SignalFilter FilterSpec.

Lemma insert_by_confidence_perm (s : Signal.t) (l : list Signal.t) :
  Permutation (insert_by_confidence s l) (s :: l).
Proof.
  induction l as [|s' l IH]; simpl; [reflexivity|].
  destruct (Qle_bool _ _); [reflexivity|].
  rewrite IH. apply perm_swap.
Qed.

Lemma sort_by_confidence_perm (l : list Signal.t) :
  Permutation (sort_by_confidence_desc l) l.
Proof.
  induction l as [|s l IH]; simpl; [reflexivity|].
  rewrite insert_by_confidence_perm. constructor. exact IH.
Qed.

Lemma conf_ge_trans (a b c : Signal.t) :
  conf_ge a b -> conf_ge b c -> conf_ge a c.
Proof. unfold conf_ge. intros; lra. Qed.

Lemma insert_by_confidence_sorted (s : Signal.t) (l : list Signal.t) :
  StronglySorted conf_ge l ->
  StronglySorted conf_ge (insert_by_confidence s l).
Proof.
  induction 1 as [|s' l Hl IH Hs']; simpl.
  - repeat constructor.
  - destruct (Qle_bool (Signal.confidence s') (Signal.confidence s)) eqn:E.
    + apply Qle_bool_iff in E.
      constructor; [constructor; assumption|].
      constructor; [exact E|].
      eapply Forall_impl; [|exact Hs']. intros b Hb.
      eapply conf_ge_trans; [exact E | exact Hb].
    + constructor; [exact IH|].
      assert (conf_ge s' s) as Hss.
      { unfold conf_ge.
        destruct (Qlt_le_dec (Signal.confidence s') (Signal.confidence s))
          as [H|H]; [|exact H].
        apply Qlt_le_weak, Qle_bool_iff in H. congruence. }
      rewrite Forall_forall in *. intros b Hb.
      apply (Permutation_in _ (insert_by_confidence_perm s l)) in Hb.
      destruct Hb as [<- | Hb]; [exact Hss | apply Hs', Hb].
Qed.

Lemma sort_by_confidence_sorted (l : list Signal.t) :
  StronglySorted conf_ge (sort_by_confidence_desc l).
Proof.
  induction l as [|s l IH]; simpl; [constructor|].
  apply insert_by_confidence_sorted, IH.
Qed.

Lemma filter_perm {A} (f : A -> bool) (l l' : list A) :
  Permutation l l' -> Permutation (filter f l) (filter f l').
Proof.
  induction 1 as [|x l l' _ IH|x y l|l l' l'' _ IH1 _ IH2]; simpl.
  - constructor.
  - destruct (f x); [constructor|]; exact IH.
  - destruct (f x), (f y); try reflexivity. apply perm_swap.
  - etransitivity; eassumption.
Qed.

Lemma filter_strongly_sorted {A} (R : A -> A -> Prop) (f : A -> bool)
    (l : list A) :
  StronglySorted R l -> StronglySorted R (filter f l).
Proof.
  induction 1 as [|x l _ IH Hx]; simpl; [constructor|].
  destruct (f x); [|exact IH]. constructor; [exact IH|].
  rewrite Forall_forall in *. intros y Hy. apply filter_In in Hy as [Hy _].
  apply Hx, Hy.
Qed.

Lemma strongly_sorted_split {A} (R : A -> A -> Prop) (l : list A) (k : nat) :
  StronglySorted R l ->
  forall a b, In a (firstn k l) -> In b (skipn k l) -> R a b.
Proof.
  intros H. revert k. induction H as [|x l _ IH Hx]; intros k a b Ha Hb.
  - destruct k; contradiction.
  - destruct k as [|k]; simpl in *; [contradiction|].
    destruct Ha as [<- | Ha].
    + rewrite Forall_forall in Hx. apply Hx.
      rewrite <- (firstn_skipn k l). apply in_or_app. right. exact Hb.
    + eapply IH; eassumption.
Qed.

(** *** Grouping by symbol *)

Lemma for_symbol_app (x : string) (l l' : list Signal.t) :
  for_symbol x (l ++ l') = for_symbol x l ++ for_symbol x l'.
Proof. apply filter_app. Qed.

Lemma for_symbol_same (x : string) (g : list Signal.t) :
  Forall (fun s => Signal.symbol s = x) g -> for_symbol x g = g.
Proof.
  induction 1 as [|s g Hs _ IH]; simpl; [reflexivity|].
  rewrite Hs, String.eqb_refl, IH. reflexivity.
Qed.

Lemma for_symbol_other (x k : string) (g : list Signal.t) :
  k <> x -> Forall (fun s => Signal.symbol s = k) g -> for_symbol x g = [].
Proof.
  intros Hk. induction 1 as [|s g Hs _ IH]; simpl; [reflexivity|].
  rewrite Hs. destruct (String.eqb_spec k x); [contradiction | exact IH].
Qed.

Lemma group_append_keys (groups : Dict.t (list Signal.t)) (s : Signal.t) :
  Dict.keys (group_append groups s)
  = if existsb (String.eqb (Signal.symbol s)) (Dict.keys groups)
    then Dict.keys groups
    else Dict.keys groups ++ [Signal.symbol s].
Proof.
  induction groups as [|[k g] rest IH]; simpl; [reflexivity|].
  destruct (String.eqb (Signal.symbol s) k); simpl; [reflexivity|].
  rewrite IH. destruct (existsb _ _); reflexivity.
Qed.

Lemma group_append_well_grouped (groups : Dict.t (list Signal.t))
    (s : Signal.t) :
  well_grouped groups -> well_grouped (group_append groups s).
Proof.
  intros [Hnd Hall]. split.
  - rewrite group_append_keys.
    destruct (existsb _ _) eqn:E; [exact Hnd|].
    apply NoDup_app; [exact Hnd | repeat constructor; intros [] |].
    intros k Hk [<- | []].
    assert (existsb (String.eqb (Signal.symbol s)) (Dict.keys groups) = true)
      as Hex by (apply existsb_exists; exists (Signal.symbol s);
                 split; [exact Hk | apply String.eqb_refl]).
    congruence.
  - clear Hnd. induction Hall as [|[k g] rest Hg Hrest IH]; simpl.
    + repeat constructor.
    + destruct (String.eqb_spec (Signal.symbol s) k) as [Heq|Hne].
      * constructor; [|assumption]. simpl in *.
        apply Forall_app. split; [exact Hg | repeat constructor; exact Heq].
      * constructor; assumption.
Qed.

Lemma group_append_lookup (groups : Dict.t (list Signal.t)) (s : Signal.t)
    (x : string) :
  Dict.get_default (group_append groups s) x []
  = Dict.get_default groups x []
    ++ (if String.eqb (Signal.symbol s) x then [s] else []).
Proof.
  unfold Dict.get_default.
  induction groups as [|[k g] rest IH]; simpl.
  - rewrite (String.eqb_sym x). destruct (String.eqb (Signal.symbol s) x);
      reflexivity.
  - destruct (String.eqb_spec (Signal.symbol s) k) as [Heq|Hne]; simpl.
    + destruct (String.eqb_spec x k) as [Hx|Hx].
      * subst. rewrite String.eqb_refl. reflexivity.
      * destruct (String.eqb_spec (Signal.symbol s) x) as [Hsx|Hsx];
          [congruence|].
        rewrite app_nil_r. reflexivity.
    + destruct (String.eqb_spec x k) as [Hx|Hx].
      * destruct (String.eqb_spec (Signal.symbol s) x) as [Hsx|Hsx];
          [congruence|].
        rewrite app_nil_r. reflexivity.
      * exact IH.
Qed.

Lemma fold_group_append (l : list Signal.t) (groups : Dict.t (list Signal.t)) :
  well_grouped groups ->
  well_grouped (fold_left group_append l groups) /\
  forall x, Dict.get_default (fold_left group_append l groups) x []
            = Dict.get_default groups x [] ++ for_symbol x l.
Proof.
  revert groups. induction l as [|s l IH]; intros groups Hg; simpl.
  - split; [exact Hg|]. intros x. rewrite app_nil_r. reflexivity.
  - destruct (IH _ (group_append_well_grouped s Hg)) as [Hw Hl].
    split; [exact Hw|]. intros x.
    rewrite Hl, group_append_lookup, <- app_assoc. f_equal.
    destruct (String.eqb _ x); reflexivity.
Qed.

Lemma group_by_symbol_spec (l : list Signal.t) :
  well_grouped (group_by_symbol l) /\
  forall x, Dict.get_default (group_by_symbol l) x [] = for_symbol x l.
Proof.
  unfold group_by_symbol.
  assert (well_grouped []) as H0 by (split; constructor).
  destruct (fold_group_append l H0) as [Hw Hl]. split; [exact Hw|].
  intros x. rewrite Hl. reflexivity.
Qed.

(** Capping each group and flattening, seen symbol by symbol. *)
Lemma capped_for_symbol (groups : Dict.t (list Signal.t)) (k : nat)
    (x : string) :
  well_grouped groups ->
  for_symbol x (flat_map (fun kg => firstn k (snd kg)) groups)
  = firstn k (Dict.get_default groups x []).
Proof.
  unfold Dict.get_default.
  induction groups as [|[key g] rest IH]; intros [Hnd Hall].
  - simpl. rewrite firstn_nil. reflexivity.
  - simpl in *. inversion Hnd as [|? ? Hnotin Hnd']; subst.
    inversion Hall as [|? ? Hg Hrest]; subst. simpl in Hg.
    rewrite for_symbol_app.
    destruct (String.eqb_spec x key) as [Heq|Hne].
    + subst key.
      rewrite (for_symbol_same (Forall_firstn k Hg)).
      assert (for_symbol x (flat_map (fun kg => firstn k (snd kg)) rest) = [])
        as ->; [|apply app_nil_r].
      clear IH Hnd Hall Hnd'.
      induction Hrest as [|[k' g'] rest' Hg' _ IHr]; simpl; [reflexivity|].
      rewrite for_symbol_app.
      simpl in Hnotin, Hg'.
      rewrite (@for_symbol_other x k' (firstn k g'));
        [|intros ->; apply Hnotin; left; reflexivity
         |apply Forall_firstn; exact Hg'].
      apply IHr. intros H. apply Hnotin. right. exact H.
    + rewrite (@for_symbol_other x key (firstn k g));
        [|auto | apply Forall_firstn; exact Hg].
      apply IH. split; assumption.
Qed.

Lemma post_process_eq (self : t) (l : list Signal.t) :
  _post_process_signals self l
  = sort_by_confidence_desc
      (flat_map (fun kg => firstn (max_signals_per_symbol self) (snd kg))
                (group_by_symbol (sort_by_confidence_desc l))).
Proof. destruct l; reflexivity. Qed.

Lemma post_process_for_symbol (self : t) (l : list Signal.t) (x : string) :
  Permutation
    (for_symbol x (_post_process_signals self l))
    (firstn (max_signals_per_symbol self)
            (for_symbol x (sort_by_confidence_desc l))).
Proof.
  rewrite post_process_eq.
  destruct (group_by_symbol_spec (sort_by_confidence_desc l)) as [Hw Hl].
  rewrite <- Hl, <- (capped_for_symbol (max_signals_per_symbol self) x Hw).
  apply filter_perm, sort_by_confidence_perm.
Qed.

Lemma post_process_spec (self : t) (accepted : list Signal.t) :
  let out := _post_process_signals self accepted in
  let k := max_signals_per_symbol self in
  StronglySorted conf_ge out /\
  (forall x, (length (for_symbol x out) <= k)%nat) /\
  (forall x, exists dropped,
     Permutation (for_symbol x accepted) (for_symbol x out ++ dropped) /\
     length (for_symbol x out)
       = Nat.min k (length (for_symbol x accepted)) /\
     forall a b, In a (for_symbol x out) -> In b dropped -> conf_ge a b).
Proof.
  cbv zeta. split; [|split].
  - rewrite post_process_eq. apply sort_by_confidence_sorted.
  - intros x. rewrite (Permutation_length (post_process_for_symbol self accepted x)).
    rewrite length_firstn. lia.
  - intros x.
    set (sorted := for_symbol x (sort_by_confidence_desc accepted)).
    assert (Permutation (for_symbol x accepted) sorted) as Hperm
      by (symmetry; apply filter_perm, sort_by_confidence_perm).
    pose proof (post_process_for_symbol self accepted x) as Hout.
    fold sorted in Hout.
    exists (skipn (max_signals_per_symbol self) sorted). split; [|split].
    + rewrite Hperm, Hout. rewrite firstn_skipn. reflexivity.
    + rewrite (Permutation_length Hout), length_firstn,
        (Permutation_length Hperm). reflexivity.
    + intros a b Ha Hb.
      apply (Permutation_in _ Hout) in Ha.
      eapply strongly_sorted_split; [|exact Ha | exact Hb].
      apply filter_strongly_sorted, sort_by_confidence_sorted.
Qed.

End PostProcess.

Import SignalFilter FilterSpec.

(** The result of [filter_signals] in terms of the signals accepted by
    the loop. *)
Lemma filter_signals_unfold
    (lib : MathLib) (self : t) (today : Z) (clk : nat -> Q)
    (signals : list Signal.t) (market_data : option (Dict.t MarketData.t)) :
  fst (filter_signals lib self today clk signals market_data)
    = _post_process_signals self
        (accepted_by_chain lib self today clk signals market_data) /\
  (signals <> [] ->
   _daily_signal_count
     (snd (filter_signals lib self today clk signals market_data))
   = (_daily_signal_count (_reset_daily_count_if_needed self today)
      + length (accepted_by_chain lib self today clk signals market_data))%nat).
Proof.
  unfold filter_signals, accepted_by_chain.
  destruct signals as [|s rest]; [split; [reflexivity | congruence]|].
  cbn [fst snd].
  destruct (filter_loop_related lib (or_default market_data []) clk
              (_reset_daily_count_if_needed self today) (s :: rest))
    as (_ & _ & Hmax & _ & Hcount & _).
  cbv zeta in Hmax, Hcount. split; [|intros _; exact Hcount].
  rewrite !post_process_eq, Hmax.
  unfold _reset_daily_count_if_needed.
  destruct (today =? _last_reset_date self)%Z; reflexivity.
Qed.

(** ** C6: the output of [filter_signals] *)

(** C6. The list returned by [filter_signals] is sorted in descending
    order of confidence, holds at most [max_signals_per_symbol] signals of
    any symbol, and for each symbol holds exactly that symbol's
    highest-confidence accepted signals: what is kept and what is dropped
    make up the accepted signals of the symbol, and nothing dropped has a
    higher confidence than anything kept.  Five accepted candidates for one
    symbol with the cap at 3 leave the three with confidence 0.9, 0.8 and
    0.7. *)
Theorem filter_output_sorted_and_capped
    (lib : MathLib) (self : t) (today : Z) (clk : nat -> Q)
    (signals : list Signal.t) (market_data : option (Dict.t MarketData.t)) :
  let accepted := accepted_by_chain lib self today clk signals market_data in
  let out := fst (filter_signals lib self today clk signals market_data) in
  let k := max_signals_per_symbol self in
  out = _post_process_signals self accepted /\
  StronglySorted conf_ge out /\
  (forall x, (length (for_symbol x out) <= k)%nat) /\
  (forall x, exists dropped,
     Permutation (for_symbol x accepted) (for_symbol x out ++ dropped) /\
     length (for_symbol x out) = Nat.min k (length (for_symbol x accepted)) /\
     forall a b, In a (for_symbol x out) -> In b dropped -> conf_ge a b) /\
  map Signal.id
      (_post_process_signals (__init__ Samples.default_config 0)
                             Samples.five_for_one_symbol)
    = ["b"; "d"; "e"]%string.
Proof.
  cbv zeta.
  destruct (filter_signals_unfold lib self today clk signals market_data)
    as [Heq _].
  rewrite Heq. split; [reflexivity|].
  destruct (post_process_spec self
              (accepted_by_chain lib self today clk signals market_data))
    as (H1 & H2 & H3).
  repeat split; try assumption.
Qed.

Lemma filter_output_sorted_and_capped_witness :
  let self := __init__ Samples.default_config 0 in
  let out := fst (filter_signals RationalMath.lib self 0
                    (Samples.frozen_clock 2000) Samples.five_for_one_symbol
                    None) in
  StronglySorted conf_ge out /\
  (length (for_symbol "AAPL" out) <= 3)%nat.
Proof.
  intros self out.
  destruct (filter_output_sorted_and_capped RationalMath.lib self 0
              (Samples.frozen_clock 2000) Samples.five_for_one_symbol None)
    as (_ & Hs & Hc & _).
  split; [exact Hs | exact (Hc "AAPL"%string)].
Defined.


(** ** The daily limit *)

Section DailyLimit.
Import SignalFilter FilterSpec.
Variable lib : MathLib.

Lemma passes_below_limit (mdata : Dict.t MarketData.t) (clk : nat -> Q)
    (st : LoopState) (signal : Signal.t) :
  limit_on (ls_self st) ->
  passes_chain lib mdata clk st signal = true ->
  (_daily_signal_count (ls_self st) < limit (ls_self st))%nat.
Proof.
  intros Hon Hpass.
  apply (passes_chain_spec lib mdata clk st signal) in Hpass as [_ Hall].
  rewrite initialize_filter_rules_eq in Hall.
  change (enabled (daily_limit_rule (incr_total_processed (ls_self st))))
    with (enabled (daily_limit_rule (ls_self st))) in Hall.
  unfold limit_on in Hon. rewrite Hon in Hall.
  rewrite !Forall_app in Hall. destruct Hall as (_ & _ & _ & Hd).
  inversion Hd as [|? ? Hacc _]; subst.
  unfold accepts in Hacc. cbn [filter_func daily_limit_rule] in Hacc.
  unfold _filter_by_daily_limit, limit in *.
  cbn [risk_filters _daily_signal_count incr_total_processed set_stats] in Hacc.
  destruct (_ <=? _)%nat eqn:E; [discriminate|].
  apply Nat.leb_gt in E. exact E.
Qed.

Lemma fold_filter_step_bounded (mdata : Dict.t MarketData.t)
    (clk : nat -> Q) (signals : list Signal.t) (st : LoopState) :
  limit_on (ls_self st) ->
  (_daily_signal_count (ls_self st) <= limit (ls_self st))%nat ->
  (_daily_signal_count
     (ls_self (fold_left (filter_step lib mdata clk) signals st))
   <= limit (ls_self st))%nat.
Proof.
  revert st. induction signals as [|s rest IH]; intros st Hon Hle; simpl;
    [exact Hle|].
  destruct (filter_step_related lib mdata clk st s)
    as (Hcfg & Hrisk & _ & _ & _).
  assert (limit (ls_self (filter_step lib mdata clk st s))
          = limit (ls_self st)) as Hlim
    by (unfold limit; rewrite Hrisk; reflexivity).
  assert (limit_on (ls_self (filter_step lib mdata clk st s))) as Hon'
    by (unfold limit_on, daily_limit_rule in *; simpl in *;
        rewrite Hcfg; exact Hon).
  rewrite <- Hlim. apply IH; [exact Hon'|]. rewrite Hlim.
  destruct (passes_chain lib mdata clk st s) eqn:E.
  - pose proof (passes_below_limit mdata clk st s Hon E) as Hlt.
    destruct (filter_step_accepted lib mdata clk st s E) as (_ & Hc & _).
    rewrite Hc. lia.
  - destruct (filter_step_rejected lib mdata clk st s E) as (Hcore & _).
    unfold core in Hcore. inversion Hcore as [[H1 H2 H3 H4 H5 H6 H7 H8 H9 H10]].
    rewrite H9. exact Hle.
Qed.

Lemma reset_facts (self : t) (today : Z) :
  let self1 := _reset_daily_count_if_needed self today in
  config self1 = config self /\
  risk_filters self1 = risk_filters self /\
  _last_reset_date self1 = today /\
  _daily_signal_count self1
    = (if (today =? _last_reset_date self)%Z
       then _daily_signal_count self else 0%nat).
Proof.
  unfold _reset_daily_count_if_needed.
  destruct (today =? _last_reset_date self)%Z eqn:E; simpl;
    repeat split. apply Z.eqb_eq in E. congruence.
Qed.

(** What one call does to the counter. *)
Lemma call_facts (self : t) (c : Call) :
  limit_on self ->
  (_daily_signal_count self <= limit self)%nat ->
  let self' := snd (call lib self c) in
  limit_on self' /\ limit self' = limit self /\
  (_daily_signal_count self' <= limit self)%nat /\
  match call_signals c with
  | [] => self' = self /\ chain_passes lib self c = 0%nat
  | _ :: _ =>
      _last_reset_date self' = call_today c /\
      _daily_signal_count self'
        = ((if (call_today c =? _last_reset_date self)%Z
            then _daily_signal_count self else 0)
           + chain_passes lib self c)%nat
  end.
Proof.
  intros Hon Hle. unfold call, filter_signals, chain_passes.
  destruct (call_signals c) as [|s rest] eqn:Es; cbn [snd].
  - repeat split; assumption.
  - destruct (reset_facts self (call_today c)) as (Rc & Rr & Rd & Rn).
    set (self1 := _reset_daily_count_if_needed self (call_today c)) in *.
    destruct (filter_loop_related lib (or_default (call_market_data c) [])
                (call_clock c) self1 (s :: rest))
      as (Lc & Lr & _ & Ld & Ln & _).
    cbv zeta in *.
    assert (limit_on self1) as Hon1
      by (unfold limit_on, daily_limit_rule in *; simpl in *;
          rewrite Rc; exact Hon).
    assert (limit self1 = limit self) as Hlim1
      by (unfold limit; rewrite Rr; reflexivity).
    assert (_daily_signal_count self1 <= limit self1)%nat as Hle1.
    { rewrite Hlim1, Rn. destruct (_ =? _)%Z; lia. }
    pose proof (fold_filter_step_bounded
                  (or_default (call_market_data c) []) (call_clock c)
                  (s :: rest)
                  {| ls_self := self1; ls_detached := None;
                     ls_filtered := [] |} Hon1 Hle1) as Hb.
    cbn [ls_self] in Hb. fold (filter_loop lib (or_default (call_market_data c) [])
                                 (call_clock c) self1 (s :: rest)) in Hb.
    repeat split.
    + unfold limit_on, daily_limit_rule in *; simpl in *.
      rewrite Lc, Rc. exact Hon.
    + unfold limit. rewrite Lr, Rr. reflexivity.
    + rewrite <- Hlim1. exact Hb.
    + rewrite Ld. exact Rd.
    + rewrite Ln, Rn. reflexivity.
Qed.

Lemma passed_on_date_zero (d : Z) (calls : list Call) (self : t) :
  Forall (fun c => call_today c <> d) calls ->
  passed_on_date lib d self calls = 0%nat.
Proof.
  intros H. revert self. induction H as [|c rest Hc _ IH]; intros self;
    simpl; [reflexivity|].
  destruct (Z.eqb_spec (call_today c) d); [contradiction|].
  rewrite IH. reflexivity.
Qed.

Lemma passed_on_date_bounded (calls : list Call) (self : t) :
  limit_on self ->
  (_daily_signal_count self <= limit self)%nat ->
  StronglySorted Z.le (_last_reset_date self :: map call_today calls) ->
  forall d,
    ((if (d =? _last_reset_date self)%Z then _daily_signal_count self else 0)
     + passed_on_date lib d self calls <= limit self)%nat.
Proof.
  revert self. induction calls as [|c rest IH]; intros self Hon Hle Hs d.
  - simpl. destruct (_ =? _)%Z; lia.
  - simpl in Hs. apply StronglySorted_inv in Hs as [Hs Hall].
    apply StronglySorted_inv in Hs as [Hrest Hall'].
    inversion Hall as [|? ? Hlt Hallr]; subst.
    destruct (call_facts c Hon Hle) as (Hon' & Hlim' & Hle' & Hcase).
    cbv zeta in *. cbn [passed_on_date].
    set (self' := snd (call lib self c)) in *.
    destruct (call_signals c) as [|s ss] eqn:Es.
    + destruct Hcase as [Heq Hzero]. rewrite Hzero, Heq.
      assert (StronglySorted Z.le
                (_last_reset_date self :: map call_today rest)) as Hs'
        by (constructor; assumption).
      pose proof (IH self Hon Hle Hs' d) as H.
      destruct (call_today c =? d)%Z; lia.
    + destruct Hcase as [Hdate Hcount].
      assert (StronglySorted Z.le
                (_last_reset_date self' :: map call_today rest)) as Hs'
        by (rewrite Hdate; constructor; assumption).
      pose proof Hle' as Hle''. rewrite <- Hlim' in Hle''.
      pose proof (IH self' Hon' Hle'' Hs' d) as H.
      rewrite Hlim', Hdate in H.
      destruct (Z.eqb_spec (call_today c) (_last_reset_date self)) as [Ht|Ht].
      * rewrite Ht in *.
        destruct (Z.eqb_spec d (_last_reset_date self)) as [Hd|Hd].
        -- subst d. rewrite Z.eqb_refl. lia.
        -- destruct (Z.eqb_spec (_last_reset_date self) d); [congruence|].
           lia.
      * destruct (Z.eqb_spec d (call_today c)) as [Hd|Hd].
        -- subst d. rewrite Z.eqb_refl.
           destruct (Z.eqb_spec (call_today c) (_last_reset_date self));
             [contradiction|]. lia.
        -- destruct (Z.eqb_spec (call_today c) d); [congruence|].
           destruct (Z.eqb_spec d (_last_reset_date self)) as [Hd'|Hd'];
             [|lia].
           rewrite passed_on_date_zero; [lia|].
           rewrite Forall_forall. intros c' Hc' Heq.
           rewrite Forall_forall in Hall'.
           assert (call_today c <= call_today c')%Z
             by (apply Hall', in_map, Hc').
           lia.
Qed.

Lemma run_calls_bounded (calls : list Call) (self : t) :
  limit_on self ->
  (_daily_signal_count self <= limit self)%nat ->
  (_daily_signal_count (run_calls lib self calls) <= limit self)%nat.
Proof.
  unfold run_calls. revert self.
  induction calls as [|c rest IH]; intros self Hon Hle; simpl; [exact Hle|].
  destruct (call_facts c Hon Hle) as (Hon' & Hlim' & Hle' & _).
  cbv zeta in *. rewrite <- Hlim'. apply IH; [exact Hon'|].
  rewrite Hlim'. exact Hle'.
Qed.

End DailyLimit.

Import SignalFilter FilterSpec.

Lemma dict_get_set_same {V} (d : Dict.t V) (k : string) (v : V) :
  Dict.get (Dict.set d k v) k = Some v.
Proof.
  induction d as [|[k' v'] d IH]; simpl.
  - rewrite String.eqb_refl. reflexivity.
  - destruct (String.eqb k k') eqn:E; simpl; rewrite E; [reflexivity | exact IH].
Qed.

Lemma reason_count_log (self : t) (reason : string) :
  reason_count (_log_filter_reason self reason) reason
  = S (reason_count self reason).
Proof.
  unfold reason_count, _log_filter_reason, Dict.get_default. simpl.
  rewrite dict_get_set_same. reflexivity.
Qed.

(** ** C7: the daily limit *)

(** C7. With the daily_limit rule in the chain, over any sequence of
    [filter_signals] calls on a filter whose observed dates do not go
    backwards, the number of signals that pass the rule chain in the calls
    of one date never exceeds [max_daily_signals], and neither does the
    counter; once the counter has reached the limit the rule rejects every
    candidate with reason [daily_limit], so a further call on the same date
    accepts nothing; a date change observed at the start of a call resets
    the counter to 0, after which the rule accepts again. *)
Theorem daily_limit_enforced
    (lib : MathLib) (cfg : Config) (d0 : Z) (calls : list Call) :
  or_default (cfg_daily_limit_enabled cfg) true = true ->
  StronglySorted Z.le (d0 :: map call_today calls) ->
  let self0 := __init__ cfg d0 in
  (forall d, (passed_on_date lib d self0 calls <= limit self0)%nat) /\
  (_daily_signal_count (run_calls lib self0 calls) <= limit self0)%nat /\
  (forall self signal context,
     (limit self <= _daily_signal_count self)%nat ->
     _filter_by_daily_limit self signal context
       = (Ok false, _log_filter_reason self "daily_limit") /\
     reason_count (_log_filter_reason self "daily_limit") "daily_limit"
       = S (reason_count self "daily_limit")) /\
  (forall self c,
     limit_on self -> _daily_signal_count self = limit self ->
     call_today c = _last_reset_date self ->
     chain_passes lib self c = 0%nat /\
     _daily_signal_count (snd (call lib self c)) = limit self) /\
  (forall self today,
     today <> _last_reset_date self ->
     let self1 := _reset_daily_count_if_needed self today in
     _daily_signal_count self1 = 0%nat /\
     _last_reset_date self1 = today /\
     forall signal context,
       (0 < limit self)%nat ->
       _filter_by_daily_limit self1 signal context = (Ok true, self1)).
Proof.
  intros Hon Hsorted self0.
  assert (limit_on self0) as Hon0 by exact Hon.
  assert (_daily_signal_count self0 <= limit self0)%nat as Hle0
    by (simpl; lia).
  split; [|split; [|split; [|split]]].
  - intros d.
    pose proof (passed_on_date_bounded lib calls Hon0 Hle0 Hsorted d) as H.
    lia.
  - apply run_calls_bounded; assumption.
  - intros self signal context Hreached. split.
    + unfold _filter_by_daily_limit, limit in *.
      destruct (_ <=? _)%nat eqn:E; [reflexivity|].
      apply Nat.leb_gt in E. lia.
    + apply reason_count_log.
  - intros self c Hlim Hfull Hsame.
    assert (_daily_signal_count self <= limit self)%nat as Hle by lia.
    destruct (call_facts lib c Hlim Hle) as (_ & _ & Hb & Hcase).
    cbv zeta in *. destruct (call_signals c) as [|s ss].
    + destruct Hcase as [-> ->]. split; [reflexivity | exact Hfull].
    + destruct Hcase as [_ Hcount]. rewrite Hsame, Z.eqb_refl in Hcount. lia.
  - intros self today Hnew. cbv zeta.
    destruct (reset_facts self today) as (_ & Hr & Hd & Hc). cbv zeta in *.
    destruct (Z.eqb_spec today (_last_reset_date self)); [contradiction|].
    repeat split; try assumption.
    intros signal context Hpos. unfold _filter_by_daily_limit.
    rewrite Hr, Hc. fold (limit self).
    destruct (_ <=? _)%nat eqn:E; [|reflexivity].
    apply Nat.leb_le in E. lia.
Qed.

Lemma daily_limit_enforced_witness :
  (passed_on_date RationalMath.lib 0
     (__init__ Samples.no_cooldown_config 0)
     [Samples.five_candidates_call; Samples.five_candidates_call]
   <= 20)%nat.
Proof.
  refine (proj1 (@daily_limit_enforced RationalMath.lib
                   Samples.no_cooldown_config 0
                   [Samples.five_candidates_call; Samples.five_candidates_call]
                   _ _) 0%Z).
  - reflexivity.
  - simpl. repeat constructor; lia.
Defined.

(** ** C10: state effects precede post-processing *)

Lemma flat_map_cap_length (k : nat) (groups : Dict.t (list Signal.t)) :
  (length (flat_map (fun kg => firstn k (snd kg)) groups)
   <= length (flat_map (fun kg : string * list Signal.t => snd kg) groups))%nat.
Proof.
  induction groups as [|[key g] rest IH]; simpl; [lia|].
  rewrite !length_app, length_firstn. lia.
Qed.

Lemma group_append_length (groups : Dict.t (list Signal.t)) (s : Signal.t) :
  length (flat_map (fun kg : string * list Signal.t => snd kg)
                   (group_append groups s))
  = S (length (flat_map (fun kg : string * list Signal.t => snd kg) groups)).
Proof.
  induction groups as [|[key g] rest IH]; simpl; [reflexivity|].
  destruct (String.eqb _ key); simpl.
  - rewrite !length_app. simpl. lia.
  - rewrite !length_app, IH. lia.
Qed.

Lemma fold_group_append_length (l : list Signal.t)
    (groups : Dict.t (list Signal.t)) :
  length (flat_map (fun kg : string * list Signal.t => snd kg)
                   (fold_left group_append l groups))
  = (length (flat_map (fun kg : string * list Signal.t => snd kg) groups)
     + length l)%nat.
Proof.
  revert groups. induction l as [|s l IH]; intros groups; simpl; [lia|].
  rewrite IH, group_append_length. lia.
Qed.

Lemma post_process_length (self : t) (l : list Signal.t) :
  (length (_post_process_signals self l) <= length l)%nat.
Proof.
  rewrite post_process_eq.
  rewrite (Permutation_length (sort_by_confidence_perm _)).
  etransitivity; [apply flat_map_cap_length|].
  unfold group_by_symbol. rewrite fold_group_append_length. simpl.
  rewrite (Permutation_length (sort_by_confidence_perm l)). lia.
Qed.

(** C10. In [filter_signals] the state effects happen inside the loop,
    for every signal that passes the chain and before post-processing: such
    a signal sets the per-symbol last-accepted time, is appended to the
    history and increments the daily counter whether or not the per-symbol
    cap later removes it from the output; the counter grows by the number
    of signals that passed, which is at least the number returned, and in
    the sample calls (cooldown 0 with a clock that stands still, cooldown -1
    with a clock that advances) it grows by 5 while 3 signals are
    returned. *)
Theorem state_effects_precede_post_processing :
  (forall lib mdata clk st signal,
     passes_chain lib mdata clk st signal = true ->
     let st' := filter_step lib mdata clk st signal in
     let appended := _signal_history (ls_self st) ++ [signal] in
     _symbol_last_signal (ls_self st')
       = Dict.set (_symbol_last_signal (ls_self st)) (Signal.symbol signal)
                  (clk (S (length (ls_filtered st)))) /\
     _signal_history (ls_self st')
       = (if (1000 <? length appended)%nat then last_n 500 appended
          else appended) /\
     _daily_signal_count (ls_self st')
       = S (_daily_signal_count (ls_self st))) /\
  (forall lib self today clk signals md,
     let out := fst (filter_signals lib self today clk signals md) in
     let self' := snd (filter_signals lib self today clk signals md) in
     let accepted := accepted_by_chain lib self today clk signals md in
     (length out <= length accepted)%nat /\
     (signals <> [] ->
      _daily_signal_count self'
        = (_daily_signal_count (_reset_daily_count_if_needed self today)
           + length accepted)%nat)) /\
  (let self := __init__ Samples.no_cooldown_config 0 in
   let r := call RationalMath.lib self Samples.five_candidates_call in
   let dropped := Samples.mk_signal "a" "AAPL" BUY 100 (6 # 10) 1000000 in
   _daily_signal_count self = 0%nat /\
   _daily_signal_count (snd r) = 5%nat /\
   length (fst r) = 3%nat /\
   ~ In dropped (fst r) /\
   In dropped (_signal_history (snd r)) /\
   Dict.get (_symbol_last_signal (snd r)) "AAPL" = Some 2000) /\
  (let self := __init__ Samples.negative_cooldown_config 0 in
   let r := call RationalMath.lib self Samples.five_candidates_ticking_call in
   _daily_signal_count (snd r) = 5%nat /\ length (fst r) = 3%nat).
Proof.
  split; [|split; [|split]].
  - intros lib mdata clk st signal Hpass. cbv zeta.
    destruct (filter_step_accepted lib mdata clk st signal Hpass)
      as (_ & Hc & Hh & Hl & _).
    cbv zeta in *. repeat split; assumption.
  - intros lib self today clk signals md. cbv zeta.
    destruct (filter_signals_unfold lib self today clk signals md)
      as [Hout Hcount].
    split; [|exact Hcount].
    rewrite Hout. apply post_process_length.
  - cbv zeta. split; [reflexivity|]. split; [vm_compute; reflexivity|].
    split; [vm_compute; reflexivity|]. split; [|split].
    + vm_compute. intros [H|[H|[H|[]]]]; discriminate.
    + vm_compute. left. reflexivity.
    + vm_compute. reflexivity.
  - cbv zeta. split; vm_compute; reflexivity.
Qed.

Lemma state_effects_precede_post_processing_witness :
  let self := __init__ Samples.no_cooldown_config 0 in
  let st := {| ls_self := self; ls_detached := None; ls_filtered := [] |} in
  let signal := Samples.mk_signal "a" "AAPL" BUY 100 (6 # 10) 1000000 in
  _daily_signal_count
    (ls_self (filter_step RationalMath.lib [] (Samples.frozen_clock 2000)
                          st signal))
  = 1%nat.
Proof.
  intros self st signal.
  apply (proj1 state_effects_precede_post_processing RationalMath.lib []
           (Samples.frozen_clock 2000) st signal).
  reflexivity.
Defined.


(** ** The signal generators *)

Lemma Qltb_true (x y : Q) : Qltb x y = true <-> x < y.
Proof.
  unfold Qltb. rewrite negb_true_iff. split.
  - intros H. destruct (Qlt_le_dec x y) as [Hlt|Hle]; [exact Hlt|].
    apply Qle_bool_iff in Hle. congruence.
  - intros H. destruct (Qle_bool y x) eqn:E; [|reflexivity].
    apply Qle_bool_iff in E. lra.
Qed.

Lemma Qltb_false (x y : Q) : Qltb x y = false <-> y <= x.
Proof.
  unfold Qltb. rewrite negb_false_iff. apply Qle_bool_iff.
Qed.

Lemma OrderSide_eqb_eq (a b : OrderSide) : OrderSide_eqb a b = true <-> a = b.
Proof. destruct a, b; simpl; split; congruence. Qed.

Section TradingDuplicates.
Import TradingSignalGenerator GeneratorSpec.

Lemma duplicate_loop_spec (signal : Signal.t) (now : Q)
    (history : list Signal.t) :
  duplicate_loop signal now history = true
  <-> exists h, In h history /\ blocks now signal h.
Proof.
  induction history as [|h rest IH]; simpl.
  - split; [discriminate | intros (h & [] & _)].
  - destruct (Qltb 300 _) eqn:Ew.
    + apply Qltb_true in Ew. rewrite IH. split.
      * intros (h' & Hin & Hb). exists h'. split; [right; exact Hin | exact Hb].
      * intros (h' & [<- | Hin] & Hb).
        -- destruct Hb as (Hw & _). lra.
        -- exists h'. split; assumption.
    + apply Qltb_false in Ew.
      destruct (String.eqb _ _ && OrderSide_eqb _ _) eqn:Es.
      * split; [|reflexivity]. intros _. exists h.
        apply andb_true_iff in Es as [Hsym Hside].
        apply String.eqb_eq in Hsym. apply OrderSide_eqb_eq in Hside.
        split; [left; reflexivity|]. repeat split; assumption.
      * rewrite IH. split.
        -- intros (h' & Hin & Hb). exists h'.
           split; [right; exact Hin | exact Hb].
        -- intros (h' & [<- | Hin] & Hb).
           ++ destruct Hb as (_ & Hsym & Hside).
              apply String.eqb_eq in Hsym. apply OrderSide_eqb_eq in Hside.
              rewrite Hsym, Hside in Es. discriminate.
           ++ exists h'. split; assumption.
Qed.

Lemma claimed_duplicate_blocks (history : list Signal.t) (now : Q)
    (signal : Signal.t) :
  claimed_duplicate history now signal = true ->
  exists h, In h (last_n 10 history) /\ blocks now signal h.
Proof.
  unfold claimed_duplicate. intros H.
  apply existsb_exists in H as (h & Hin & Hh).
  repeat (apply andb_true_iff in Hh as [Hh ?]).
  exists h. split; [exact Hin|]. repeat split.
  - apply Qle_bool_iff. assumption.
  - apply String.eqb_eq. assumption.
  - apply OrderSide_eqb_eq. assumption.
Qed.

End TradingDuplicates.

Import GeneratorSpec.

(** ** C8: duplicate suppression in the generator *)

(** C8 as stated fails: a candidate at twice the price and with a
    confidence 0.3 lower than the only history entry is still dropped. *)
Lemma generator_duplicate_counterexample :
  TradingSignalGenerator._is_duplicate_signal
    Samples.generator_with_one_buy Samples.distant_candidate 2000 = true /\
  TradingSignalGenerator.filter_signals
    Samples.generator_with_one_buy (Samples.frozen_clock 2000)
    [Samples.distant_candidate] = [] /\
  claimed_duplicate
    (TradingSignalGenerator._signal_history Samples.generator_with_one_buy)
    2000 Samples.distant_candidate = false.
Proof. repeat split; vm_compute; reflexivity. Qed.

(** C8 (amended). [TradingSignalGenerator] drops a candidate as a
    duplicate precisely when, among the last 10 history entries that lie
    within 300 seconds of the current time, one has the same symbol and
    side; price and confidence are not compared, so every candidate that
    the stated test calls a duplicate is dropped, and so are others. *)
Theorem generator_duplicate_by_symbol_and_side
    (self : TradingSignalGenerator.t) (signal : Signal.t) (clk : nat -> Q) :
  let history := TradingSignalGenerator._signal_history self in
  (TradingSignalGenerator._is_duplicate_signal self signal (clk 0%nat) = true
   <-> exists h, In h (last_n 10 history) /\ blocks (clk 0%nat) signal h) /\
  (claimed_duplicate history (clk 0%nat) signal = true ->
   TradingSignalGenerator._is_duplicate_signal self signal (clk 0%nat) = true) /\
  (ValidationUtils.validate_signal signal = [] ->
   TradingSignalGenerator.min_confidence self <= Signal.confidence signal ->
   TradingSignalGenerator.filter_signals self clk [signal]
   = if TradingSignalGenerator._is_duplicate_signal self signal (clk 0%nat)
     then [] else [signal]).
Proof.
  cbv zeta. split; [|split].
  - apply duplicate_loop_spec.
  - intros H. apply duplicate_loop_spec, claimed_duplicate_blocks, H.
  - intros Hvalid Hconf.
    unfold TradingSignalGenerator.filter_signals. simpl. rewrite Hvalid.
    apply Qltb_false in Hconf. rewrite Hconf.
    destruct (TradingSignalGenerator._is_duplicate_signal _ _ _); reflexivity.
Qed.

Lemma generator_duplicate_by_symbol_and_side_witness :
  TradingSignalGenerator.filter_signals
    Samples.generator_with_one_buy (Samples.frozen_clock 2000)
    [Samples.distant_candidate]
  = if TradingSignalGenerator._is_duplicate_signal
         Samples.generator_with_one_buy Samples.distant_candidate 2000
    then [] else [Samples.distant_candidate].
Proof.
  apply (proj2 (proj2 (generator_duplicate_by_symbol_and_side
                         Samples.generator_with_one_buy
                         Samples.distant_candidate
                         (Samples.frozen_clock 2000)))).
  - reflexivity.
  - vm_compute. discriminate.
Defined.

(** ** C1: exceptions in [generate_signals] *)

(** C1 as stated fails.  On twenty-one bars of which one closes at 0,
    [math.log] raises inside [calculate_volatility], and [generate_signals]
    raises instead of returning the empty list.  On ordinary data too: after
    a call that produced a signal, a call that finds none divides by
    [len(signals) = 0] in [_update_stats] and raises. *)
Lemma generate_signals_counterexample :
  let gen := TradingSignalGenerator.generate_signals RationalMath.lib in
  let r := fst (gen (Samples.env_from 1000) Samples.default_generator
                    Samples.zero_close_data) in
  let first := gen (Samples.env_from 1000) Samples.default_generator
                   Samples.falling_data in
  let second := gen (Samples.env_from 3000) (snd first) Samples.quiet_data in
  (r = Raise (SignalGenerationError (SignalGenerationError ValueError)) /\
   r <> Ok []) /\
  (exists s, fst first = Ok [s]) /\
  fst second = Raise (SignalGenerationError ZeroDivisionError).
Proof.
  cbv zeta. split; [split|split].
  - vm_compute. reflexivity.
  - vm_compute. discriminate.
  - eexists. vm_compute. reflexivity.
  - vm_compute. reflexivity.
Qed.

(** [_update_stats] raises exactly when it is called with no signal after
    some signal has been generated before. *)
Lemma update_stats_raises (env : TradingSignalGenerator.Env)
    (self : TradingSignalGenerator.t) (k : nat) :
  (0 < TradingSignalGenerator.total_signals_generated
         (TradingSignalGenerator._stats self))%nat ->
  fst (TradingSignalGenerator._update_stats env self k [])
  = Raise ZeroDivisionError.
Proof.
  intros Htotal. unfold TradingSignalGenerator._update_stats.
  cbn [TradingSignalGenerator.record_signals length].
  rewrite Nat.add_0_r. apply Nat.ltb_lt in Htotal. rewrite Htotal.
  reflexivity.
Qed.

Lemma update_stats_returns (env : TradingSignalGenerator.Env)
    (self : TradingSignalGenerator.t) (k : nat) (signals : list Signal.t) :
  signals <> [] \/
  TradingSignalGenerator.total_signals_generated
    (TradingSignalGenerator._stats self) = 0%nat ->
  fst (TradingSignalGenerator._update_stats env self k signals) = Ok tt.
Proof.
  intros H. unfold TradingSignalGenerator._update_stats.
  destruct (TradingSignalGenerator.record_signals env k _ _ signals)
    as [[last_time history] k'].
  destruct signals as [|s l].
  - destruct H as [H|H]; [contradiction H; reflexivity|].
    rewrite H. reflexivity.
  - assert ((0 <? TradingSignalGenerator.total_signals_generated
                    (TradingSignalGenerator._stats self)
                  + length (s :: l))%nat = true) as ->
      by (apply Nat.ltb_lt; simpl; lia).
    unfold truediv.
    assert (Qeq_bool (of_nat (length (s :: l))) 0 = false) as ->.
    { destruct (Qeq_bool _ 0) eqn:E; [|reflexivity].
      apply Qeq_bool_iff in E. unfold of_nat, Qeq in E. simpl in E. lia. }
    reflexivity.
Qed.

(** C1 (amended).  [generate_signals] returns a list on every path that
    raises nothing: the empty list for empty klines, for a symbol in
    cooldown and for too few bars, and the filtered signals when the
    computation completes.  An exception raised while computing indicators
    or building and scoring signals, or by the statistics update that ends
    the call, is caught inside the call and re-raised to the caller as
    [SignalGenerationError] carrying the cause; no other exception leaves
    the call.  This holds in [TradingSignalGenerator] and in
    [TechnicalSignalGenerator] alike. *)
Theorem generate_signals_reraises :
  (forall lib env self md,
     let result :=
       TradingSignalGenerator.generate_signals lib env self md in
     let self1 := TradingSignalGenerator.cache_market_data self md in
     let prices := map Kline.close (MarketData.klines md) in
     let volumes := map Kline.volume (MarketData.klines md) in
     let in_cooldown :=
       TradingSignalGenerator._is_in_cooldown
         self (MarketData.symbol md)
         (TradingSignalGenerator.time_time env 0%nat) in
     let min_bars :=
       Nat.max (TradingSignalGenerator.sma_long_period self)
               (Nat.max (TradingSignalGenerator.rsi_period self)
                        (TradingSignalGenerator.bb_period self)) in
     (MarketData.klines md = [] -> result = (Ok [], self)) /\
     (MarketData.klines md <> [] -> in_cooldown = true ->
      result = (Ok [], self)) /\
     (MarketData.klines md <> [] -> in_cooldown = false ->
      (length prices < min_bars)%nat ->
      result = (Ok [], self1)) /\
     (MarketData.klines md <> [] -> in_cooldown = false ->
      (min_bars <= length prices)%nat ->
      (forall e,
         TradingSignalGenerator._calculate_indicators lib self1 prices volumes
           = Raise e ->
         fst result = Raise (SignalGenerationError e)) /\
      (forall indicators e,
         TradingSignalGenerator._calculate_indicators lib self1 prices volumes
           = Ok indicators ->
         TradingSignalGenerator.build_signals env self1 (MarketData.symbol md)
           prices volumes indicators
           {| TradingSignalGenerator.n_uuid := 0;
              TradingSignalGenerator.n_time := 1 |} = Raise e ->
         fst result = Raise (SignalGenerationError e)) /\
      (forall indicators signals tk,
         TradingSignalGenerator._calculate_indicators lib self1 prices volumes
           = Ok indicators ->
         TradingSignalGenerator.build_signals env self1 (MarketData.symbol md)
           prices volumes indicators
           {| TradingSignalGenerator.n_uuid := 0;
              TradingSignalGenerator.n_time := 1 |} = Ok (signals, tk) ->
         let filtered :=
           fst (TradingSignalGenerator.filter_signals_from
                  self1 (TradingSignalGenerator.time_time env)
                  (TradingSignalGenerator.n_time tk) signals) in
         (filtered <> [] \/
          TradingSignalGenerator.total_signals_generated
            (TradingSignalGenerator._stats self) = 0%nat ->
          fst result = Ok filtered) /\
         (filtered = [] ->
          (0 < TradingSignalGenerator.total_signals_generated
                 (TradingSignalGenerator._stats self))%nat ->
          fst result = Raise (SignalGenerationError ZeroDivisionError)))) /\
     (forall e, fst result = Raise e ->
                exists cause, e = SignalGenerationError cause)) /\
  (forall (I : Type) calc gen self md,
     let klines := MarketData.klines md in
     let result :=
       @TechnicalSignalGenerator.generate_signals I calc gen self md in
     let min_data_points :=
       Nat.max (TechnicalSignalGenerator.sma_slow_period self)
         (Nat.max (TechnicalSignalGenerator.ema_slow_period self)
            (Nat.max (TechnicalSignalGenerator.rsi_period self)
                     (TechnicalSignalGenerator.bollinger_period self))) in
     let indicators :=
       calc (map Kline.close klines) (map Kline.high klines)
            (map Kline.low klines) (map Kline.volume klines) in
     (klines = [] -> result = Ok []) /\
     ((length klines < min_data_points)%nat -> result = Ok []) /\
     (klines <> [] -> (min_data_points <= length klines)%nat ->
      (forall e, indicators = Raise e ->
                 result = Raise (SignalGenerationError e)) /\
      (forall ind e,
         indicators = Ok ind ->
         gen (MarketData.symbol md) klines ind = Raise e ->
         result = Raise (SignalGenerationError e)) /\
      (forall ind signals,
         indicators = Ok ind ->
         gen (MarketData.symbol md) klines ind = Ok signals ->
         result = Ok (TechnicalSignalGenerator.filter_signals self signals))) /\
     (forall e, result = Raise e ->
                exists cause, e = SignalGenerationError cause)).
Proof.
  split.
  - intros lib env self md result self1 prices volumes in_cooldown min_bars.
    assert (forall e, fst result = Raise e ->
                      exists cause, e = SignalGenerationError cause) as Hwrap.
    { subst result. unfold TradingSignalGenerator.generate_signals.
      destruct (TradingSignalGenerator.generate_signals_body _ _ _ _)
        as [[l|e'] s]; cbn [fst try_except]; intros e He;
        [discriminate|].
      inversion He; subst. eexists; reflexivity. }
    split; [|split; [|split; [|split; [|exact Hwrap]]]].
    + intros Hk. subst result.
      unfold TradingSignalGenerator.generate_signals,
        TradingSignalGenerator.generate_signals_body.
      rewrite Hk. reflexivity.
    + intros Hk Hcool. subst result in_cooldown.
      unfold TradingSignalGenerator.generate_signals,
        TradingSignalGenerator.generate_signals_body.
      destruct (MarketData.klines md) as [|k ks] eqn:Ek; [congruence|].
      rewrite Hcool. reflexivity.
    + intros Hk Hcool Hlen. subst result in_cooldown min_bars.
      unfold TradingSignalGenerator.generate_signals,
        TradingSignalGenerator.generate_signals_body.
      destruct (MarketData.klines md) as [|k ks] eqn:Ek; [congruence|].
      rewrite Hcool. fold prices.
      apply Nat.ltb_lt in Hlen. rewrite Hlen. reflexivity.
    + intros Hk Hcool Hlen. subst result in_cooldown min_bars.
      unfold TradingSignalGenerator.generate_signals,
        TradingSignalGenerator.generate_signals_body.
      destruct (MarketData.klines md) as [|k ks] eqn:Ek; [congruence|].
      rewrite Hcool.
      fold prices. fold volumes. fold self1.
      destruct (length prices <? _)%nat eqn:El;
        [apply Nat.ltb_lt in El; lia|].
      split; [|split].
      * intros e Hraise. rewrite Hraise. reflexivity.
      * intros indicators e Hind Hraise. rewrite Hind, Hraise. reflexivity.
      * intros indicators signals tk Hind Hbuild. rewrite Hind, Hbuild.
        destruct (TradingSignalGenerator.filter_signals_from _ _ _ signals)
          as [filtered k'] eqn:Ef.
        cbn [fst]. split.
        -- intros Hsome.
           pose proof (update_stats_returns env self1 k'
                         (signals := filtered) Hsome) as Hu.
           destruct (TradingSignalGenerator._update_stats env self1 k'
                       filtered) as [[u|e] self2];
             cbn [fst] in Hu; [reflexivity | discriminate].
        -- intros -> Htotal.
           pose proof (update_stats_raises env self1 k' Htotal) as Hu.
           destruct (TradingSignalGenerator._update_stats env self1 k' [])
             as [[u|e] self2]; cbn [fst] in Hu; [discriminate|].
           inversion Hu; subst. reflexivity.
  - intros I calc gen self md klines result min_data_points indicators.
    split; [|split; [|split]].
    + intros Hk. subst result klines.
      unfold TechnicalSignalGenerator.generate_signals.
      rewrite Hk. reflexivity.
    + intros Hlen. subst result klines min_data_points.
      unfold TechnicalSignalGenerator.generate_signals.
      destruct (MarketData.klines md) as [|k ks] eqn:Ek; [reflexivity|].
      rewrite length_map. apply Nat.ltb_lt in Hlen. rewrite Hlen.
      reflexivity.
    + intros Hk Hlen. subst result indicators klines min_data_points.
      unfold TechnicalSignalGenerator.generate_signals.
      destruct (MarketData.klines md) as [|k ks] eqn:Ek; [congruence|].
      rewrite length_map.
      destruct (length (k :: ks) <? _)%nat eqn:El;
        [apply Nat.ltb_lt in El; lia|].
      split; [|split].
      * intros e Hraise. rewrite Hraise. reflexivity.
      * intros ind e Hind Hraise. rewrite Hind. cbn [bind].
        rewrite Hraise. reflexivity.
      * intros ind signals Hind Hgen. rewrite Hind. cbn [bind].
        rewrite Hgen. reflexivity.
    + subst result. unfold TechnicalSignalGenerator.generate_signals.
      intros e He. unfold try_except in He.
      destruct (match MarketData.klines md with [] => _ | _ :: _ => _ end)
        as [l|e']; [discriminate|].
      inversion He; subst. eexists; reflexivity.
Qed.

Lemma generate_signals_reraises_witness :
  fst (TradingSignalGenerator.generate_signals
         RationalMath.lib (Samples.env_from 1000)
         Samples.default_generator Samples.zero_close_data)
  = Raise (SignalGenerationError (SignalGenerationError ValueError)) /\
  TradingSignalGenerator.generate_signals
    RationalMath.lib (Samples.env_from 1000)
    Samples.default_generator (Samples.data_of_closes [10; 11])
  = (Ok [],
     TradingSignalGenerator.cache_market_data
       Samples.default_generator (Samples.data_of_closes [10; 11])).
Proof.
  pose proof (proj1 generate_signals_reraises) as H. split.
  - specialize (H RationalMath.lib (Samples.env_from 1000)
                  Samples.default_generator Samples.zero_close_data).
    cbv zeta in H. destruct H as (_ & _ & _ & H & _).
    refine (proj1 (H _ _ _) (SignalGenerationError ValueError) _).
    + discriminate.
    + reflexivity.
    + simpl. lia.
    + vm_compute. reflexivity.
  - specialize (H RationalMath.lib (Samples.env_from 1000)
                  Samples.default_generator (Samples.data_of_closes [10; 11])).
    cbv zeta in H. destruct H as (_ & _ & H & _).
    apply H.
    + discriminate.
    + reflexivity.
    + simpl. lia.
Defined.

(* ================================================================== *)
(** * Further properties of the indicator library *)

Import MathUtils IndicatorSpec.




Lemma ema_loop_length (alpha prev : Q) (rest : list Q) :
  length (ema_loop alpha prev rest) = length rest.
Proof.
  revert prev; induction rest as [|p rest IH]; intros prev; simpl;
    [reflexivity | rewrite IH; reflexivity].
Qed.




Lemma calculate_ema_ok (prices : list Q) (period : nat) :
  (1 <= period)%nat -> (period <= length prices)%nat ->
  calculate_ema prices period
  = Ok (sum (firstn period prices) / of_nat period
          :: ema_loop (2 / of_nat (period + 1))
               (sum (firstn period prices) / of_nat period)
               (skipn period prices)).
Proof.
  intros Hp Hlen. unfold calculate_ema.
  destruct (length prices <? period)%nat eqn:E;
    [apply Nat.ltb_lt in E; lia|].
  rewrite !truediv_of_nat by lia. reflexivity.
Qed.

Lemma calculate_ema_short (prices : list Q) (period : nat) :
  (length prices < period)%nat -> calculate_ema prices period = Ok [].
Proof.
  intros H. unfold calculate_ema. apply Nat.ltb_lt in H. rewrite H.
  reflexivity.
Qed.

Lemma calculate_ema_length (prices out : list Q) (period : nat) :
  (1 <= period)%nat ->
  calculate_ema prices period = Ok out ->
  length out = (length prices + 1 - period)%nat.
Proof.
  intros Hp H. destruct (Nat.lt_ge_cases (length prices) period) as [Hs|Hl].
  - rewrite calculate_ema_short in H by exact Hs. inversion H. simpl. lia.
  - rewrite calculate_ema_ok in H by assumption. inversion H. simpl.
    rewrite ema_loop_length, length_skipn. lia.
Qed.



(** ** Bollinger bands *)






Lemma statistics_stdev_nonneg (lib : MathLib) (data : list Q) (sd : Q) :
  (forall x, 0 <= math_sqrt lib x) ->
  statistics_stdev lib data = Ok sd -> 0 <= sd.
Proof.
  intros Hs H. unfold statistics_stdev in H.
  destruct (length data <? 2)%nat; [discriminate|]. inversion H. apply Hs.
Qed.



(** ** MACD *)




(** ** Volatility *)










(** ** Maximum drawdown *)







(** ** Trade statistics *)









(** ** Normalisation *)





(** ** Support and resistance *)






(** ** Rounding to the tick size *)





(* ================================================================== *)
(** * Further properties of the validators *)

Section Validators.
Import ValidationUtils.












End Validators.

Import ValidationUtils.











(* ================================================================== *)
(** * Further properties of the signal filter *)

Section FilterGuarantees.
Import SignalFilter FilterSpec.
Variable lib : MathLib.
Variable mdata : Dict.t MarketData.t.
Variable clk : nat -> Q.










End FilterGuarantees.

Import SignalFilter FilterSpec.








(** ** The cooldown *)





Section Cooldown.
Variable lib : MathLib.
Variable mdata : Dict.t MarketData.t.
Variable clk : nat -> Q.







Hypothesis clk_not_before : forall k, clk 0%nat <= clk k.


End Cooldown.






(** ** The duplicate rule *)






Import SignalFilter FilterSpec.
(** ** The statistics *)

Section Statistics.
Variable lib : MathLib.
Variable mdata : Dict.t MarketData.t.
Variable clk : nat -> Q.









End Statistics.




(** ** The bounded history *)



Section History.
Variable lib : MathLib.





End History.



(** ** The blacklist *)





(** ** Maintenance calls *)






(* ================================================================== *)
(** * Further properties of the signal generators *)

Section TradingGenerator.
Import TradingSignalGenerator GeneratorSpec.




Lemma truediv_ok_iff (x y : Q) :
  (exists r, truediv x y = Ok r) <-> ~ y == 0.
Proof.
  unfold truediv. destruct (Qeq_bool y 0) eqn:E.
  - apply Qeq_bool_iff in E. split; [intros (r & H); discriminate H|].
    intros H. contradiction.
  - split; [|intros _; eexists; reflexivity].
    intros _ H. apply Qeq_bool_iff in H. congruence.
Qed.

Lemma truediv_raise (x y : Q) (e : PyExn) :
  truediv x y = Raise e -> e = ZeroDivisionError /\ y == 0.
Proof.
  unfold truediv. destruct (Qeq_bool y 0) eqn:E; [|discriminate].
  intros H. inversion H. split; [reflexivity|].
  apply Qeq_bool_iff. exact E.
Qed.







End TradingGenerator.

Import TradingSignalGenerator GeneratorSpec.


(** ** What [generate_signals] returns *)

Section Built.
Variable market_data : MarketData.t.








End Built.




(** ** The statistics update *)



(** ** State kept by the generator *)









(** ** Reading the history *)


